(** * ai-talk-js: conversation orchestration and file-backed message storage

    A shallow embedding of the Node.js back end
    ([be-nodejs/src/storage/FileMessageStorage.js],
    [be-nodejs/src/services/LLMService.js] and the chat service), with the
    properties of its specification stated and proved over the embedding.

    JavaScript promises are modelled sequentially: every [await] runs the
    awaited computation to completion, which is the order in which a single
    Node.js process issues the file and network operations of one call. *)

From Stdlib Require Import ZArith String Ascii List Bool Arith Lia.
Import ListNotations.
Local Open Scope string_scope.
Local Open Scope list_scope.

Set Implicit Arguments.

(* ===================================================================== *)
(** * JavaScript values and built-ins used by the services                *)
(* ===================================================================== *)

Module JS.

(** The primitive values that can reach the services as a message content
    or as a [quantity].  Numbers are integers or NaN ([parseInt] in the
    route handler produces nothing else). *)
Inductive value : Type :=
| Undefined
| Null
| Bool (b : bool)
| Num (n : Z)
| NaN
| Str (s : string).

(** [ToBoolean]: what [if (v)], [!v] and [v || w] test. *)
Definition truthy (v : value) : bool :=
  match v with
  | Undefined | Null | NaN => false
  | Bool b => b
  | Num n => negb (n =? 0)%Z
  | Str s => negb (s =? EmptyString)
  end.

(** [typeof v === 'number'] *)
Definition is_number (v : value) : bool :=
  match v with
  | Num _ | NaN => true
  | _ => false
  end.

(** [arr.slice(start)] for an integer [start]: a negative start counts from
    the end and is clamped at 0, a positive one is clamped at the length. *)
Definition slice_from {A : Type} (start : Z) (arr : list A) : list A :=
  let len := Z.of_nat (length arr) in
  let k := if (start <? 0)%Z then Z.max (len + start) 0 else Z.min start len in
  skipn (Z.to_nat k) arr.

(** [arr.slice(0, n)] for a literal [n >= 0]. *)
Definition slice_to {A : Type} (n : nat) (arr : list A) : list A := firstn n arr.

(** [Math.max(x, ...xs)] over integers, with at least one argument. *)
Fixpoint Math_max (x : Z) (xs : list Z) : Z :=
  match xs with
  | [] => x
  | y :: ys => Math_max (Z.max x y) ys
  end.

(** [s.split(sep)] for a one-character separator: every occurrence of the
    separator ends a piece, so there is always at least one piece and
    pieces may be empty. *)
Fixpoint split (sep : ascii) (s : string) : list string :=
  match s with
  | EmptyString => [EmptyString]
  | String c rest =>
      if Ascii.eqb c sep then EmptyString :: split sep rest
      else match split sep rest with
           | [] => [String c EmptyString]
           | piece :: pieces => String c piece :: pieces
           end
  end.

(** [arr.join(sep)] on an array of strings. *)
Definition join (sep : string) (arr : list string) : string := String.concat sep arr.

End JS.

(* ===================================================================== *)
(** * Data model                                                          *)
(* ===================================================================== *)

(** [{role, content}]: what is sent to the LLM and what a chat turn holds. *)
Record chatMessage : Type := { role : string; content : JS.value }.

(** One element of [response.choices]; [message] may be missing. *)
Record choice : Type := { message : option chatMessage }.

(** The body of the upstream reply ([response.data] with [choices] present or
    not).  Where a completion is expected, [None] is the body [null].  A
    body without a [choices] property has [choices := None]: an object
    without it, and also the empty string that an empty reply arrives as,
    which the code treats alike. *)
Record completion : Type := { choices : option (list choice) }.

(** The request body built by [LLMService.sendMessage]. *)
Record requestBody : Type := { messages : list chatMessage; model : string }.

(** [{title, content: {request, response}}]: the fields of a request log entry. *)
Record logEntry : Type :=
  { title : string; request : requestBody; response : option completion }.

(** An ISO-8601 timestamp, as [Date.prototype.toISOString] writes it, is
    represented by the instant it denotes (milliseconds since the epoch).
    Such a string is never empty, so a timestamp that is present is truthy. *)
Definition isoString : Type := Z.

(** The object handed to [addMessage]: the caller's fields and its
    [timestamp] property, absent or an ISO string.  Every caller in the
    repository builds this object from a literal with the properties
    [content], [role], [title] and [timestamp] only, so it never carries an
    [id] of its own. *)
Record payload (A : Type) : Type := { fields : A; timestamp : option isoString }.

(** A stored record: the caller's fields, the generated [id] and the
    [timestamp] that was filled in.  Ids are integers: the numbers the store
    generates are exact in JavaScript as long as they stay below 2^53. *)
Record record (A : Type) : Type := { id : Z; stored : A; at_time : isoString }.

(** What a storage file holds: a JSON array of records, or text that
    [JSON.parse] rejects. *)
Inductive document (A : Type) : Type :=
| Garbled
| Json (records : list A).
Arguments Garbled {A}.

(** The records [readMessages] yields for a document. *)
Definition view {A : Type} (d : document A) : list A :=
  match d with
  | Garbled => []
  | Json records => records
  end.

(* ===================================================================== *)
(** * The world the process runs in                                       *)
(* ===================================================================== *)

(** Mutable state outside the process: the two storage files ([None] when the
    file does not exist), counters for the file-system calls and clock reads
    issued so far, and the request bodies posted to the LLM endpoint, oldest
    first. *)
Record World : Type :=
  { messagesJson : option (document (record chatMessage));
    requestsJson : option (document (record logEntry));
    fsCalls : nat;
    dateCalls : nat;
    posted : list requestBody }.

(** What the process cannot control: which file-system calls fail, the prompt
    directory, the upstream endpoint, the clock, and the configuration the
    services were constructed with. *)
Record Env : Type :=
  { diskFault : nat -> bool;
    (** [diskFault n]: the [n]-th file-system call on a storage file fails *)
    prompts : string -> string + string;
    (** reading a file of the prompts directory: the error message of the
        failed read, or the file's content *)
    upstream : requestBody -> string + option completion;
    (** [axios.post]: the error message of a rejected call, or [response.data] *)
    isoDate : nat -> isoString;
    (** what the [n]-th [new Date().toISOString()] returns *)
    llmModel : string;
    (** [this.model] of the LLM service *)
    requestStorage : bool
    (** whether a request storage was given to the services *) }.

(** No storage file operation fails. *)
Definition healthy (env : Env) : Prop := forall n, diskFault env n = false.

(** ** Computations that may throw

    A thrown [Error] is represented by its [message].  A throw keeps the
    mutations made before it. *)

Inductive outcome (A : Type) : Type :=
| Returned (a : A)
| Threw (msg : string).
Arguments Threw {A} msg.

Definition M (A : Type) : Type := World -> outcome A * World.

Definition ret {A : Type} (a : A) : M A := fun w => (Returned a, w).

Definition throw {A : Type} (msg : string) : M A := fun w => (Threw msg, w).

Definition bind {A B : Type} (c : M A) (k : A -> M B) : M B :=
  fun w =>
    match c w with
    | (Returned a, w') => k a w'
    | (Threw msg, w') => (Threw msg, w')
    end.

(** [try { c } catch (error) { handler(error.message) }] *)
Definition try_catch {A : Type} (c : M A) (handler : string -> M A) : M A :=
  fun w =>
    match c w with
    | (Returned a, w') => (Returned a, w')
    | (Threw msg, w') => handler msg w'
    end.

Declare Scope js_scope.
Delimit Scope js_scope with js.
Notation "x <- c ;; k" := (bind c (fun x => k))
  (at level 100, c at next level, right associativity) : js_scope.
Notation "c ;; k" := (bind c (fun _ => k))
  (at level 100, right associativity) : js_scope.
Local Open Scope js_scope.

(** [new Date().toISOString()] *)
Definition Date_now (env : Env) : M isoString :=
  fun w =>
    (Returned (isoDate env (dateCalls w)),
     {| messagesJson := messagesJson w; requestsJson := requestsJson w;
        fsCalls := fsCalls w; dateCalls := S (dateCalls w); posted := posted w |}).

(** The one-character string holding a double quote. *)
Definition dquote : string := String (ascii_of_nat 34) EmptyString.

(** [PromptService.loadPrompt]: a failure to read the file is rethrown with
    the prompt's name. *)
Definition loadPrompt (env : Env) (promptName : string) : M string :=
  match prompts env promptName with
  | inr text => ret text
  | inl msg =>
      throw ("Failed to load prompt " ++ dquote ++ promptName ++ dquote ++ ": " ++ msg)
  end.

(* ===================================================================== *)
(** * storage/FileMessageStorage.js                                       *)
(* ===================================================================== *)

(** A storage instance is its [filePath]: here, the place of its file in the
    world.  The class is generic in what it stores. *)
Record FileMessageStorage (A : Type) : Type :=
  { readPath : World -> option (document (record A));
    writePath : document (record A) -> World -> World }.

(** [messages.json] *)
Definition messageStorage : FileMessageStorage chatMessage :=
  {| readPath := messagesJson;
     writePath := fun d w =>
       {| messagesJson := Some d; requestsJson := requestsJson w;
          fsCalls := fsCalls w; dateCalls := dateCalls w; posted := posted w |} |}.

(** [requests.json] *)
Definition requestStore : FileMessageStorage logEntry :=
  {| readPath := requestsJson;
     writePath := fun d w =>
       {| messagesJson := messagesJson w; requestsJson := Some d;
          fsCalls := fsCalls w; dateCalls := dateCalls w; posted := posted w |} |}.

Module Fs.

(** Count one more file-system call. *)
Definition tick (w : World) : World :=
  {| messagesJson := messagesJson w; requestsJson := requestsJson w;
     fsCalls := S (fsCalls w); dateCalls := dateCalls w; posted := posted w |}.

Section Calls.
Variable env : Env.
Variable A : Type.
Variable this : FileMessageStorage A.

(** [fs.readFile(this.filePath, 'utf8')] *)
Definition readFile : M (document (record A)) :=
  fun w =>
    if diskFault env (fsCalls w) then (Threw "EIO: i/o error, read", tick w)
    else match readPath this w with
         | None => (Threw "ENOENT: no such file or directory, open", tick w)
         | Some d => (Returned d, tick w)
         end.

(** [fs.writeFile(this.filePath, text, 'utf8')]: replaces the whole file,
    creating it when it does not exist. *)
Definition writeFile (d : document (record A)) : M unit :=
  fun w =>
    if diskFault env (fsCalls w) then (Threw "EIO: i/o error, write", tick w)
    else (Returned tt, writePath this d (tick w)).

(** [fs.access(this.filePath)]: succeeds when the file exists. *)
Definition access : M unit :=
  fun w =>
    if diskFault env (fsCalls w) then (Threw "EIO: i/o error, access", tick w)
    else match readPath this w with
         | None => (Threw "ENOENT: no such file or directory, access", tick w)
         | Some _ => (Returned tt, tick w)
         end.

End Calls.
End Fs.

(** [JSON.parse(data)] *)
Definition JSON_parse {A : Type} (data : document A) : M (list A) :=
  match data with
  | Garbled => throw "SyntaxError: Unexpected token in JSON"
  | Json records => ret records
  end.

Module FileMessageStorage.
Section Methods.
Variable env : Env.
Variable A : Type.
Variable this : FileMessageStorage A.

(** Run by the constructor: a missing file is created holding [[]]. *)
Definition ensureFileExists : M unit :=
  try_catch (Fs.access env this) (fun _ => Fs.writeFile env this (Json [])).

Definition readMessages : M (list (record A)) :=
  data <- Fs.readFile env this ;;
  try_catch (JSON_parse data) (fun _ => ret []).

Definition writeMessages (messages : list (record A)) : M unit :=
  Fs.writeFile env this (Json messages).

(** [messages.length > 0 ? Math.max(...messages.map(m => m.id)) : 0] *)
Definition maxId (messages : list (record A)) : Z :=
  match map (@id A) messages with
  | [] => 0%Z
  | x :: xs => JS.Math_max x xs
  end.

(** [message.timestamp || new Date().toISOString()] *)
Definition timestamp_or_now (message : payload A) : M isoString :=
  match timestamp message with
  | Some t => ret t
  | None => Date_now env
  end.

Definition addMessage (message : payload A) : M (record A) :=
  messages <- readMessages ;;
  let maxId := maxId messages in
  t <- timestamp_or_now message ;;
  let newMessage := {| id := (maxId + 1)%Z; stored := fields message; at_time := t |} in
  writeMessages (messages ++ [newMessage])%list ;;
  ret newMessage.

Definition clearMessages : M unit := writeMessages [].

(** [quantity] defaults to [null] and [reverseOrder] to [false]. *)
Definition getMessages (quantity : JS.value) (reverseOrder : bool) : M (list (record A)) :=
  messages <- readMessages ;;
  if JS.truthy quantity && JS.is_number quantity then
    match quantity with
    | JS.Num q =>
        let recentMessages := JS.slice_from (- q) messages in
        ret (if reverseOrder then rev recentMessages else recentMessages)
    | _ => ret (if reverseOrder then rev messages else messages)
    end
  else ret (if reverseOrder then rev messages else messages).

End Methods.
End FileMessageStorage.

(* ===================================================================== *)
(** * services/LLMService.js                                              *)
(* ===================================================================== *)

Module LLMService.
Section Methods.
Variable env : Env.

(** [axios.post(this.apiUrl, requestBody, ...)], returning [response.data]
    or throwing the transport error. *)
Definition axios_post (requestBody : requestBody) : M (option completion) :=
  fun w =>
    let w' := {| messagesJson := messagesJson w; requestsJson := requestsJson w;
                 fsCalls := fsCalls w; dateCalls := dateCalls w;
                 posted := (posted w ++ [requestBody])%list |} in
    match upstream env requestBody with
    | inl msg => (Threw msg, w')
    | inr data => (Returned data, w')
    end.

(** [userMessages.length > 0 ? userMessages[userMessages.length - 1].content : ''] *)
Definition lastUserMessage (request : requestBody) : JS.value :=
  let userMessages := filter (fun msg => role msg =? "user") (messages request) in
  match rev userMessages with
  | [] => JS.Str EmptyString
  | msg :: _ => content msg
  end.

(** [response.choices && response.choices.length > 0
     ? response.choices[0].message.content : ''] *)
Definition responseContent (response : option completion) : M JS.value :=
  match response with
  | None => throw "TypeError: Cannot read properties of null (reading 'choices')"
  | Some data =>
      match choices data with
      | None | Some [] => ret (JS.Str EmptyString)
      | Some (first :: _) =>
          match message first with
          | None => throw "TypeError: Cannot read properties of undefined (reading 'content')"
          | Some msg => ret (content msg)
          end
      end
  end.

(** [lastUserMessage.split(' ').slice(0, 5).join(' ')] *)
Definition titleWords (lastUserMessage : string) : string :=
  JS.join " " (JS.slice_to 5 (JS.split " "%char lastUserMessage)).

(** [titleWords + (lastUserMessage.length > titleWords.length ? '...' : '')] *)
Definition makeTitle (lastUserMessage : string) : string :=
  let titleWords := titleWords lastUserMessage in
  titleWords ++ (if (String.length titleWords <? String.length lastUserMessage)%nat
                 then "..." else EmptyString).

Definition storeRequest (request : requestBody) (response : option completion) : M unit :=
  if requestStorage env then
    try_catch
      (let lastUserMessage := lastUserMessage request in
       _ <- responseContent response ;;
       title <- match lastUserMessage with
                | JS.Str s => ret (makeTitle s)
                | _ => throw "TypeError: lastUserMessage.split is not a function"
                end ;;
       now <- Date_now env ;;
       _ <- FileMessageStorage.addMessage env requestStore
              {| fields := {| title := title; request := request; response := response |};
                 timestamp := Some now |} ;;
       ret tt)
      (fun _ => ret tt)
  else ret tt.

(** Called by the chat service with no [options]: the model is [this.model]. *)
Definition sendMessage (messages : list chatMessage) : M (option completion) :=
  try_catch
    (let requestBody := {| messages := messages; model := llmModel env |} in
     data <- axios_post requestBody ;;
     storeRequest requestBody data ;;
     ret data)
    (fun msg => throw ("Failed to get LLM response: " ++ msg)).

End Methods.
End LLMService.

(* ===================================================================== *)
(** * services/ChatService.js                                             *)
(* ===================================================================== *)

(** [Promise.all([p1, p2])] for two operations that were both started, in
    this order, before the wait: both run, and the first rejection wins. *)
Definition Promise_all2 (p1 p2 : M unit) : M unit :=
  fun w =>
    let '(r1, w1) := p1 w in
    let '(r2, w2) := p2 w1 in
    match r1, r2 with
    | Threw msg, _ => (Threw msg, w2)
    | Returned _, Threw msg => (Threw msg, w2)
    | Returned _, Returned _ => (Returned tt, w2)
    end.

(** [messageData] of [ChatService.addMessage]: [role] and [timestamp] may be
    absent. *)
Record messageData : Type :=
  { data_content : JS.value; data_role : option string; data_timestamp : option isoString }.

Module ChatService.
Section Methods.
Variable env : Env.

Definition validateUserMessage (content : JS.value) : M unit :=
  if negb (JS.truthy content) then throw "Message content is required" else ret tt.

(** The log line calls [content.substring], which only a string has. *)
Definition storeUserMessage (content : JS.value) (role : string) : M (record chatMessage) :=
  now <- Date_now env ;;
  message <- FileMessageStorage.addMessage env messageStorage
               {| fields := {| role := role; content := content |}; timestamp := Some now |} ;;
  match content with
  | JS.Str _ => ret message
  | _ => throw "TypeError: content.substring is not a function"
  end.

(** [msg => ({ role: msg.role, content: msg.content })] *)
Definition strip (msg : record chatMessage) : chatMessage :=
  {| role := role (stored msg); content := content (stored msg) |}.

Definition prepareConversationHistory (userContent : JS.value) (userRole : string)
  : M (list chatMessage) :=
  try_catch
    (systemPrompt <- loadPrompt env "system.prompt.xml" ;;
     previousMessages <- FileMessageStorage.getMessages env messageStorage JS.Null false ;;
     ret ({| role := "system"; content := JS.Str systemPrompt |}
          :: map strip previousMessages))
    (fun _ =>
       previousMessages <- FileMessageStorage.getMessages env messageStorage JS.Null false ;;
       ret (map strip previousMessages
              ++ [{| role := userRole; content := userContent |}])%list).

(** [!response || !response.choices || response.choices.length === 0] *)
Definition validateLLMResponse (response : option completion) : M unit :=
  match response with
  | None => throw "Invalid response from LLM service"
  | Some data =>
      match choices data with
      | None | Some [] => throw "Invalid response from LLM service"
      | Some (_ :: _) => ret tt
      end
  end.

Definition getLLMResponse (messages : list chatMessage) : M (option completion) :=
  try_catch
    (response <- LLMService.sendMessage env messages ;;
     validateLLMResponse response ;;
     ret response)
    (fun msg => throw ("LLM API call failed: " ++ msg)).

(** [llmResponse.choices[0].message.content] *)
Definition extractAssistantContent (llmResponse : option completion) : M JS.value :=
  match llmResponse with
  | None => throw "TypeError: Cannot read properties of null (reading 'choices')"
  | Some data =>
      match choices data with
      | None => throw "TypeError: Cannot read properties of undefined (reading '0')"
      | Some [] => throw "TypeError: Cannot read properties of undefined (reading 'message')"
      | Some (first :: _) =>
          match message first with
          | None => throw "TypeError: Cannot read properties of undefined (reading 'content')"
          | Some msg => ret (content msg)
          end
      end
  end.

Definition storeAssistantMessage (content : JS.value) : M (payload chatMessage) :=
  now <- Date_now env ;;
  assistantMessage <- FileMessageStorage.addMessage env messageStorage
                        {| fields := {| role := "assistant"; content := content |};
                           timestamp := Some now |} ;;
  ret {| fields := {| role := "assistant"; content := content |};
         timestamp := Some (at_time assistantMessage) |}.

(** [userRole] defaults to ['user']. *)
Definition processUserMessage (userContent : JS.value) (userRole : string)
  : M (payload chatMessage) :=
  validateUserMessage userContent ;;
  storeUserMessage userContent userRole ;;
  conversationHistory <- prepareConversationHistory userContent userRole ;;
  llmResponse <- getLLMResponse conversationHistory ;;
  responseContent <- extractAssistantContent llmResponse ;;
  assistantMessage <- storeAssistantMessage responseContent ;;
  ret assistantMessage.

(** [limit] defaults to [null]. *)
Definition getAllMessages (limit : JS.value) : M (list (record chatMessage)) :=
  FileMessageStorage.getMessages env messageStorage limit false.

(** Both branches of the [try] return the promise of [getAllMessages]
    without awaiting it, so its rejection is not caught by the [catch]. *)
Definition clearAllMessages : M (list (record chatMessage)) :=
  let clearMessagesPromise := FileMessageStorage.clearMessages env messageStorage in
  let clearRequestsPromise :=
    if requestStorage env then FileMessageStorage.clearMessages env requestStore
    else ret tt in
  Promise_all2 clearMessagesPromise clearRequestsPromise ;;
  returned <- try_catch
    (initialMessage <- loadPrompt env "initial-message.html" ;;
     now <- Date_now env ;;
     _ <- FileMessageStorage.addMessage env messageStorage
            {| fields := {| role := "assistant"; content := JS.Str initialMessage |};
               timestamp := Some now |} ;;
     ret (getAllMessages JS.Null))
    (fun _ => ret (getAllMessages JS.Null)) ;;
  returned.

Definition validateMessageContent (content : JS.value) : M unit :=
  if negb (JS.truthy content) then throw "Message content is required" else ret tt.

(** [role: messageData.role || 'user'],
    [timestamp: messageData.timestamp || new Date().toISOString()] *)
Definition formatMessage (messageData : messageData) : M (payload chatMessage) :=
  let role := match data_role messageData with
              | Some r => if (r =? EmptyString) then "user" else r
              | None => "user"
              end in
  t <- match data_timestamp messageData with
       | Some t => ret t
       | None => Date_now env
       end ;;
  ret {| fields := {| role := role; content := data_content messageData |};
         timestamp := Some t |}.

Definition addMessage (messageData : messageData) : M (record chatMessage) :=
  validateMessageContent (data_content messageData) ;;
  formattedMessage <- formatMessage messageData ;;
  FileMessageStorage.addMessage env messageStorage formattedMessage.

End Methods.
End ChatService.

(* ===================================================================== *)
(** * Vocabulary of the specification                                     *)
(* ===================================================================== *)

(** The records of the Message Store and of the Request Store as a reader
    sees them: a missing or unparsable file shows no record. *)
Definition turns (w : World) : list (record chatMessage) :=
  match messagesJson w with
  | Some d => view d
  | None => []
  end.

Definition logged (w : World) : list (record logEntry) :=
  match requestsJson w with
  | Some d => view d
  | None => []
  end.

(** [top] is the maximum id of [records], the maximum of no record being 0. *)
Definition maximum_id {A : Type} (records : list (record A)) (top : Z) : Prop :=
  (records = [] /\ top = 0%Z) \/
  (In top (map (@id A) records) /\ forall r, In r records -> (id r <= top)%Z).

(** The last [n] elements of a list, in the order of the list. *)
Definition last_n {A : Type} (n : nat) (l : list A) : list A :=
  rev (firstn n (rev l)).

(** A call on the Message Store. *)
Inductive call : Type :=
| Append (message : payload chatMessage)
| Clear.

(** Issue the calls one after the other, whatever each one answers. *)
Fixpoint issue (env : Env) (calls : list call) (w : World) : World :=
  match calls with
  | [] => w
  | Append message :: rest =>
      issue env rest (snd (FileMessageStorage.addMessage env messageStorage message w))
  | Clear :: rest =>
      issue env rest (snd (FileMessageStorage.clearMessages env messageStorage w))
  end.

(** Append the messages one after the other and collect the id of the Turn
    each append returns ([None] for an append that throws). *)
Fixpoint returned_ids (env : Env) (run : list (payload chatMessage)) (w : World)
  : list (option Z) :=
  match run with
  | [] => []
  | message :: rest =>
      let '(answer, w') := FileMessageStorage.addMessage env messageStorage message w in
      match answer with
      | Returned turn => Some (id turn)
      | Threw _ => None
      end :: returned_ids env rest w'
  end.

(** The world once the Message Store has been constructed on it. *)
Definition opened (env : Env) (w : World) : World :=
  snd (FileMessageStorage.ensureFileExists env messageStorage w).

(** The record [addMessage] builds for [message] when the file shows
    [messages] and the clock has been read [reads] times, and the number of
    clock reads afterwards. *)
Definition built (env : Env) (A : Type) (messages : list (record A))
           (message : payload A) (reads : nat) : record A :=
  {| id := (FileMessageStorage.maxId messages + 1)%Z;
     stored := fields message;
     at_time := match timestamp message with
                | Some t => t
                | None => isoDate env reads
                end |}.

Definition reads_after (A : Type) (message : payload A) (reads : nat) : nat :=
  match timestamp message with
  | Some _ => reads
  | None => S reads
  end.

(** The message of the first choice of a completion, when the completion has
    a body, a non-empty [choices] array and a [message] in its first
    element: the completions the chat service can take a reply from. *)
Definition firstMessage (data : option completion) : option chatMessage :=
  match data with
  | Some {| choices := Some (first :: _) |} => message first
  | _ => None
  end.

(** The system prompt as a message of the context. *)
Definition systemMessage (systemPrompt : string) : chatMessage :=
  {| role := "system"; content := JS.Str systemPrompt |}.

(** A computation that leaves the Message Store file and the list of posted
    requests as they were, whatever it answers. *)
Definition aside (A : Type) (c : M A) : Prop :=
  forall w, messagesJson (snd (c w)) = messagesJson w /\ posted (snd (c w)) = posted w.

Definition chatMessage_eq_dec (x y : chatMessage) : {x = y} + {x <> y}.
Proof.
  repeat decide equality.
Defined.

(** How many times a message occurs in a conversation context. *)
Definition occurrences (m : chatMessage) (context : list chatMessage) : nat :=
  count_occ chatMessage_eq_dec context m.

(** ** Titles of request log entries, as the specification words them *)

(** White space: space, tab, line feed, vertical tab, form feed, carriage
    return. *)
Definition is_space (c : ascii) : bool :=
  (Ascii.eqb c " " || Ascii.eqb c "009" || Ascii.eqb c "010" || Ascii.eqb c "011"
   || Ascii.eqb c "012" || Ascii.eqb c "013")%char.

(** Cut a string at every character that satisfies [sep]. *)
Fixpoint cut (sep : ascii -> bool) (s : string) : list string :=
  match s with
  | EmptyString => [EmptyString]
  | String c rest =>
      if sep c then EmptyString :: cut sep rest
      else match cut sep rest with
           | [] => [String c EmptyString]
           | piece :: pieces => String c piece :: pieces
           end
  end.

(** The whitespace-separated words of a text. *)
Definition words (s : string) : list string :=
  filter (fun piece => negb (piece =? EmptyString)) (cut is_space s).

(** The title the specification describes: the first 5 whitespace-separated
    words, joined by single spaces, followed by [...] when the text is longer
    than that. *)
Definition title_of_first_words (s : string) : string :=
  let prefix := String.concat " " (firstn 5 (words s)) in
  (prefix ++ (if (String.length prefix <? String.length s)%nat then "..." else EmptyString))%string.

(** No character of the string is white space. *)
Fixpoint spaceless (s : string) : bool :=
  match s with
  | EmptyString => true
  | String c rest => negb (is_space c) && spaceless rest
  end.

(** The words of the text are separated by exactly one space each, with no
    other white space anywhere. *)
Definition single_spaced (s : string) : bool :=
  forallb (fun piece => negb (piece =? EmptyString) && spaceless piece)
          (JS.split " " s).

(** [m] is the last message of role [user] in the request. *)
Definition last_user_message (rq : requestBody) (m : chatMessage) : Prop :=
  exists before after,
    messages rq = before ++ m :: after /\
    role m = "user" /\
    forall x, In x after -> role x <> "user".

(** The completions for which [storeRequest] can read a response content:
    a body with no choice, or one whose first choice carries a message. *)
Definition loggable (data : option completion) : bool :=
  match data with
  | None => false
  | Some {| choices := Some (first :: _) |} =>
      match message first with Some _ => true | None => false end
  | Some _ => true
  end.

(** ** Storage failures, as the specification words them *)

(** The persisted record set of the Message Store cannot be read (the read
    fails or there is no file) or cannot be parsed. *)
Definition unreadable (env : Env) (w : World) : Prop :=
  diskFault env (fsCalls w) = true \/ messagesJson w = None.

Definition unparsable (w : World) : Prop := messagesJson w = Some Garbled.

(** The operation in progress fails: it throws. *)
Definition fails (A : Type) (c : M A) (w : World) : Prop :=
  exists msg, fst (c w) = Threw msg.

(* ===================================================================== *)
(** * services/LLMService.js: calls with options, and construction       *)
(* ===================================================================== *)

(** The [options] of a call.  The only option the service itself reads or
    sets is [model]; it is absent or a string. *)
Record callOptions : Type := { option_model : option string }.

(** [{}] *)
Definition noOptions : callOptions := {| option_model := None |}.

(** A string read from the configuration is usable when it is present and
    not empty: what [!value] tests. *)
Definition configured (value : option string) : bool :=
  match value with
  | Some text => negb (text =? EmptyString)
  | None => false
  end.

(** [apiConfig.openai]: the four environment variables. *)
Record openaiConfig : Type :=
  { apiKey : option string;
    apiUrl : option string;
    configModel : option string;
    additionalModel : option string }.

(** The fields of a constructed [LLMService]. *)
Record llmService : Type :=
  { service_apiKey : option string;
    service_apiUrl : option string;
    service_model : option string;
    service_additionalModel : option string;
    service_requestStorage : bool }.

(** What [continueConversation] returns. *)
Record continued : Type :=
  { conversation : list (option chatMessage);
    (** the messages sent, then [choices[0].message] when there is a choice:
        [None] is the [undefined] pushed when that choice has no message *)
    continued_response : option completion }.

Module LLMServiceAPI.
Section Methods.
Variable env : Env.

(** [this.additionalModel] *)
Variable additional : option string.

(** [{ messages, model: options.model || this.model, ...options }]: the
    spread copies the [model] of [options] over the one computed before it
    whenever [options] has one. *)
Definition buildRequestBody (messages : list chatMessage) (options : callOptions)
  : requestBody :=
  let fallback := match option_model options with
                  | Some m => if (m =? EmptyString)%string then llmModel env else m
                  | None => llmModel env
                  end in
  {| messages := messages;
     model := match option_model options with
              | Some m => m
              | None => fallback
              end |}.

Definition sendMessage (messages : list chatMessage) (options : callOptions)
  : M (option completion) :=
  try_catch
    (let requestBody := buildRequestBody messages options in
     data <- LLMService.axios_post env requestBody ;;
     LLMService.storeRequest env requestBody data ;;
     ret data)
    (fun msg => throw ("Failed to get LLM response: " ++ msg)).

(** [if (response.choices && response.choices.length > 0)
      return response.choices[0].message.content;
    throw new Error('No response content from LLM')] *)
Definition firstContent (response : option completion) : M JS.value :=
  match response with
  | None => throw "TypeError: Cannot read properties of null (reading 'choices')"
  | Some data =>
      match choices data with
      | None | Some [] => throw "No response content from LLM"
      | Some (first :: _) =>
          match message first with
          | None => throw "TypeError: Cannot read properties of undefined (reading 'content')"
          | Some msg => ret (content msg)
          end
      end
  end.

Definition ask (content : JS.value) (options : callOptions) : M JS.value :=
  let messages := [{| role := "user"; content := content |}] in
  response <- sendMessage messages options ;;
  firstContent response.

Definition continueConversation (conversation : list chatMessage) (newMessage : JS.value)
    (options : callOptions) : M continued :=
  let messages := conversation ++ [{| role := "user"; content := newMessage |}] in
  response <- sendMessage messages options ;;
  match response with
  | None => throw "TypeError: Cannot read properties of null (reading 'choices')"
  | Some data =>
      match choices data with
      | None | Some [] =>
          ret {| conversation := map Some messages; continued_response := response |}
      | Some (first :: _) =>
          ret {| conversation := map Some messages ++ [message first];
                 continued_response := response |}
      end
  end.

(** [{ ...options, model: this.additionalModel }] *)
Definition additionalOptions (options : callOptions) : callOptions :=
  {| option_model := additional |}.

Definition sendMessageWithAdditionalModel (messages : list chatMessage)
    (options : callOptions) : M (option completion) :=
  if negb (configured additional) then sendMessage messages options
  else sendMessage messages (additionalOptions options).

Definition askWithAdditionalModel (content : JS.value) (options : callOptions)
  : M JS.value :=
  if negb (configured additional) then ask content options
  else
    let messages := [{| role := "user"; content := content |}] in
    response <- sendMessage messages (additionalOptions options) ;;
    firstContent response.

End Methods.

(** [new LLMService(config)]: the three required settings are checked in
    turn; a missing additional model only warns. *)
Definition construct (config : openaiConfig) (requestStorage : bool) : outcome llmService :=
  if negb (configured (apiKey config)) then Threw "LLM API key is required"
  else if negb (configured (apiUrl config)) then Threw "LLM API URL is required"
  else if negb (configured (configModel config)) then Threw "LLM model is required"
  else Returned {| service_apiKey := apiKey config;
                   service_apiUrl := apiUrl config;
                   service_model := configModel config;
                   service_additionalModel := additionalModel config;
                   service_requestStorage := requestStorage |}.

(** [requestStorage] defaults to [null]. *)
Definition createLLMService (config : openaiConfig) (requestStorage : bool)
  : outcome llmService :=
  if negb (configured (apiKey config)) || negb (configured (apiUrl config))
     || negb (configured (configModel config))
  then Threw "Missing required environment variables (LLM_KEY, LLM_API_URL, LLM_MODEL)."
  else construct config requestStorage.

End LLMServiceAPI.

(** The fields of a constructed [ChatService] that depend on its arguments. *)
Record chatService : Type :=
  { chat_requestStorage : bool;
    chat_llmService : llmService }.

Module ChatServiceSetup.

(** [try { return createLLMService(requestStorage) } catch (error) { throw ... }] *)
Definition initializeLLMService (config : openaiConfig) (requestStorage : bool)
  : outcome llmService :=
  match LLMServiceAPI.createLLMService config requestStorage with
  | Returned service => Returned service
  | Threw msg => Threw ("Failed to initialize ChatService: " ++ msg)
  end.

(** [new ChatService(messageStorage, requestStorage)] *)
Definition construct (config : openaiConfig) (requestStorage : bool) : outcome chatService :=
  match initializeLLMService config requestStorage with
  | Returned service =>
      Returned {| chat_requestStorage := requestStorage; chat_llmService := service |}
  | Threw msg => Threw msg
  end.

(** [createChatService(messageStorage, requestStorage)]: [messageStorage]
    is given or not. *)
Definition createChatService (config : openaiConfig) (messageStorage : bool)
    (requestStorage : bool) : outcome chatService :=
  if negb messageStorage then Threw "Message storage is required for ChatService"
  else construct config requestStorage.

End ChatServiceSetup.

(* ===================================================================== *)
(** * services/TextEnhancementService.js                                  *)
(* ===================================================================== *)

Module JSString.

(** The characters [trim] strips are the WhiteSpace and LineTerminator of
    ECMAScript.  A string is read here as the sequence of its characters,
    each with a code below 256; those of them that [trim] strips are U+0009
    to U+000D, U+0020 and the no-break space U+00A0. *)
Definition isWhiteSpace (c : ascii) : bool :=
  is_space c || Ascii.eqb c "160"%char.

(** [s.trimStart()] *)
Fixpoint trimStart (s : string) : string :=
  match s with
  | EmptyString => EmptyString
  | String c rest => if isWhiteSpace c then trimStart rest else s
  end.

(** [s.trimEnd()] *)
Fixpoint trimEnd (s : string) : string :=
  match s with
  | EmptyString => EmptyString
  | String c rest =>
      match trimEnd rest with
      | EmptyString => if isWhiteSpace c then EmptyString else String c EmptyString
      | kept => String c kept
      end
  end.

(** [s.trim()] *)
Definition trim (s : string) : string := trimEnd (trimStart s).

End JSString.

(** [{ success: true, originalText, enhancedText, timestamp }] *)
Record enhancement : Type :=
  { originalText : string; enhancedText : string; enhanced_at : isoString }.

Module TextEnhancementService.
Section Methods.
Variable env : Env.

(** [!originalText || typeof originalText !== 'string'
     || originalText.trim().length === 0] *)
Definition validateTextInput (originalText : JS.value) : M string :=
  match originalText with
  | JS.Str text =>
      if (text =? EmptyString)%string || (String.length (JSString.trim text) =? 0)%nat
      then throw "Valid text content is required for enhancement"
      else ret text
  | _ => throw "Valid text content is required for enhancement"
  end.

Definition getEnhancementPrompt : M string :=
  loadPrompt env "text-enhancement.prompt.xml".

Definition buildLLMMessages (systemPrompt : string) (originalText : string)
  : list chatMessage :=
  [{| role := "system"; content := JS.Str systemPrompt |};
   {| role := "user"; content := JS.Str (JSString.trim originalText) |}].

Definition sendToLLM (messages : list chatMessage) : M (option completion) :=
  LLMService.sendMessage env messages.

(** [!llmResponse || !llmResponse.choices || !llmResponse.choices[0]
     || !llmResponse.choices[0].message] *)
Definition validateLLMResponse (llmResponse : option completion) : M unit :=
  match firstMessage llmResponse with
  | Some _ => ret tt
  | None => throw "Invalid response from LLM service"
  end.

(** [llmResponse.choices[0].message.content], on a validated response.
    The catch of [enhanceText] quotes [error.message], so in this service a
    TypeError is given by its message alone, without its name. *)
Definition extractEnhancedContent (llmResponse : option completion) : M JS.value :=
  match firstMessage llmResponse with
  | Some msg => ret (content msg)
  | None => throw "Cannot read properties of undefined (reading 'message')"
  end.

(** [enhancedContent.trim()] throws when the content is not a string. *)
Definition buildSuccessResponse (originalText : string) (enhancedContent : JS.value)
  : M enhancement :=
  match enhancedContent with
  | JS.Str text =>
      now <- Date_now env ;;
      ret {| originalText := JSString.trim originalText;
             enhancedText := JSString.trim text;
             enhanced_at := now |}
  | JS.Undefined => throw "Cannot read properties of undefined (reading 'trim')"
  | JS.Null => throw "Cannot read properties of null (reading 'trim')"
  | _ => throw "enhancedContent.trim is not a function"
  end.

Definition enhanceText (originalText : JS.value) : M enhancement :=
  try_catch
    (text <- validateTextInput originalText ;;
     systemPrompt <- getEnhancementPrompt ;;
     let messages := buildLLMMessages systemPrompt text in
     llmResponse <- sendToLLM messages ;;
     validateLLMResponse llmResponse ;;
     enhancedContent <- extractEnhancedContent llmResponse ;;
     buildSuccessResponse text enhancedContent)
    (fun msg => throw ("Text enhancement failed: " ++ msg)).

End Methods.
End TextEnhancementService.

(* ===================================================================== *)
(** * services/ReviewSummaryService.js: validation and filters            *)
(* ===================================================================== *)

(** [review.rating]: an integer, or any other value (a fraction, NaN, a
    string, nothing), which is all that [Number.isInteger] rejects. *)
Inductive ratingValue : Type :=
| Whole (n : Z)
| NotWhole.

(** A review object: [text], [rating] and the optional [sentiment]. *)
Record review : Type :=
  { text : JS.value; rating : ratingValue; sentiment : JS.value }.

Module ReviewSummaryService.

(** [!review.text || typeof review.text !== 'string'
     || !Number.isInteger(review.rating) || review.rating < 1 || review.rating > 5] *)
Definition invalidReview (r : review) : bool :=
  negb (match text r with
        | JS.Str s => negb (s =? EmptyString)%string
        | _ => false
        end)
  || match rating r with
     | Whole n => (n <? 1)%Z || (5 <? n)%Z
     | NotWhole => true
     end.

(** The argument is an array (the route checks it as well): only its length
    and its elements are tested here. *)
Definition validateReviews (reviews : list review) : outcome unit :=
  match reviews with
  | [] => Threw "At least one review is required"
  | _ :: _ =>
      match find invalidReview reviews with
      | Some _ => Threw "All reviews must have valid text and rating (1-5)"
      | None => Returned tt
      end
  end.

(** [review.rating >= minRating], evaluated on validated reviews only. *)
Definition atLeast (minRating : Z) (r : review) : bool :=
  match rating r with
  | Whole n => (minRating <=? n)%Z
  | NotWhole => false
  end.

Definition filterReviewsByRating (reviews : list review) (minRating : ratingValue)
  : outcome (list review) :=
  match validateReviews reviews with
  | Threw msg => Threw msg
  | Returned _ =>
      match minRating with
      | Whole m =>
          if (m <? 1)%Z || (5 <? m)%Z
          then Threw "Minimum rating must be an integer between 1 and 5"
          else Returned (filter (atLeast m) reviews)
      | NotWhole => Threw "Minimum rating must be an integer between 1 and 5"
      end
  end.

(** [['positive', 'negative', 'mixed']] *)
Definition validSentiments : list string := ["positive"; "negative"; "mixed"].

(** [review.sentiment === sentimentType] for a string [sentimentType]. *)
Definition hasSentiment (sentimentType : string) (r : review) : bool :=
  match sentiment r with
  | JS.Str s => (s =? sentimentType)%string
  | _ => false
  end.

Definition filterReviewsBySentiment (reviews : list review) (sentimentType : JS.value)
  : outcome (list review) :=
  match validateReviews reviews with
  | Threw msg => Threw msg
  | Returned _ =>
      match sentimentType with
      | JS.Str wanted =>
          if existsb (String.eqb wanted) validSentiments
          then Returned (filter (hasSentiment wanted) reviews)
          else Threw ("Sentiment type must be one of: " ++ JS.join ", " validSentiments)
      | _ => Threw ("Sentiment type must be one of: " ++ JS.join ", " validSentiments)
      end
  end.

End ReviewSummaryService.

(* ===================================================================== *)
(** * storage/DebugStorage.js                                             *)
(* ===================================================================== *)

(** [{ timestamp, ...debugInfo }]: what the debug file holds.  [info] stands
    for the fields of [debugInfo]; the one caller passes [endpoint],
    [request] and [response], so the stamp is not overwritten by the spread. *)
Record stamped (A : Type) : Type := { stamped_at : isoString; info : A }.

(** The text of the debug file: one JSON object, or text that [JSON.parse]
    rejects. *)
Inductive debugText (A : Type) : Type :=
| DebugGarbled
| DebugJson (entry : stamped A).
Arguments DebugGarbled {A}.

(** The debug file ([None] when it does not exist) and the counters of the
    file-system calls and clock reads made on its behalf. *)
Record DebugDisk (A : Type) : Type :=
  { debugFile : option (debugText A);
    debugFsCalls : nat;
    debugDateCalls : nat }.

Module DebugStorage.
Section Methods.
Variable env : Env.
Variable A : Type.

(** The object is built, clock read included, before the write is tried;
    a failed write is logged and nothing is thrown. *)
Definition storeDebugInfo (debugInfo : A) (disk : DebugDisk A) : DebugDisk A :=
  let dataToStore := {| stamped_at := isoDate env (debugDateCalls disk); info := debugInfo |} in
  if diskFault env (debugFsCalls disk)
  then {| debugFile := debugFile disk;
          debugFsCalls := S (debugFsCalls disk);
          debugDateCalls := S (debugDateCalls disk) |}
  else {| debugFile := Some (DebugJson dataToStore);
          debugFsCalls := S (debugFsCalls disk);
          debugDateCalls := S (debugDateCalls disk) |}.

(** [null] when the file cannot be read or parsed. *)
Definition getDebugInfo (disk : DebugDisk A) : option (stamped A) * DebugDisk A :=
  let disk' := {| debugFile := debugFile disk;
                  debugFsCalls := S (debugFsCalls disk);
                  debugDateCalls := debugDateCalls disk |} in
  if diskFault env (debugFsCalls disk) then (None, disk')
  else match debugFile disk with
       | Some (DebugJson entry) => (Some entry, disk')
       | Some DebugGarbled | None => (None, disk')
       end.

(** [fs.unlink]; a failure (no such file, or a failed call) is ignored. *)
Definition clearDebugInfo (disk : DebugDisk A) : DebugDisk A :=
  if diskFault env (debugFsCalls disk)
  then {| debugFile := debugFile disk;
          debugFsCalls := S (debugFsCalls disk);
          debugDateCalls := debugDateCalls disk |}
  else {| debugFile := None;
          debugFsCalls := S (debugFsCalls disk);
          debugDateCalls := debugDateCalls disk |}.

End Methods.
End DebugStorage.

(* ===================================================================== *)
(** * index.js: the routes over the chat service                          *)
(* ===================================================================== *)

(** [a || b] *)
Definition js_or (a b : JS.value) : JS.value := if JS.truthy a then a else b.

(** [req.body] of the POST routes: [content], [text] and [message] are any
    value ([Undefined] when absent); [role], when given, is a string. *)
Record requestJson : Type :=
  { body_content : JS.value;
    body_text : JS.value;
    body_message : JS.value;
    body_role : option string }.

(** The JSON documents the routes answer with. *)
Inductive responseJson : Type :=
| ErrorJson (error : string)
  (** [{ success: false, error }] *)
| ChatJson (data : payload chatMessage)
  (** [{ success: true, data }] *)
| SavedJson (note : string) (data : record chatMessage)
  (** [{ success: true, message, data }] *).

(** [res.status(status).json(json)] *)
Record httpResponse : Type := { status : nat; json : responseJson }.

Module Routes.
Section Handlers.
Variable env : Env.

(** [req.body.role || 'user'] *)
Definition roleOrUser (body : requestJson) : string :=
  match body_role body with
  | Some r => if (r =? EmptyString)%string then "user" else r
  | None => "user"
  end.

(** [error.message] of an error thrown by the chat service.  The service's
    TypeErrors are represented with their name in front, which the message
    does not hold; no other error of the service starts that way. *)
Definition messageOf (thrown : string) : string :=
  if String.prefix "TypeError: " thrown
  then String.substring 11 (String.length thrown - 11) thrown
  else thrown.

(** [app.post('/api/chat', ...)].  The errors the chat service throws are
    built with [new Error(message)], are TypeErrors or come from the file
    system; none has a [response] field, so the handler's first branch on
    [error.response] is never taken and the message is appended when it is
    not empty. *)
Definition postChat (body : requestJson) : M httpResponse :=
  if negb (JS.truthy (body_content body)) && negb (JS.truthy (body_message body))
  then ret {| status := 400; json := ErrorJson "Please provide message content" |}
  else
    let messageContent := js_or (body_content body) (body_message body) in
    let userRole := roleOrUser body in
    try_catch
      (response <- ChatService.processUserMessage env messageContent userRole ;;
       ret {| status := 200; json := ChatJson response |})
      (fun msg =>
         let errorMessage :=
           ("Error communicating with LLM service"
            ++ (if (messageOf msg =? EmptyString)%string then EmptyString
                else ": " ++ messageOf msg))%string in
         ret {| status := 500; json := ErrorJson errorMessage |}).

(** [app.post('/api/messages', ...)] *)
Definition postMessages (body : requestJson) : M httpResponse :=
  if negb (JS.truthy (body_content body)) && negb (JS.truthy (body_text body))
     && negb (JS.truthy (body_message body))
  then ret {| status := 400; json := ErrorJson "Please provide message content" |}
  else
    try_catch
      (now <- Date_now env ;;
       let messageData :=
         {| data_content := js_or (js_or (body_content body) (body_text body))
                                  (body_message body);
            data_role := Some (roleOrUser body);
            data_timestamp := Some now |} in
       savedMessage <- ChatService.addMessage env messageData ;;
       ret {| status := 201;
              json := SavedJson "Message received successfully" savedMessage |})
      (fun _ => ret {| status := 500; json := ErrorJson "Server error while saving message" |}).

End Handlers.
End Routes.

(** ** Further vocabulary *)

(** How often a character occurs in a string. *)
Fixpoint count_char (c : ascii) (s : string) : nat :=
  match s with
  | EmptyString => 0
  | String x rest => (if Ascii.eqb x c then 1 else 0) + count_char c rest
  end.

(** The string holds nothing but white space (or nothing at all). *)
Fixpoint blank (s : string) : bool :=
  match s with
  | EmptyString => true
  | String c rest => is_space c && blank rest
  end.

(** A review that [validateReviews] accepts: a non-empty string as text and
    an integer from 1 to 5 as rating. *)
Definition valid_review (r : review) : Prop :=
  (exists s, text r = JS.Str s /\ s <> EmptyString) /\
  (exists n, rating r = Whole n /\ (1 <= n <= 5)%Z).

(** Nothing of the world has changed but the counters of calls made. *)
Definition same_files (w w' : World) : Prop :=
  messagesJson w' = messagesJson w /\
  requestsJson w' = requestsJson w /\
  posted w' = posted w.

(** The conversation context that [processUserMessage] posts for a new
    string content [s], from the store as it is before the call: with the
    system prompt, the prior turns and the new turn; without it, the prior
    turns and the new turn twice. *)
Definition contextFor (env : Env) (w : World) (userRole s : string) : list chatMessage :=
  let userTurn := {| role := userRole; content := JS.Str s |} in
  match prompts env "system.prompt.xml" with
  | inr systemPrompt =>
      systemMessage systemPrompt :: map ChatService.strip (turns w) ++ [userTurn]
  | inl _ => map ChatService.strip (turns w) ++ [userTurn; userTurn]
  end.

(** The request body posted with that context. *)
Definition requestFor (env : Env) (w : World) (userRole s : string) : requestBody :=
  {| messages := contextFor env w userRole s; model := llmModel env |}.

(** Every error the computation can throw has a message satisfying [P]. *)
Definition throws_only (P : string -> Prop) (A : Type) (c : M A) : Prop :=
  forall w msg w', c w = (Threw msg, w') -> P msg.

(** A thrown error whose message is not empty and which is not the one of
    the chat service's own validation. *)
Definition beyond_validation (msg : string) : Prop :=
  Routes.messageOf msg <> EmptyString /\ msg <> "Message content is required".

(** ** Ids in the range where JavaScript adds exactly *)

(** [Number.isSafeInteger]: JavaScript's numbers are doubles, which hold
    every integer strictly between -2^53 and 2^53; for such an [n] the sum
    [n + 1] that [addMessage] forms is the exact one. *)
Definition safe_integer (n : Z) : Prop := (- 2 ^ 53 < n < 2 ^ 53)%Z.

(** Every id of the records is a safe integer. *)
Definition safe_ids (A : Type) (records : list (record A)) : Prop :=
  Forall (fun r => safe_integer (id r)) records.

(** The ids are safe integers and remain so through [n] further appends. *)
Definition room_for (A : Type) (n : nat) (records : list (record A)) : Prop :=
  safe_ids records /\
  (Z.max 0 (FileMessageStorage.maxId records) + Z.of_nat n < 2 ^ 53)%Z.

(** The number of appends among the calls. *)
Fixpoint appends (calls : list call) : nat :=
  match calls with
  | [] => 0
  | Append _ :: rest => S (appends rest)
  | Clear :: rest => appends rest
  end.

(** ** Text of the ASCII range *)

(** The character has a code below 128. *)
Definition ascii7 (c : ascii) : bool :=
  match c with
  | Ascii _ _ _ _ _ _ _ high => negb high
  end.

(** Every character of the text has a code below 128. *)
Fixpoint ascii_text (s : string) : bool :=
  match s with
  | EmptyString => true
  | String c rest => ascii7 c && ascii_text rest
  end.

(* ===================================================================== *)
(** * Running computations                                                *)
(* ===================================================================== *)

Section Running.
Variables A B : Type.

Lemma bind_returned (c : M A) (k : A -> M B) w a w' :
  c w = (Returned a, w') -> bind c k w = k a w'.
Proof. intros E. unfold bind. rewrite E. reflexivity. Qed.

Lemma bind_threw (c : M A) (k : A -> M B) w msg w' :
  c w = (Threw msg, w') -> bind c k w = (Threw msg, w').
Proof. intros E. unfold bind. rewrite E. reflexivity. Qed.

Lemma try_returned (c : M A) (h : string -> M A) w a w' :
  c w = (Returned a, w') -> try_catch c h w = (Returned a, w').
Proof. intros E. unfold try_catch. rewrite E. reflexivity. Qed.

Lemma try_threw (c : M A) (h : string -> M A) w msg w' :
  c w = (Threw msg, w') -> try_catch c h w = h msg w'.
Proof. intros E. unfold try_catch. rewrite E. reflexivity. Qed.
End Running.

(* ===================================================================== *)
(** * Facts about the built-ins                                           *)
(* ===================================================================== *)

Section Builtins.

Lemma Math_max_lower (xs : list Z) : forall x, (x <= JS.Math_max x xs)%Z.
Proof.
  induction xs as [|y ys IH]; intros x; simpl; [lia|].
  specialize (IH (Z.max x y)). lia.
Qed.

Lemma Math_max_upper (xs : list Z) :
  forall x y, In y xs -> (y <= JS.Math_max x xs)%Z.
Proof.
  induction xs as [|z zs IH]; intros x y Hin; simpl in *; [contradiction|].
  destruct Hin as [->|Hin].
  - pose proof (Math_max_lower zs (Z.max x y)). lia.
  - apply IH, Hin.
Qed.

Lemma Math_max_attained (xs : list Z) :
  forall x, In (JS.Math_max x xs) (x :: xs).
Proof.
  induction xs as [|y ys IH]; intros x; simpl; [now left|].
  destruct (IH (Z.max x y)) as [E|Hin].
  - rewrite <- E.
    destruct (Z.max_spec x y) as [[_ Hm]|[_ Hm]]; rewrite Hm.
    + right; left; reflexivity.
    + left; reflexivity.
  - right; right; exact Hin.
Qed.

Lemma Math_max_snoc (xs : list Z) :
  forall x y, JS.Math_max x (xs ++ [y]) = Z.max (JS.Math_max x xs) y.
Proof.
  induction xs as [|z zs IH]; intros x y; simpl; [reflexivity|apply IH].
Qed.

Lemma slice_from_last (A : Type) (q : Z) (arr : list A) :
  (0 < q)%Z -> JS.slice_from (- q) arr = skipn (length arr - Z.to_nat q) arr.
Proof.
  intros Hq. unfold JS.slice_from.
  destruct (Z.ltb_spec (- q) 0); [|lia].
  f_equal. lia.
Qed.

Lemma last_n_skipn (A : Type) (n : nat) (l : list A) :
  last_n n l = skipn (length l - n) l.
Proof.
  unfold last_n. rewrite firstn_rev, rev_involutive. reflexivity.
Qed.

Lemma last_n_all (A : Type) (n : nat) (l : list A) :
  length l <= n -> last_n n l = l.
Proof.
  intros H. rewrite last_n_skipn.
  replace (length l - n) with 0 by lia. reflexivity.
Qed.

Lemma last_n_length (A : Type) (n : nat) (l : list A) :
  n <= length l -> length (last_n n l) = n.
Proof.
  intros H. rewrite last_n_skipn, length_skipn. lia.
Qed.

Lemma last_n_suffix (A : Type) (n : nat) (l : list A) :
  exists older, l = older ++ last_n n l.
Proof.
  exists (firstn (length l - n) l).
  rewrite last_n_skipn. symmetry. apply firstn_skipn.
Qed.

End Builtins.

(* ===================================================================== *)
(** * The file storage                                                    *)
(* ===================================================================== *)

Section StorageFacts.
Variable env : Env.

Lemma maxId_maximum (A : Type) (records : list (record A)) :
  maximum_id records (FileMessageStorage.maxId records).
Proof.
  unfold maximum_id, FileMessageStorage.maxId.
  destruct records as [|r rs]; [left; split; reflexivity|right].
  change (map (@id A) (r :: rs)) with (id r :: map (@id A) rs).
  split.
  - apply Math_max_attained.
  - intros x [<-|Hin].
    + apply Math_max_lower.
    + apply Math_max_upper, in_map, Hin.
Qed.

Lemma maxId_snoc (A : Type) (records : list (record A)) (r : record A) :
  id r = (FileMessageStorage.maxId records + 1)%Z ->
  FileMessageStorage.maxId (records ++ [r]) = id r.
Proof.
  unfold FileMessageStorage.maxId. rewrite map_app. simpl.
  destruct (map (@id A) records) as [|x xs]; simpl; [reflexivity|].
  intros E. rewrite Math_max_snoc. lia.
Qed.

Lemma messages_read w d :
  diskFault env (fsCalls w) = false ->
  messagesJson w = Some d ->
  FileMessageStorage.readMessages env messageStorage w = (Returned (view d), Fs.tick w).
Proof.
  intros Hf Hd. unfold FileMessageStorage.readMessages.
  erewrite bind_returned.
  2:{ unfold Fs.readFile. simpl. rewrite Hf, Hd. reflexivity. }
  destruct d; reflexivity.
Qed.

Lemma messages_add w d message :
  diskFault env (fsCalls w) = false ->
  diskFault env (S (fsCalls w)) = false ->
  messagesJson w = Some d ->
  FileMessageStorage.addMessage env messageStorage message w =
    (Returned (built env (view d) message (dateCalls w)),
     {| messagesJson := Some (Json (view d ++ [built env (view d) message (dateCalls w)]));
        requestsJson := requestsJson w;
        fsCalls := S (S (fsCalls w));
        dateCalls := reads_after message (dateCalls w);
        posted := posted w |}).
Proof.
  intros Hf Hf' Hd. unfold FileMessageStorage.addMessage.
  erewrite bind_returned by (apply messages_read; eassumption).
  unfold built, reads_after, FileMessageStorage.timestamp_or_now,
    FileMessageStorage.writeMessages, Fs.writeFile, bind.
  destruct (timestamp message); simpl; rewrite Hf'; reflexivity.
Qed.

Lemma messages_clear w :
  diskFault env (fsCalls w) = false ->
  FileMessageStorage.clearMessages env messageStorage w =
    (Returned tt,
     {| messagesJson := Some (Json []);
        requestsJson := requestsJson w;
        fsCalls := S (fsCalls w);
        dateCalls := dateCalls w;
        posted := posted w |}).
Proof.
  intros Hf. unfold FileMessageStorage.clearMessages,
    FileMessageStorage.writeMessages, Fs.writeFile.
  rewrite Hf. reflexivity.
Qed.

Lemma messages_get_all w d :
  diskFault env (fsCalls w) = false ->
  messagesJson w = Some d ->
  FileMessageStorage.getMessages env messageStorage JS.Null false w =
    (Returned (view d), Fs.tick w).
Proof.
  intros Hf Hd. unfold FileMessageStorage.getMessages.
  erewrite bind_returned by (apply messages_read; eassumption).
  reflexivity.
Qed.

Lemma requests_add w d entry :
  diskFault env (fsCalls w) = false ->
  diskFault env (S (fsCalls w)) = false ->
  requestsJson w = Some d ->
  FileMessageStorage.addMessage env requestStore entry w =
    (Returned (built env (view d) entry (dateCalls w)),
     {| messagesJson := messagesJson w;
        requestsJson := Some (Json (view d ++ [built env (view d) entry (dateCalls w)]));
        fsCalls := S (S (fsCalls w));
        dateCalls := reads_after entry (dateCalls w);
        posted := posted w |}).
Proof.
  intros Hf Hf' Hd. unfold FileMessageStorage.addMessage.
  erewrite bind_returned.
  2:{ unfold FileMessageStorage.readMessages.
      erewrite bind_returned.
      2:{ unfold Fs.readFile. simpl. rewrite Hf, Hd. reflexivity. }
      instantiate (1 := Fs.tick w). instantiate (1 := view d).
      destruct d; reflexivity. }
  unfold built, reads_after, FileMessageStorage.timestamp_or_now,
    FileMessageStorage.writeMessages, Fs.writeFile, bind.
  destruct (timestamp entry); simpl; rewrite Hf'; reflexivity.
Qed.

Lemma requests_clear w :
  diskFault env (fsCalls w) = false ->
  FileMessageStorage.clearMessages env requestStore w =
    (Returned tt,
     {| messagesJson := messagesJson w;
        requestsJson := Some (Json []);
        fsCalls := S (fsCalls w);
        dateCalls := dateCalls w;
        posted := posted w |}).
Proof.
  intros Hf. unfold FileMessageStorage.clearMessages,
    FileMessageStorage.writeMessages, Fs.writeFile.
  rewrite Hf. reflexivity.
Qed.

End StorageFacts.

(* ===================================================================== *)
(** * Identifiers handed out by the store                                 *)
(* ===================================================================== *)

Section Identifiers.
Variable env : Env.
Hypothesis disk_ok : healthy env.

Lemma opened_present w : messagesJson (opened env w) <> None.
Proof.
  unfold opened, FileMessageStorage.ensureFileExists, try_catch, Fs.access, Fs.writeFile.
  rewrite disk_ok. simpl.
  destruct (messagesJson w) eqn:E; simpl.
  - rewrite E. discriminate.
  - rewrite disk_ok. simpl. discriminate.
Qed.

Lemma opened_fresh w : messagesJson w = None -> turns (opened env w) = [].
Proof.
  intros E.
  unfold turns, opened, FileMessageStorage.ensureFileExists, try_catch, Fs.access,
    Fs.writeFile.
  rewrite disk_ok. simpl. rewrite E. rewrite disk_ok. reflexivity.
Qed.

Lemma issue_app calls calls' :
  forall w, issue env (calls ++ calls') w = issue env calls' (issue env calls w).
Proof.
  induction calls as [|[message|] rest IH]; intros w; simpl; auto.
Qed.

Lemma issue_present calls :
  forall w, messagesJson w <> None -> messagesJson (issue env calls w) <> None.
Proof.
  induction calls as [|[message|] rest IH]; intros w Hw; simpl; auto.
  - destruct (messagesJson w) as [d|] eqn:E; [|congruence].
    apply IH. rewrite (@messages_add env w d message (disk_ok _) (disk_ok _) E).
    discriminate.
  - apply IH. rewrite (@messages_clear env _ (disk_ok _)). discriminate.
Qed.

Lemma issue_clear_last calls w : turns (issue env (calls ++ [Clear]) w) = [].
Proof.
  rewrite issue_app. simpl. rewrite (@messages_clear env _ (disk_ok _)). reflexivity.
Qed.

Lemma add_returns w d message :
  messagesJson w = Some d ->
  exists r w',
    FileMessageStorage.addMessage env messageStorage message w = (Returned r, w') /\
    id r = (FileMessageStorage.maxId (turns w) + 1)%Z /\
    stored r = fields message /\
    turns w' = turns w ++ [r] /\
    messagesJson w' = Some (Json (turns w ++ [r])) /\
    requestsJson w' = requestsJson w /\
    posted w' = posted w.
Proof.
  intros E. eexists. eexists. split.
  - apply (@messages_add env w d message (disk_ok _) (disk_ok _) E).
  - unfold turns. rewrite E. simpl. repeat split; reflexivity.
Qed.

Lemma returned_ids_run run :
  forall w d,
    messagesJson w = Some d ->
    returned_ids env run w =
      map (fun k => Some (FileMessageStorage.maxId (turns w) + 1 + Z.of_nat k)%Z)
          (seq 0 (length run)).
Proof.
  induction run as [|message rest IH]; intros w d Hd; [reflexivity|].
  destruct (@add_returns w d message Hd) as (turn & w' & R & I & _ & T & J & _).
  cbn [returned_ids]. rewrite R.
  cbn [length seq map]. f_equal.
  - rewrite I. f_equal. lia.
  - rewrite (IH w' _ J), T, (maxId_snoc (turns w) turn I), I.
    rewrite <- seq_shift, map_map.
    apply map_ext. intros k. f_equal. lia.
Qed.

Lemma turns_opened w : turns (opened env w) = turns w.
Proof.
  destruct (messagesJson w) as [d|] eqn:E.
  - unfold turns, opened, FileMessageStorage.ensureFileExists, try_catch, Fs.access.
    rewrite disk_ok. simpl. rewrite E. simpl. rewrite E. reflexivity.
  - rewrite (opened_fresh w E). unfold turns. rewrite E. reflexivity.
Qed.

Lemma maxId_safe (A : Type) (records : list (record A)) :
  safe_ids records -> safe_integer (FileMessageStorage.maxId records).
Proof.
  intros Hs. destruct (maxId_maximum records) as [[_ ->]|[Hin _]].
  - unfold safe_integer. lia.
  - apply in_map_iff in Hin. destruct Hin as (r & <- & Hr).
    unfold safe_ids in Hs. rewrite Forall_forall in Hs. apply Hs, Hr.
Qed.

Lemma room_snoc (A : Type) (n : nat) (records : list (record A)) (r : record A) :
  room_for (S n) records ->
  id r = (FileMessageStorage.maxId records + 1)%Z ->
  room_for n (records ++ [r]).
Proof.
  intros [Hs Hn] Hr. pose proof (maxId_safe Hs) as Hm. unfold safe_integer in Hm.
  split.
  - apply Forall_app. split; [exact Hs|].
    constructor; [|constructor]. unfold safe_integer. rewrite Hr. lia.
  - rewrite (maxId_snoc records r Hr), Hr. lia.
Qed.

Lemma room_less (A : Type) (n m : nat) (records : list (record A)) :
  room_for n records -> (m <= n)%nat -> room_for m records.
Proof. intros [Hs Hn] Hm. split; [exact Hs|lia]. Qed.

(** Ids that leave room for the appends of the calls are still safe after
    the calls. *)
Lemma issue_room calls :
  forall w n,
    messagesJson w <> None ->
    room_for (appends calls + n) (turns w) ->
    room_for n (turns (issue env calls w)).
Proof.
  induction calls as [|[message|] rest IH]; intros w n Hw Hr; simpl in *; auto.
  - destruct (messagesJson w) as [d|] eqn:E; [|congruence].
    destruct (@add_returns w d message E) as (turn & w' & R & I & _ & T & J & _).
    rewrite R. simpl. apply IH.
    + rewrite J. discriminate.
    + rewrite T. apply room_snoc; assumption.
  - rewrite (@messages_clear env w (disk_ok _)). simpl. apply IH; [discriminate|].
    destruct Hr as [_ Hn]. split; [constructor|]. simpl.
    change (FileMessageStorage.maxId (@nil (record chatMessage))) with 0%Z. lia.
Qed.

End Identifiers.

(** C2. On a store that has been opened (its file created when missing) and
    has then served any sequence of append and clear calls, let [top] be the
    maximum id in the store, 0 when it holds nothing.  Every append of a run
    of consecutive appends returns a Turn, and the ids returned are
    [top + 1], [top + 2], and so on: each is the maximum id in the store at
    that moment plus 1, and they increase by exactly 1.  After a clear, and
    on a store that was created empty, [top] is 0, so the first append
    returns id 1.  This is stated for ids that are safe integers and stay so
    through the appends made, the range in which the sum the code forms is
    the exact one; the ids are then still safe after the calls and the run. *)
Theorem C2_append_assigns_next_id (env : Env) (calls : list call) (w : World)
    (run : list (payload chatMessage)) :
  healthy env ->
  room_for (appends calls + length run) (turns w) ->
  let w1 := issue env calls (opened env w) in
  let top := FileMessageStorage.maxId (turns w1) in
  maximum_id (turns w1) top /\
  room_for (length run) (turns w1) /\
  returned_ids env run w1 =
    map (fun k => Some (top + 1 + Z.of_nat k)%Z) (seq 0 (length run)) /\
  (forall message,
     exists turn w2,
       FileMessageStorage.addMessage env messageStorage message w1 = (Returned turn, w2) /\
       id turn = (top + 1)%Z /\
       maximum_id (turns w2) (id turn)) /\
  (turns w1 = [] -> top = 0%Z) /\
  (forall before, calls = before ++ [Clear] -> top = 0%Z) /\
  (messagesJson w = None -> calls = [] -> top = 0%Z).
Proof.
  intros Hh Hroom w1 top.
  assert (P1 : messagesJson w1 <> None)
    by (apply issue_present, opened_present; assumption).
  assert (Hsafe : room_for (length run) (turns w1)).
  { apply issue_room; [exact Hh|apply opened_present, Hh|].
    rewrite turns_opened by exact Hh. exact Hroom. }
  destruct (messagesJson w1) as [d1|] eqn:E1; [clear P1|congruence].
  assert (Hempty : turns w1 = [] -> top = 0%Z)
    by (intros Z0; unfold top; rewrite Z0; reflexivity).
  split; [apply maxId_maximum|].
  split; [exact Hsafe|].
  split; [apply (@returned_ids_run env Hh run w1 d1 E1)|].
  split; [|split; [exact Hempty|split]].
  - intros message.
    destruct (@add_returns env Hh w1 d1 message E1) as (turn & w2 & R & I & _ & T & _).
    exists turn, w2. split; [exact R|]. split; [exact I|].
    rewrite <- (maxId_snoc (turns w1) turn I), <- T. apply maxId_maximum.
  - intros before ->. apply Hempty. subst w1. apply issue_clear_last, Hh.
  - intros Hnone ->. apply Hempty. subst w1. simpl. apply opened_fresh; assumption.
Qed.

(** Witness for C2: a store created on an empty disk serves an append and a
    clear; the two appends that follow return the ids 1 and 2. *)
Lemma C2_append_assigns_next_id_witness :
  let env := {| diskFault := fun _ => false; prompts := fun _ => inl "ENOENT";
                upstream := fun _ => inl "ECONNREFUSED"; isoDate := fun n => Z.of_nat n;
                llmModel := "m"; requestStorage := true |} in
  let w := {| messagesJson := None; requestsJson := None; fsCalls := 0;
              dateCalls := 0; posted := [] |} in
  let hi := {| fields := {| role := "user"; content := JS.Str "hi" |}; timestamp := None |} in
  healthy env /\
  room_for (appends [Append hi; Clear] + length [hi; hi]) (turns w) /\
  returned_ids env [hi; hi] (issue env [Append hi; Clear] (opened env w))
    = [Some 1%Z; Some 2%Z].
Proof.
  intros env w hi.
  assert (Hh : healthy env) by (intros n; reflexivity).
  assert (Hr : room_for (appends [Append hi; Clear] + length [hi; hi]) (turns w)).
  { split; [constructor|]. simpl. lia. }
  split; [exact Hh|]. split; [exact Hr|].
  destruct (@C2_append_assigns_next_id env [Append hi; Clear] w [hi; hi] Hh Hr)
    as (_ & _ & Hrun & _ & _ & Hclear & _).
  rewrite Hrun, (Hclear [Append hi] eq_refl). reflexivity.
Defined.

(* ===================================================================== *)
(** * Reading the store                                                   *)
(* ===================================================================== *)

Section Reading.
Variable env : Env.
Variable w : World.
Variable l : list (record chatMessage).
Hypothesis disk_ok : healthy env.
Hypothesis holds : messagesJson w = Some (Json l).

Let read (quantity : JS.value) (reverseOrder : bool) :=
  fst (FileMessageStorage.getMessages env messageStorage quantity reverseOrder w).

Lemma read_unlimited quantity reverseOrder :
  JS.truthy quantity && JS.is_number quantity = false ->
  read quantity reverseOrder = Returned (if reverseOrder then rev l else l).
Proof.
  intros Hq. unfold read, FileMessageStorage.getMessages.
  erewrite bind_returned by (apply messages_read; [apply disk_ok | exact holds]).
  rewrite Hq. reflexivity.
Qed.

Lemma read_limited (q : Z) reverseOrder :
  (0 < q)%Z ->
  read (JS.Num q) reverseOrder =
    Returned (if reverseOrder then rev (last_n (Z.to_nat q) l) else last_n (Z.to_nat q) l).
Proof.
  intros Hq. unfold read, FileMessageStorage.getMessages.
  erewrite bind_returned by (apply messages_read; [apply disk_ok | exact holds]).
  assert (Hnz : (q =? 0)%Z = false) by lia.
  cbn [JS.truthy JS.is_number view]. rewrite Hnz. cbn [negb andb].
  rewrite slice_from_last, last_n_skipn by assumption.
  reflexivity.
Qed.

End Reading.

(** C3. On a store holding the records [l], reading with no limit returns
    [l] in append order and, reversed, its exact reverse; reading with a
    limit [N], [0 < N <= length l], returns the last [N] records in append
    order and, reversed, those same [N] records reversed; a limit above the
    size returns the whole store; a limit of 0 or an absent limit reads
    all. *)
Theorem C3_getMessages_order_and_window (env : Env) (w : World)
    (l : list (record chatMessage)) :
  healthy env ->
  messagesJson w = Some (Json l) ->
  let read quantity reverseOrder :=
    fst (FileMessageStorage.getMessages env messageStorage quantity reverseOrder w) in
  read JS.Null false = Returned l /\
  read JS.Null true = Returned (rev l) /\
  (forall N : Z, (0 < N <= Z.of_nat (length l))%Z ->
     read (JS.Num N) false = Returned (last_n (Z.to_nat N) l) /\
     read (JS.Num N) true = Returned (rev (last_n (Z.to_nat N) l)) /\
     length (last_n (Z.to_nat N) l) = Z.to_nat N /\
     exists older, l = older ++ last_n (Z.to_nat N) l) /\
  (forall N : Z, (Z.of_nat (length l) < N)%Z ->
     read (JS.Num N) false = Returned l /\
     read (JS.Num N) true = Returned (rev l)) /\
  (forall reverseOrder,
     read (JS.Num 0) reverseOrder = read JS.Null reverseOrder /\
     read JS.Undefined reverseOrder = read JS.Null reverseOrder).
Proof.
  intros Hh Hl read.
  repeat split.
  - apply (@read_unlimited env w l Hh Hl JS.Null false). reflexivity.
  - apply (@read_unlimited env w l Hh Hl JS.Null true). reflexivity.
  - apply (@read_limited env w l Hh Hl N false). lia.
  - apply (@read_limited env w l Hh Hl N true). lia.
  - apply last_n_length. lia.
  - apply last_n_suffix.
  - unfold read. rewrite (@read_limited env w l Hh Hl N false) by lia.
    rewrite last_n_all by lia. reflexivity.
  - unfold read. rewrite (@read_limited env w l Hh Hl N true) by lia.
    rewrite last_n_all by lia. reflexivity.
Qed.

(** Witness for C3: a store of three turns read with limit 2. *)
Lemma C3_getMessages_order_and_window_witness :
  let env := {| diskFault := fun _ => false; prompts := fun _ => inl "ENOENT";
                upstream := fun _ => inl "ECONNREFUSED"; isoDate := fun n => Z.of_nat n;
                llmModel := "m"; requestStorage := true |} in
  let turn i text := {| id := i; stored := {| role := "user"; content := JS.Str text |};
                        at_time := i |} in
  let l := [turn 1%Z "a"; turn 2%Z "b"; turn 3%Z "c"] in
  let w := {| messagesJson := Some (Json l); requestsJson := None; fsCalls := 0;
              dateCalls := 0; posted := [] |} in
  healthy env /\
  fst (FileMessageStorage.getMessages env messageStorage (JS.Num 2) true w)
    = Returned [turn 3%Z "c"; turn 2%Z "b"].
Proof.
  intros env turn l w.
  assert (Hh : healthy env) by (intros n; reflexivity).
  split; [exact Hh|].
  destruct (@C3_getMessages_order_and_window env w l Hh eq_refl) as (_ & _ & Hn & _).
  destruct (Hn 2%Z) as (_ & Hr & _); [simpl; lia|].
  exact Hr.
Defined.

(* ===================================================================== *)
(** * Validation of the user's content                                     *)
(* ===================================================================== *)

Lemma falsy_rejected (env : Env) (userContent : JS.value) (userRole : string) (w : World) :
  JS.truthy userContent = false ->
  ChatService.processUserMessage env userContent userRole w
    = (Threw "Message content is required", w).
Proof.
  intros Hfalsy.
  unfold ChatService.processUserMessage.
  apply bind_threw.
  unfold ChatService.validateUserMessage. rewrite Hfalsy. reflexivity.
Qed.

(** C4. With an empty (falsy) content, [processUserMessage] throws
    [Message content is required] and the world is exactly as before: no
    file of either store was touched. *)
Theorem C4_empty_content_rejected (env : Env) (userContent : JS.value)
    (userRole : string) (w : World) :
  JS.truthy userContent = false ->
  ChatService.processUserMessage env userContent userRole w
    = (Threw "Message content is required", w) /\
  turns (snd (ChatService.processUserMessage env userContent userRole w)) = turns w /\
  logged (snd (ChatService.processUserMessage env userContent userRole w)) = logged w.
Proof.
  intros Hfalsy.
  assert (E : ChatService.processUserMessage env userContent userRole w
              = (Threw "Message content is required", w)).
  { unfold ChatService.processUserMessage.
    apply bind_threw.
    unfold ChatService.validateUserMessage. rewrite Hfalsy. reflexivity. }
  rewrite E. repeat split.
Qed.

(** Witness for C4: the empty string on a store holding one turn. *)
Lemma C4_empty_content_rejected_witness :
  let env := {| diskFault := fun _ => false; prompts := fun _ => inr "be brief";
                upstream := fun _ => inl "ECONNREFUSED"; isoDate := fun n => Z.of_nat n;
                llmModel := "m"; requestStorage := true |} in
  let w := {| messagesJson :=
                Some (Json [{| id := 1; stored := {| role := "user"; content := JS.Str "hi" |};
                               at_time := 0%Z |}]);
              requestsJson := Some (Json []); fsCalls := 4; dateCalls := 1; posted := [] |} in
  JS.truthy (JS.Str EmptyString) = false /\
  ChatService.processUserMessage env (JS.Str EmptyString) "user" w
    = (Threw "Message content is required", w).
Proof.
  intros env w.
  split; [reflexivity|].
  apply (@C4_empty_content_rejected env (JS.Str EmptyString) "user" w). reflexivity.
Defined.


(* ===================================================================== *)
(** * The request log is written on the side                              *)
(* ===================================================================== *)

Section Aside.
Variable env : Env.

Lemma aside_ret (A : Type) (a : A) : aside (ret a).
Proof. intros w. split; reflexivity. Qed.

Lemma aside_throw (A : Type) msg : aside (@throw A msg).
Proof. intros w. split; reflexivity. Qed.

Lemma aside_bind (A B : Type) (c : M A) (k : A -> M B) :
  aside c -> (forall a, aside (k a)) -> aside (bind c k).
Proof.
  intros Hc Hk w. unfold bind.
  destruct (Hc w) as [Hm Hp]. destruct (c w) as [[a|msg] w1]; simpl in *.
  - destruct (Hk a w1) as [Hm' Hp']. rewrite Hm', Hp'. auto.
  - auto.
Qed.

Lemma aside_try (A : Type) (c : M A) (h : string -> M A) :
  aside c -> (forall msg, aside (h msg)) -> aside (try_catch c h).
Proof.
  intros Hc Hh w. unfold try_catch.
  destruct (Hc w) as [Hm Hp]. destruct (c w) as [[a|msg] w1]; simpl in *.
  - auto.
  - destruct (Hh msg w1) as [Hm' Hp']. rewrite Hm', Hp'. auto.
Qed.

Lemma aside_Date_now : aside (Date_now env).
Proof. intros w. split; reflexivity. Qed.

Lemma aside_requests_read : aside (FileMessageStorage.readMessages env requestStore).
Proof.
  apply aside_bind.
  - intros w. unfold Fs.readFile.
    destruct (diskFault env (fsCalls w)); [split; reflexivity|].
    destruct (readPath requestStore w); split; reflexivity.
  - intros d. apply aside_try.
    + destruct d; [apply aside_throw | apply aside_ret].
    + intros _. apply aside_ret.
Qed.

Lemma aside_requests_write records :
  aside (FileMessageStorage.writeMessages env requestStore records).
Proof.
  intros w. unfold FileMessageStorage.writeMessages, Fs.writeFile.
  destruct (diskFault env (fsCalls w)); split; reflexivity.
Qed.

Lemma aside_requests_add entry :
  aside (FileMessageStorage.addMessage env requestStore entry).
Proof.
  apply aside_bind; [apply aside_requests_read|]. intros messages.
  apply aside_bind.
  - unfold FileMessageStorage.timestamp_or_now.
    destruct (timestamp entry); [apply aside_ret | apply aside_Date_now].
  - intros t. apply aside_bind; [apply aside_requests_write|].
    intros _. apply aside_ret.
Qed.

Lemma aside_requests_clear : aside (FileMessageStorage.clearMessages env requestStore).
Proof. apply aside_requests_write. Qed.

Lemma aside_responseContent data : aside (LLMService.responseContent data).
Proof.
  unfold LLMService.responseContent.
  destruct data as [[[[|[[m|]] rest]|]]|];
    first [apply aside_ret | apply aside_throw].
Qed.

(** [storeRequest] never throws, and never touches the Message Store. *)
Lemma storeRequest_swallows request response w :
  exists w',
    LLMService.storeRequest env request response w = (Returned tt, w') /\
    messagesJson w' = messagesJson w /\ posted w' = posted w.
Proof.
  unfold LLMService.storeRequest.
  destruct (requestStorage env).
  2:{ exists w. repeat split. }
  match goal with
  | |- context [try_catch ?c ?h] =>
      assert (Hc : aside c); [|pose proof (Hc w) as [Hm Hp]; unfold try_catch;
                                destruct (c w) as [[[]|msg] w1]; simpl in *;
                                exists w1; repeat split; assumption]
  end.
  apply aside_bind; [apply aside_responseContent|]. intros _.
  apply aside_bind.
  - destruct (LLMService.lastUserMessage request);
      first [apply aside_ret | apply aside_throw].
  - intros title0. apply aside_bind; [apply aside_Date_now|]. intros now.
    apply aside_bind; [apply aside_requests_add|]. intros _. apply aside_ret.
Qed.

Lemma sendMessage_posts context w :
  let rq := {| messages := context; model := llmModel env |} in
  exists w',
    LLMService.sendMessage env context w =
      (match upstream env rq with
       | inl cause => Threw ("Failed to get LLM response: " ++ cause)
       | inr data => Returned data
       end, w') /\
    messagesJson w' = messagesJson w /\ posted w' = posted w ++ [rq].
Proof.
  intros rq. unfold LLMService.sendMessage, try_catch, bind at 1.
  fold rq. unfold LLMService.axios_post at 1.
  destruct (upstream env rq) as [cause|data].
  - eexists. split; [reflexivity|]. split; reflexivity.
  - match goal with
    | |- context [bind (LLMService.storeRequest env rq data) _ ?w0] =>
        destruct (storeRequest_swallows rq data w0) as (w' & E & Hm & Hp)
    end.
    exists w'. unfold bind. rewrite E. simpl in *. repeat split; assumption.
Qed.

Lemma getLLMResponse_posts context w :
  let rq := {| messages := context; model := llmModel env |} in
  exists w',
    ChatService.getLLMResponse env context w =
      (match upstream env rq with
       | inl cause => Threw ("LLM API call failed: Failed to get LLM response: " ++ cause)
       | inr data =>
           match data with
           | Some {| choices := Some (_ :: _) |} => Returned data
           | _ => Threw "LLM API call failed: Invalid response from LLM service"
           end
       end, w') /\
    messagesJson w' = messagesJson w /\ posted w' = posted w ++ [rq].
Proof.
  intros rq. destruct (sendMessage_posts context w) as (w' & E & Hm & Hp).
  fold rq in E. exists w'. split; [|split; assumption].
  unfold ChatService.getLLMResponse, try_catch, bind at 1. rewrite E.
  destruct (upstream env rq) as [cause|data]; [reflexivity|].
  destruct data as [[[[|c rest]|]]|]; reflexivity.
Qed.

End Aside.

(* ===================================================================== *)
(** * One turn of the conversation                                        *)
(* ===================================================================== *)

Section Turn.
Variable env : Env.
Hypothesis disk_ok : healthy env.

Variable s : string.
Variable userRole : string.
Hypothesis non_empty : s <> EmptyString.

Let userTurn : chatMessage := {| role := userRole; content := JS.Str s |}.

Lemma validateUserMessage_accepts w :
  ChatService.validateUserMessage (JS.Str s) w = (Returned tt, w).
Proof.
  unfold ChatService.validateUserMessage. simpl.
  destruct (String.eqb_spec s EmptyString) as [E|_]; [contradiction|reflexivity].
Qed.

Lemma storeUserMessage_appends w d :
  messagesJson w = Some d ->
  exists user w1,
    ChatService.storeUserMessage env (JS.Str s) userRole w = (Returned user, w1) /\
    stored user = userTurn /\
    id user = (FileMessageStorage.maxId (view d) + 1)%Z /\
    messagesJson w1 = Some (Json (view d ++ [user])) /\
    requestsJson w1 = requestsJson w /\
    posted w1 = posted w.
Proof.
  intros Hd. unfold ChatService.storeUserMessage.
  unfold bind at 1. unfold Date_now at 1.
  erewrite bind_returned.
  2:{ apply messages_add; [apply disk_ok | apply disk_ok | exact Hd]. }
  eexists. eexists. split; [reflexivity|].
  simpl. repeat split; reflexivity.
Qed.

Lemma prepareConversationHistory_builds w l :
  messagesJson w = Some (Json l) ->
  exists w1,
    ChatService.prepareConversationHistory env (JS.Str s) userRole w =
      (Returned (match prompts env "system.prompt.xml" with
                 | inr systemPrompt => systemMessage systemPrompt :: map ChatService.strip l
                 | inl _ => map ChatService.strip l ++ [userTurn]
                 end), w1) /\
    messagesJson w1 = messagesJson w /\
    requestsJson w1 = requestsJson w /\
    posted w1 = posted w.
Proof.
  intros Hl. exists (Fs.tick w). split; [|repeat split; reflexivity].
  unfold ChatService.prepareConversationHistory, try_catch, bind at 1, loadPrompt.
  destruct (prompts env "system.prompt.xml") as [cause|systemPrompt]; simpl.
  - erewrite bind_returned by (apply messages_get_all; [apply disk_ok | exact Hl]).
    reflexivity.
  - erewrite bind_returned by (apply messages_get_all; [apply disk_ok | exact Hl]).
    reflexivity.
Qed.

Lemma storeAssistantMessage_appends w l reply :
  messagesJson w = Some (Json l) ->
  exists assistant w1,
    ChatService.storeAssistantMessage env reply w =
      (Returned {| fields := {| role := "assistant"; content := reply |};
                   timestamp := Some (at_time assistant) |}, w1) /\
    stored assistant = {| role := "assistant"; content := reply |} /\
    id assistant = (FileMessageStorage.maxId l + 1)%Z /\
    messagesJson w1 = Some (Json (l ++ [assistant])) /\
    posted w1 = posted w.
Proof.
  intros Hl. unfold ChatService.storeAssistantMessage.
  unfold bind at 1. unfold Date_now at 1.
  erewrite bind_returned.
  2:{ apply messages_add; [apply disk_ok | apply disk_ok | exact Hl]. }
  eexists. eexists. split; [reflexivity|].
  simpl. repeat split; reflexivity.
Qed.

(** What one call of [processUserMessage] does, by what the endpoint
    answers to the one request the call posts. *)
Lemma processUserMessage_runs w :
  messagesJson w <> None ->
  exists user rq r w',
    ChatService.processUserMessage env (JS.Str s) userRole w = (r, w') /\
    stored user = userTurn /\
    id user = (FileMessageStorage.maxId (turns w) + 1)%Z /\
    posted w' = posted w ++ [rq] /\
    model rq = llmModel env /\
    messages rq =
      match prompts env "system.prompt.xml" with
      | inr systemPrompt =>
          systemMessage systemPrompt :: map ChatService.strip (turns w ++ [user])
      | inl _ => map ChatService.strip (turns w ++ [user]) ++ [userTurn]
      end /\
    match upstream env rq with
    | inl cause =>
        r = Threw ("LLM API call failed: Failed to get LLM response: " ++ cause) /\
        turns w' = turns w ++ [user]
    | inr data =>
        match data with
        | Some {| choices := Some (first :: _) |} =>
            match message first with
            | Some reply =>
                exists assistant,
                  r = Returned {| fields := {| role := "assistant"; content := content reply |};
                                  timestamp := Some (at_time assistant) |} /\
                  stored assistant = {| role := "assistant"; content := content reply |} /\
                  id assistant = (id user + 1)%Z /\
                  turns w' = turns w ++ [user; assistant]
            | None =>
                r = Threw "TypeError: Cannot read properties of undefined (reading 'content')" /\
                turns w' = turns w ++ [user]
            end
        | _ =>
            r = Threw "LLM API call failed: Invalid response from LLM service" /\
            turns w' = turns w ++ [user]
        end
    end.
Proof.
  intros Hw. destruct (messagesJson w) as [d|] eqn:Hd; [clear Hw|congruence].
  assert (Ht : turns w = view d) by (unfold turns; rewrite Hd; reflexivity).
  rewrite Ht.
  destruct (@storeUserMessage_appends w d Hd) as (user & w1 & E1 & S1 & I1 & M1 & _ & P1).
  destruct (@prepareConversationHistory_builds w1 _ M1) as (w2 & E2 & M2 & _ & P2).
  set (context := match prompts env "system.prompt.xml" with
                  | inr systemPrompt =>
                      systemMessage systemPrompt :: map ChatService.strip (view d ++ [user])
                  | inl _ => map ChatService.strip (view d ++ [user]) ++ [userTurn]
                  end) in *.
  destruct (@getLLMResponse_posts env context w2) as (w3 & E3 & M3 & P3).
  set (rq := {| messages := context; model := llmModel env |}) in *.
  assert (T3 : turns w3 = view d ++ [user])
    by (unfold turns; rewrite M3, M2, M1; reflexivity).
  assert (Hp : posted w3 = posted w ++ [rq]) by (rewrite P3, P2, P1; reflexivity).
  unfold ChatService.processUserMessage.
  erewrite bind_returned by apply validateUserMessage_accepts.
  erewrite bind_returned by exact E1.
  erewrite bind_returned by exact E2.
  exists user, rq.
  destruct (upstream env rq) as [cause|data] eqn:U.
  { erewrite bind_threw by exact E3. do 2 eexists. repeat split; auto. }
  destruct data as [[[[|first rest]|]]|];
    try (erewrite bind_threw by exact E3; do 2 eexists; repeat split; auto).
  erewrite bind_returned by exact E3.
  unfold ChatService.extractAssistantContent. simpl choices. cbv iota.
  destruct (message first) as [reply|] eqn:F.
  2:{ do 2 eexists. split; [reflexivity|]. repeat split; auto. }
  assert (M3' : messagesJson w3 = Some (Json (view d ++ [user])))
    by (rewrite M3, M2, M1; reflexivity).
  destruct (@storeAssistantMessage_appends w3 _ (content reply) M3')
    as (assistant & w4 & E4 & S4 & I4 & M4 & P4).
  unfold bind at 1. unfold ret at 1.
  erewrite bind_returned by exact E4.
  do 2 eexists. split; [reflexivity|].
  repeat split; auto.
  - rewrite P4. exact Hp.
  - exists assistant. repeat split; auto.
    + rewrite I4. rewrite (maxId_snoc (view d) user I1). reflexivity.
    + unfold turns. rewrite M4. simpl. rewrite <- app_assoc. reflexivity.
Qed.

End Turn.

(** A truthy content that is not a string is stored and then makes the log
    line of [storeUserMessage] throw: nothing is posted. *)
Lemma processUserMessage_not_a_string (env : Env) (userContent : JS.value)
    (userRole : string) (w : World) :
  healthy env ->
  messagesJson w <> None ->
  JS.truthy userContent = true ->
  (forall s, userContent <> JS.Str s) ->
  exists user msg w',
    ChatService.processUserMessage env userContent userRole w = (Threw msg, w') /\
    stored user = {| role := userRole; content := userContent |} /\
    turns w' = turns w ++ [user] /\
    posted w' = posted w.
Proof.
  intros Hh Hw Ht Hs.
  destruct (messagesJson w) as [d|] eqn:Hd; [clear Hw|congruence].
  unfold ChatService.processUserMessage.
  erewrite bind_returned
    by (unfold ChatService.validateUserMessage; rewrite Ht; reflexivity).
  unfold ChatService.storeUserMessage.
  unfold bind at 2. unfold Date_now at 1.
  do 3 eexists. split.
  - apply bind_threw. erewrite bind_returned.
    2:{ apply messages_add; [apply Hh | apply Hh | exact Hd]. }
    destruct userContent; try reflexivity.
    exfalso. eapply Hs. reflexivity.
  - unfold turns. rewrite Hd. simpl. repeat split; reflexivity.
Qed.

Lemma strip_stored (r : record chatMessage) : ChatService.strip r = stored r.
Proof. unfold ChatService.strip. destruct (stored r). reflexivity. Qed.

Lemma occurrences_app (m : chatMessage) (xs ys : list chatMessage) :
  occurrences m (xs ++ ys) = occurrences m xs + occurrences m ys.
Proof. apply count_occ_app. Qed.

Lemma occurrences_self (m : chatMessage) : occurrences m [m] = 1.
Proof.
  unfold occurrences. simpl.
  destruct (chatMessage_eq_dec m m); [reflexivity|contradiction].
Qed.

(** C1. With a non-empty content string, [processUserMessage] appends the
    user's Turn to the Message Store.  When the LLM call succeeds with a
    completion whose first choice carries a message, it appends one
    assistant Turn after it (two appends in all) and returns the reply.
    When the LLM call fails, the store holds the user's Turn and nothing
    more of this call, and the call throws the [LLM API call failed] error
    that wraps the cause: the user's Turn is not rolled back. *)
Theorem C1_processUserMessage_appends (env : Env) (s userRole : string) (w : World) :
  healthy env ->
  s <> EmptyString ->
  messagesJson w <> None ->
  exists user rq r w',
    ChatService.processUserMessage env (JS.Str s) userRole w = (r, w') /\
    stored user = {| role := userRole; content := JS.Str s |} /\
    posted w' = posted w ++ [rq] /\
    (forall data reply,
       upstream env rq = inr data -> firstMessage data = Some reply ->
       exists assistant,
         turns w' = turns w ++ [user; assistant] /\
         stored assistant = {| role := "assistant"; content := content reply |} /\
         r = Returned {| fields := {| role := "assistant"; content := content reply |};
                         timestamp := Some (at_time assistant) |}) /\
    (forall cause,
       upstream env rq = inl cause ->
       turns w' = turns w ++ [user] /\
       r = Threw ("LLM API call failed: Failed to get LLM response: " ++ cause)).
Proof.
  intros Hh Hs Hw.
  destruct (@processUserMessage_runs env Hh s userRole Hs w Hw)
    as (user & rq & r & w' & E & Su & _ & P & _ & _ & Hcases).
  exists user, rq, r, w'.
  split; [exact E|]. split; [exact Su|]. split; [exact P|]. split.
  - intros data reply U F. rewrite U in Hcases.
    destruct data as [[[[|first rest]|]]|]; simpl in F; try discriminate.
    rewrite F in Hcases. destruct Hcases as (assistant & R & Sa & _ & T).
    exists assistant. auto.
  - intros cause U. rewrite U in Hcases. destruct Hcases as [R T]. auto.
Qed.

(** Witness for C1: an empty store and an endpoint that answers [hello]. *)
Lemma C1_processUserMessage_appends_witness :
  let hello := {| role := "assistant"; content := JS.Str "hello" |} in
  let env := {| diskFault := fun _ => false; prompts := fun _ => inr "be brief";
                upstream := fun _ => inr (Some {| choices := Some [{| message := Some hello |}] |});
                isoDate := fun n => Z.of_nat n; llmModel := "m"; requestStorage := true |} in
  let w := {| messagesJson := Some (Json []); requestsJson := Some (Json []);
              fsCalls := 0; dateCalls := 0; posted := [] |} in
  healthy env /\ "hi" <> EmptyString /\ messagesJson w <> None /\
  exists user assistant w',
    snd (ChatService.processUserMessage env (JS.Str "hi") "user" w) = w' /\
    turns w' = [user; assistant] /\
    stored user = {| role := "user"; content := JS.Str "hi" |} /\
    stored assistant = hello.
Proof.
  intros hello env w.
  assert (Hh : healthy env) by (intros n; reflexivity).
  assert (Hs : "hi" <> EmptyString) by discriminate.
  assert (Hw : messagesJson w <> None) by discriminate.
  repeat split; try assumption.
  destruct (@C1_processUserMessage_appends env "hi" "user" w Hh Hs Hw)
    as (user & rq & r & w' & E & Su & _ & Hok & _).
  destruct (Hok _ hello eq_refl eq_refl) as (assistant & T & Sa & _).
  exists user, assistant, w'. rewrite E. repeat split; assumption.
Defined.

(** C8. When the endpoint answers with an empty [choices] array,
    [processUserMessage] throws the [LLM API call failed] error for an
    invalid response from the LLM service, and the Message Store holds what
    it held plus the user's Turn of this call: no assistant Turn is
    appended, and a store that was empty holds the user's Turn only. *)
Theorem C8_empty_choices_rejected (env : Env) (s userRole : string) (w : World) :
  healthy env ->
  s <> EmptyString ->
  messagesJson w <> None ->
  exists user rq r w',
    ChatService.processUserMessage env (JS.Str s) userRole w = (r, w') /\
    stored user = {| role := userRole; content := JS.Str s |} /\
    posted w' = posted w ++ [rq] /\
    (upstream env rq = inr (Some {| choices := Some [] |}) ->
     r = Threw "LLM API call failed: Invalid response from LLM service" /\
     turns w' = turns w ++ [user] /\
     (turns w = [] -> turns w' = [user])).
Proof.
  intros Hh Hs Hw.
  destruct (@processUserMessage_runs env Hh s userRole Hs w Hw)
    as (user & rq & r & w' & E & Su & _ & P & _ & _ & Hcases).
  exists user, rq, r, w'.
  split; [exact E|]. split; [exact Su|]. split; [exact P|].
  intros U. rewrite U in Hcases. destruct Hcases as [R T].
  split; [exact R|]. split; [exact T|].
  intros Z0. rewrite T, Z0. reflexivity.
Qed.

(** Witness for C8: an empty store and an endpoint that answers
    [choices: []]. *)
Lemma C8_empty_choices_rejected_witness :
  let env := {| diskFault := fun _ => false; prompts := fun _ => inr "be brief";
                upstream := fun _ => inr (Some {| choices := Some [] |});
                isoDate := fun n => Z.of_nat n; llmModel := "m"; requestStorage := true |} in
  let w := {| messagesJson := Some (Json []); requestsJson := Some (Json []);
              fsCalls := 0; dateCalls := 0; posted := [] |} in
  healthy env /\ "hi" <> EmptyString /\ messagesJson w <> None /\
  exists user,
    fst (ChatService.processUserMessage env (JS.Str "hi") "user" w)
      = Threw "LLM API call failed: Invalid response from LLM service" /\
    turns (snd (ChatService.processUserMessage env (JS.Str "hi") "user" w)) = [user] /\
    stored user = {| role := "user"; content := JS.Str "hi" |}.
Proof.
  intros env w.
  assert (Hh : healthy env) by (intros n; reflexivity).
  assert (Hs : "hi" <> EmptyString) by discriminate.
  assert (Hw : messagesJson w <> None) by discriminate.
  repeat split; try assumption.
  destruct (@C8_empty_choices_rejected env "hi" "user" w Hh Hs Hw)
    as (user & rq & r & w' & E & Su & _ & Hbad).
  destruct (Hbad eq_refl) as (R & _ & T).
  exists user. rewrite E. simpl. repeat split; auto.
Defined.

(** C6 as the specification states it fails: the turn a caller sends in the
    role [system] is persisted in that role, so turns other than user and
    assistant turns are persisted; sent with the text of the system prompt
    as content, the stored turn reads exactly as the system prompt does in
    the context. *)
Lemma C6_system_role_turn_is_stored :
  let hello := {| role := "assistant"; content := JS.Str "hello" |} in
  let env := {| diskFault := fun _ => false; prompts := fun _ => inr "be brief";
                upstream := fun _ => inr (Some {| choices := Some [{| message := Some hello |}] |});
                isoDate := fun n => Z.of_nat n; llmModel := "m"; requestStorage := true |} in
  let w := {| messagesJson := Some (Json []); requestsJson := Some (Json []);
              fsCalls := 0; dateCalls := 0; posted := [] |} in
  let w' := snd (ChatService.processUserMessage env (JS.Str "be brief") "system" w) in
  prompts env "system.prompt.xml" = inr "be brief" /\
  map (fun t => stored t) (turns w') = [systemMessage "be brief"; hello] /\
  ~ (forall t, In t (turns w') ->
       role (stored t) = "user" \/ role (stored t) = "assistant").
Proof.
  intros hello env w w'.
  assert (Hstored : map (fun t => stored t) (turns w') = [systemMessage "be brief"; hello])
    by reflexivity.
  split; [reflexivity|]. split; [exact Hstored|].
  intros Honly.
  destruct (turns w') as [|first others] eqn:Hturns; [discriminate Hstored|].
  inversion Hstored as [[Hfirst Hothers]].
  destruct (Honly first (or_introl eq_refl)) as [Hrole|Hrole];
    rewrite Hfirst in Hrole; discriminate Hrole.
Qed.

(** C6, amended.  Whatever content and role [processUserMessage] is called
    with, the records it appends to the Message Store are the caller's turn,
    in the role the caller gave, and after it the assistant Turn holding the
    returned reply when the call returns; nothing is appended for an empty
    content.  A record is appended in the role [system] only when the caller
    gave that role: the system prompt is never written to the store.  For a
    content that is a non-empty string the call posts exactly one
    conversation context, and when the system prompt loads that context is
    the system prompt followed by the turns of the store and the new turn;
    for any other content nothing is posted. *)
Theorem C6_system_prompt_first_and_unstored (env : Env) (userContent : JS.value)
    (userRole : string) (w : World) :
  healthy env ->
  messagesJson w <> None ->
  let userTurn := {| role := userRole; content := userContent |} in
  exists r w' appended,
    ChatService.processUserMessage env userContent userRole w = (r, w') /\
    turns w' = turns w ++ appended /\
    (JS.truthy userContent = false -> appended = []) /\
    (JS.truthy userContent = true ->
     exists user,
       stored user = userTurn /\
       ((appended = [user] /\ exists msg, r = Threw msg) \/
        exists assistant reply,
          r = Returned reply /\ stored assistant = fields reply /\
          role (stored assistant) = "assistant" /\ appended = [user; assistant])) /\
    (forall t, In t appended -> role (stored t) = "system" ->
       userRole = "system" /\ stored t = userTurn) /\
    ((forall s, userContent = JS.Str s -> s = EmptyString) -> posted w' = posted w) /\
    (forall s, userContent = JS.Str s -> s <> EmptyString ->
       exists rq,
         posted w' = posted w ++ [rq] /\
         forall systemPrompt, prompts env "system.prompt.xml" = inr systemPrompt ->
           messages rq
             = systemMessage systemPrompt :: map ChatService.strip (turns w) ++ [userTurn]).
Proof.
  intros Hh Hw userTurn.
  destruct (JS.truthy userContent) eqn:Ht.
  2:{ exists (Threw "Message content is required"), w, [].
      split; [apply falsy_rejected; exact Ht|].
      rewrite app_nil_r. split; [reflexivity|]. split; [reflexivity|].
      split; [discriminate|]. split; [intros t []|]. split; [reflexivity|].
      intros s -> Hs. simpl in Ht.
      destruct (String.eqb_spec s EmptyString); [contradiction|discriminate]. }
  assert (Hstr : (exists s, userContent = JS.Str s) \/ forall s, userContent <> JS.Str s)
    by (destruct userContent; try (right; discriminate); left; eexists; reflexivity).
  destruct Hstr as [[s Hcontent]|Hnot].
  - subst userContent.
    assert (Hs : s <> EmptyString)
      by (intros ->; simpl in Ht; discriminate).
    destruct (@processUserMessage_runs env Hh s userRole Hs w Hw)
      as (user & rq & r & w' & E & Su & _ & P & _ & Hctx & Hcases).
    assert (Hposted : forall s0, JS.Str s = JS.Str s0 -> s0 <> EmptyString ->
              exists rq0, posted w' = posted w ++ [rq0] /\
                forall systemPrompt, prompts env "system.prompt.xml" = inr systemPrompt ->
                  messages rq0 = systemMessage systemPrompt
                                   :: map ChatService.strip (turns w) ++ [userTurn]).
    { intros s0 _ _. exists rq. split; [exact P|]. intros systemPrompt Hp.
      rewrite Hp in Hctx. rewrite Hctx, map_app. simpl. rewrite strip_stored, Su.
      reflexivity. }
    assert (Hsilent : (forall s0, JS.Str s = JS.Str s0 -> s0 = EmptyString) ->
              posted w' = posted w)
      by (intros Hall; exfalso; apply Hs, Hall; reflexivity).
    assert (Hthrown : forall msg, r = Threw msg -> turns w' = turns w ++ [user] ->
              exists r0 w0 appended,
                ChatService.processUserMessage env (JS.Str s) userRole w = (r0, w0) /\
                turns w0 = turns w ++ appended /\
                (true = false -> appended = []) /\
                (true = true ->
                 exists user0,
                   stored user0 = userTurn /\
                   ((appended = [user0] /\ exists msg0, r0 = Threw msg0) \/
                    exists assistant reply,
                      r0 = Returned reply /\ stored assistant = fields reply /\
                      role (stored assistant) = "assistant" /\
                      appended = [user0; assistant])) /\
                (forall t, In t appended -> role (stored t) = "system" ->
                   userRole = "system" /\ stored t = userTurn) /\
                ((forall s0, JS.Str s = JS.Str s0 -> s0 = EmptyString) ->
                 posted w0 = posted w) /\
                (forall s0, JS.Str s = JS.Str s0 -> s0 <> EmptyString ->
                   exists rq0, posted w0 = posted w ++ [rq0] /\
                     forall systemPrompt,
                       prompts env "system.prompt.xml" = inr systemPrompt ->
                       messages rq0 = systemMessage systemPrompt
                                        :: map ChatService.strip (turns w) ++ [userTurn])).
    { intros msg Hr T. exists r, w', [user].
      split; [exact E|]. split; [exact T|]. split; [discriminate|].
      split; [intros _; exists user; split; [exact Su|left; split; [reflexivity|]];
              exists msg; exact Hr|].
      split; [|split; [exact Hsilent|exact Hposted]].
      intros t [<-|[]] Hrole. rewrite Su in Hrole. simpl in Hrole.
      split; [exact Hrole|exact Su]. }
    destruct (upstream env rq) as [cause|data].
    { destruct Hcases as [R T]. exact (Hthrown _ R T). }
    destruct data as [[[[|first rest]|]]|];
      try (destruct Hcases as [R T]; exact (Hthrown _ R T)).
    destruct (message first) as [reply|].
    2:{ destruct Hcases as [R T]. exact (Hthrown _ R T). }
    destruct Hcases as (assistant & R & Sa & _ & T).
    exists r, w', [user; assistant].
    split; [exact E|]. split; [exact T|]. split; [discriminate|].
    split.
    { intros _. exists user. split; [exact Su|]. right.
      eexists assistant, _. split; [exact R|]. rewrite Sa. simpl. auto. }
    split; [|split; [exact Hsilent|exact Hposted]].
    intros t [<-|[<-|[]]] Hrole.
    + rewrite Su in Hrole. simpl in Hrole. split; [exact Hrole|exact Su].
    + rewrite Sa in Hrole. simpl in Hrole. discriminate Hrole.
  - destruct (@processUserMessage_not_a_string env userContent userRole w Hh Hw Ht Hnot)
      as (user & msg & w' & E & Su & T & P).
    exists (Threw msg), w', [user].
    split; [exact E|]. split; [exact T|]. split; [discriminate|].
    split; [intros _; exists user; split; [exact Su|left; split; [reflexivity|]];
            exists msg; reflexivity|].
    split; [|split; [intros _; exact P|]].
    + intros t [<-|[]] Hrole. rewrite Su in Hrole. simpl in Hrole.
      split; [exact Hrole|exact Su].
    + intros s Hcontent. exfalso. exact (Hnot s Hcontent).
Qed.

(** Witness for C6: a store holding one turn, a system prompt that loads:
    the context posted is the prompt, the stored turn and the new turn. *)
Lemma C6_system_prompt_first_and_unstored_witness :
  let hello := {| role := "assistant"; content := JS.Str "hello" |} in
  let hi := {| role := "user"; content := JS.Str "hi" |} in
  let env := {| diskFault := fun _ => false; prompts := fun _ => inr "be brief";
                upstream := fun _ => inr (Some {| choices := Some [{| message := Some hello |}] |});
                isoDate := fun n => Z.of_nat n; llmModel := "m"; requestStorage := true |} in
  let w := {| messagesJson :=
                Some (Json [{| id := 1; stored := hello; at_time := 0%Z |}]);
              requestsJson := Some (Json []); fsCalls := 0; dateCalls := 0; posted := [] |} in
  healthy env /\ messagesJson w <> None /\
  exists r w' appended rq,
    ChatService.processUserMessage env (JS.Str "hi") "user" w = (r, w') /\
    turns w' = turns w ++ appended /\
    (forall t, In t appended -> role (stored t) <> "system") /\
    posted w' = [rq] /\
    messages rq = [systemMessage "be brief"; hello; hi].
Proof.
  intros hello hi env w.
  assert (Hh : healthy env) by (intros n; reflexivity).
  assert (Hw : messagesJson w <> None) by discriminate.
  split; [exact Hh|]. split; [exact Hw|].
  destruct (@C6_system_prompt_first_and_unstored env (JS.Str "hi") "user" w Hh Hw)
    as (r & w' & appended & E & T & _ & _ & Hsystem & _ & Hposted).
  assert (Hne : "hi" <> EmptyString) by discriminate.
  destruct (Hposted "hi" eq_refl Hne) as (rq & P & Hcontext).
  exists r, w', appended, rq.
  split; [exact E|]. split; [exact T|]. split; [|split; [exact P|]].
  - intros t Hin Hrole. destruct (Hsystem t Hin Hrole) as [Huser _]. discriminate Huser.
  - exact (Hcontext "be brief" eq_refl).
Defined.

(** C7. The context posted for a new user turn holds that turn once when the
    system prompt loads: the system prompt, then the store as read after
    the turn was persisted.  When the system prompt fails to load, the
    context is the same read of the store followed by the new turn again,
    so it holds the new turn twice. *)
Theorem C7_user_turn_multiplicity (env : Env) (s userRole : string) (w : World) :
  healthy env ->
  s <> EmptyString ->
  messagesJson w <> None ->
  let userTurn := {| role := userRole; content := JS.Str s |} in
  let prior := map ChatService.strip (turns w) in
  exists rq r w',
    ChatService.processUserMessage env (JS.Str s) userRole w = (r, w') /\
    posted w' = posted w ++ [rq] /\
    (forall systemPrompt, prompts env "system.prompt.xml" = inr systemPrompt ->
       messages rq = systemMessage systemPrompt :: prior ++ [userTurn] /\
       occurrences userTurn (tl (messages rq)) = occurrences userTurn prior + 1) /\
    (forall cause, prompts env "system.prompt.xml" = inl cause ->
       messages rq = prior ++ [userTurn; userTurn] /\
       occurrences userTurn (messages rq) = occurrences userTurn prior + 2).
Proof.
  intros Hh Hs Hw userTurn prior.
  destruct (@processUserMessage_runs env Hh s userRole Hs w Hw)
    as (user & rq & r & w' & E & Su & _ & P & _ & Hctx & _).
  assert (Hstrip : map ChatService.strip (turns w ++ [user]) = prior ++ [userTurn]).
  { rewrite map_app. simpl. rewrite strip_stored, Su. reflexivity. }
  rewrite Hstrip in Hctx.
  exists rq, r, w'.
  split; [exact E|]. split; [exact P|]. split.
  - intros systemPrompt Hp. rewrite Hp in Hctx. rewrite Hctx. split; [reflexivity|].
    simpl tl. rewrite occurrences_app, occurrences_self. reflexivity.
  - intros cause Hp. rewrite Hp in Hctx. rewrite Hctx. split.
    + rewrite <- app_assoc. reflexivity.
    + rewrite !occurrences_app, !occurrences_self. lia.
Qed.

(** Witness for C7: the system prompt cannot be read and the context holds
    the new turn twice. *)
Lemma C7_user_turn_multiplicity_witness :
  let env := {| diskFault := fun _ => false; prompts := fun _ => inl "ENOENT";
                upstream := fun _ => inl "ECONNREFUSED";
                isoDate := fun n => Z.of_nat n; llmModel := "m"; requestStorage := true |} in
  let w := {| messagesJson := Some (Json []); requestsJson := Some (Json []);
              fsCalls := 0; dateCalls := 0; posted := [] |} in
  let hi := {| role := "user"; content := JS.Str "hi" |} in
  healthy env /\ "hi" <> EmptyString /\ messagesJson w <> None /\
  exists rq,
    posted (snd (ChatService.processUserMessage env (JS.Str "hi") "user" w)) = [rq] /\
    messages rq = [hi; hi].
Proof.
  intros env w hi.
  assert (Hh : healthy env) by (intros n; reflexivity).
  assert (Hs : "hi" <> EmptyString) by discriminate.
  assert (Hw : messagesJson w <> None) by discriminate.
  repeat split; try assumption.
  destruct (@C7_user_turn_multiplicity env "hi" "user" w Hh Hs Hw)
    as (rq & r & w' & E & P & _ & Hfail).
  destruct (Hfail "ENOENT" eq_refl) as [Hm _].
  exists rq. rewrite E. split; [exact P|exact Hm].
Defined.

(* ===================================================================== *)
(** * Resetting the conversation                                          *)
(* ===================================================================== *)

Section Reset.
Variable env : Env.
Hypothesis disk_ok : healthy env.
Hypothesis with_requests : requestStorage env = true.

(** Both files hold [[]] once the two clears have run. *)
Lemma clears_empty_both w :
  exists w1,
    Promise_all2 (FileMessageStorage.clearMessages env messageStorage)
                 (FileMessageStorage.clearMessages env requestStore) w
      = (Returned tt, w1) /\
    messagesJson w1 = Some (Json []) /\
    requestsJson w1 = Some (Json []) /\
    posted w1 = posted w.
Proof.
  unfold Promise_all2.
  rewrite (@messages_clear env w (disk_ok _)).
  rewrite requests_clear by apply disk_ok.
  eexists. split; [reflexivity|]. repeat split.
Qed.

Lemma clearAllMessages_welcomes w welcome :
  prompts env "initial-message.html" = inr welcome ->
  exists t w',
    ChatService.clearAllMessages env w = (Returned [t], w') /\
    messagesJson w' = Some (Json [t]) /\
    requestsJson w' = Some (Json []) /\
    stored t = {| role := "assistant"; content := JS.Str welcome |} /\
    id t = 1%Z.
Proof.
  intros Hp. destruct (clears_empty_both w) as (w1 & E1 & M1 & R1 & _).
  unfold ChatService.clearAllMessages. rewrite with_requests.
  erewrite bind_returned by exact E1.
  erewrite bind_returned.
  2:{ apply try_returned. unfold loadPrompt. rewrite Hp.
      erewrite bind_returned by reflexivity.
      erewrite bind_returned by reflexivity.
      erewrite bind_returned
        by (apply messages_add; [apply disk_ok | apply disk_ok | exact M1]).
      reflexivity. }
  unfold ChatService.getAllMessages.
  erewrite messages_get_all; [|apply disk_ok|reflexivity].
  do 2 eexists. split; [reflexivity|]. simpl. rewrite R1. repeat split.
Qed.

Lemma clearAllMessages_without_welcome w cause :
  prompts env "initial-message.html" = inl cause ->
  exists w',
    ChatService.clearAllMessages env w = (Returned [], w') /\
    messagesJson w' = Some (Json []) /\
    requestsJson w' = Some (Json []).
Proof.
  intros Hp. destruct (clears_empty_both w) as (w1 & E1 & M1 & R1 & _).
  unfold ChatService.clearAllMessages. rewrite with_requests.
  erewrite bind_returned by exact E1.
  erewrite bind_returned.
  2:{ erewrite try_threw; [reflexivity|].
      unfold loadPrompt. rewrite Hp.
      apply bind_threw. reflexivity. }
  unfold ChatService.getAllMessages.
  erewrite messages_get_all; [|apply disk_ok|exact M1].
  eexists. split; [reflexivity|]. simpl. auto.
Qed.

End Reset.

(** C5. Whatever the two stores held, [clearAllMessages] leaves the Message
    Store holding exactly one Turn, of role assistant, with the welcome
    content and id 1, leaves the Request Store empty, and returns that
    one-turn list.  When the welcome content cannot be loaded no error is
    raised: both stores are left empty and the empty list is returned. *)
Theorem C5_clearAllMessages_resets (env : Env) (w : World) :
  healthy env ->
  requestStorage env = true ->
  (forall welcome, prompts env "initial-message.html" = inr welcome ->
     exists t w',
       ChatService.clearAllMessages env w = (Returned [t], w') /\
       turns w' = [t] /\
       stored t = {| role := "assistant"; content := JS.Str welcome |} /\
       id t = 1%Z /\
       requestsJson w' = Some (Json []) /\ logged w' = []) /\
  (forall cause, prompts env "initial-message.html" = inl cause ->
     exists w',
       ChatService.clearAllMessages env w = (Returned [], w') /\
       messagesJson w' = Some (Json []) /\ turns w' = [] /\
       requestsJson w' = Some (Json []) /\ logged w' = []).
Proof.
  intros Hh Hr. split.
  - intros welcome Hp.
    destruct (@clearAllMessages_welcomes env Hh Hr w welcome Hp)
      as (t & w' & E & M & R & St & It).
    exists t, w'. unfold turns, logged. rewrite M, R. repeat split; auto.
  - intros cause Hp.
    destruct (@clearAllMessages_without_welcome env Hh Hr w cause Hp)
      as (w' & E & M & R).
    exists w'. unfold turns, logged. rewrite M, R. repeat split; auto.
Qed.

(** Witness for C5: a conversation of two turns and one logged request. *)
Lemma C5_clearAllMessages_resets_witness :
  let env := {| diskFault := fun _ => false; prompts := fun _ => inr "Welcome!";
                upstream := fun _ => inl "ECONNREFUSED";
                isoDate := fun n => Z.of_nat n; llmModel := "m"; requestStorage := true |} in
  let hi := {| role := "user"; content := JS.Str "hi" |} in
  let hello := {| role := "assistant"; content := JS.Str "hello" |} in
  let rq := {| messages := [hi]; model := "m" |} in
  let w := {| messagesJson := Some (Json [{| id := 1; stored := hi; at_time := 0%Z |};
                                          {| id := 2; stored := hello; at_time := 1%Z |}]);
              requestsJson :=
                Some (Json [{| id := 1;
                               stored := {| title := "hi"; request := rq; response := None |};
                               at_time := 1%Z |}]);
              fsCalls := 7; dateCalls := 3; posted := [rq] |} in
  healthy env /\ requestStorage env = true /\
  exists t w',
    ChatService.clearAllMessages env w = (Returned [t], w') /\
    turns w' = [t] /\
    stored t = {| role := "assistant"; content := JS.Str "Welcome!" |} /\
    logged w' = [].
Proof.
  intros env hi hello rq w.
  assert (Hh : healthy env) by (intros n; reflexivity).
  repeat split; try assumption.
  destruct (@C5_clearAllMessages_resets env w Hh eq_refl) as [Hok _].
  destruct (Hok "Welcome!" eq_refl) as (t & w' & E & T & St & _ & _ & L).
  exists t, w'. auto.
Defined.


(* ===================================================================== *)
(** * Titles of the request log                                           *)
(* ===================================================================== *)

Section Titles.

Lemma append_assoc (a b c : string) : ((a ++ b) ++ c)%string = (a ++ (b ++ c))%string.
Proof. induction a as [|x a IH]; simpl; [reflexivity|rewrite IH; reflexivity]. Qed.

Lemma append_empty_r (a : string) : (a ++ EmptyString)%string = a.
Proof. induction a as [|x a IH]; simpl; [reflexivity|rewrite IH; reflexivity]. Qed.

Lemma length_append (a b : string) :
  String.length (a ++ b) = String.length a + String.length b.
Proof. induction a as [|x a IH]; simpl; [reflexivity|rewrite IH; reflexivity]. Qed.

Lemma split_not_nil (sep : ascii) (s : string) : JS.split sep s <> [].
Proof.
  destruct s as [|c rest]; simpl; [discriminate|].
  destruct (Ascii.eqb c sep); [discriminate|].
  destruct (JS.split sep rest); discriminate.
Qed.

(** Joining the pieces of a split with the separator gives the string back. *)
Lemma join_split (sep : ascii) (s : string) :
  JS.join (String sep EmptyString) (JS.split sep s) = s.
Proof.
  unfold JS.join.
  induction s as [|c rest IH]; simpl; [reflexivity|].
  destruct (Ascii.eqb_spec c sep) as [->|_].
  - pose proof (split_not_nil sep rest) as Hne.
    destruct (JS.split sep rest) as [|piece pieces]; [contradiction|].
    simpl in *. rewrite IH. reflexivity.
  - destruct (JS.split sep rest) as [|piece pieces]; simpl in *.
    + rewrite <- IH. reflexivity.
    + destruct pieces as [|next others]; simpl in *; rewrite <- IH; reflexivity.
Qed.

(** Joining the first pieces gives a prefix of joining them all. *)
Lemma join_firstn_prefix (sep : string) (pieces : list string) :
  forall n, exists rest,
    JS.join sep pieces = (JS.join sep (firstn n pieces) ++ rest)%string.
Proof.
  unfold JS.join.
  induction pieces as [|piece others IH]; intros n.
  - exists EmptyString. destruct n; reflexivity.
  - destruct n as [|n].
    + eexists. reflexivity.
    + destruct others as [|next others'].
      * exists EmptyString. simpl. rewrite append_empty_r. destruct n; reflexivity.
      * destruct (IH n) as [rest Hrest].
        destruct n as [|n].
        -- eexists. simpl firstn. cbn [String.concat]. reflexivity.
        -- exists rest.
           change (firstn (S (S n)) (piece :: next :: others'))
             with (piece :: next :: firstn n others').
           change (firstn (S n) (next :: others')) with (next :: firstn n others') in Hrest.
           change (String.concat sep (piece :: next :: others'))
             with (piece ++ sep ++ String.concat sep (next :: others'))%string.
           change (String.concat sep (piece :: next :: firstn n others'))
             with (piece ++ sep ++ String.concat sep (next :: firstn n others'))%string.
           rewrite Hrest, !append_assoc. reflexivity.
Qed.

(** The words kept for the title are a prefix of the message. *)
Lemma titleWords_prefix (s : string) :
  exists rest, s = (LLMService.titleWords s ++ rest)%string.
Proof.
  unfold LLMService.titleWords, JS.slice_to.
  destruct (join_firstn_prefix " " (JS.split " " s) 5) as [rest Hrest].
  exists rest. rewrite <- Hrest. symmetry. apply (join_split " "%char).
Qed.

(** The title is the whole message when nothing was cut off, and the kept
    words followed by [...] otherwise. *)
Lemma makeTitle_cases (s : string) :
  (LLMService.titleWords s = s /\ LLMService.makeTitle s = s) \/
  (LLMService.titleWords s <> s /\
   LLMService.makeTitle s = (LLMService.titleWords s ++ "...")%string).
Proof.
  destruct (titleWords_prefix s) as [rest Hrest].
  unfold LLMService.makeTitle.
  destruct rest as [|c rest].
  - rewrite append_empty_r in Hrest. left. rewrite <- Hrest.
    rewrite Nat.ltb_irrefl, append_empty_r. auto.
  - right.
    assert (Hlen : String.length s = String.length (LLMService.titleWords s) + S (String.length rest))
      by (rewrite Hrest at 1; rewrite length_append; reflexivity).
    split.
    + intros E. rewrite E in Hlen. lia.
    + destruct (Nat.ltb_spec (String.length (LLMService.titleWords s)) (String.length s));
        [reflexivity|lia].
Qed.

Lemma is_space_space : is_space " " = true.
Proof. reflexivity. Qed.

(** Cutting at white space and splitting at the space character agree on a
    text whose pieces hold no white space. *)
Lemma cut_split (s : string) :
  forallb spaceless (JS.split " " s) = true ->
  cut is_space s = JS.split " " s.
Proof.
  induction s as [|c rest IH]; simpl; [reflexivity|].
  destruct (Ascii.eqb_spec c " ") as [->|Hc].
  - simpl. intros H. rewrite IH by exact H. reflexivity.
  - destruct (JS.split " " rest) as [|piece pieces] eqn:E.
    + simpl. rewrite andb_true_r, andb_true_r. intros H.
      apply negb_true_iff in H. rewrite H. rewrite IH by reflexivity. reflexivity.
    + simpl. intros H.
      apply andb_true_iff in H. destruct H as [H Hps].
      apply andb_true_iff in H. destruct H as [Hc' Hp].
      apply negb_true_iff in Hc'. rewrite Hc'.
      rewrite IH by (simpl; rewrite Hp, Hps; reflexivity).
      reflexivity.
Qed.

Lemma forallb_and (A : Type) (p q : A -> bool) (l : list A) :
  forallb (fun x => p x && q x) l = forallb p l && forallb q l.
Proof.
  induction l as [|x l IH]; simpl; [reflexivity|].
  rewrite IH. destruct (p x), (q x), (forallb p l); reflexivity.
Qed.

Lemma filter_all (A : Type) (p : A -> bool) (l : list A) :
  forallb p l = true -> filter p l = l.
Proof.
  induction l as [|x l IH]; simpl; [reflexivity|].
  intros H. apply andb_true_iff in H. destruct H as [Hx Hl].
  rewrite Hx, IH by exact Hl. reflexivity.
Qed.

(** On a single-spaced text the words are the pieces of the split. *)
Lemma words_split (s : string) :
  single_spaced s = true -> words s = JS.split " " s.
Proof.
  unfold single_spaced, words. rewrite forallb_and.
  intros H. apply andb_true_iff in H. destruct H as [Hne Hsp].
  rewrite (cut_split s Hsp). apply filter_all, Hne.
Qed.

Lemma makeTitle_first_words (s : string) :
  single_spaced s = true -> LLMService.makeTitle s = title_of_first_words s.
Proof.
  intros H. unfold title_of_first_words. rewrite (words_split s H). reflexivity.
Qed.

End Titles.

Section Logging.
Variable env : Env.
Hypothesis disk_ok : healthy env.
Hypothesis with_requests : requestStorage env = true.

Lemma filter_none (A : Type) (p : A -> bool) (l : list A) :
  (forall x, In x l -> p x = false) -> filter p l = [].
Proof.
  induction l as [|x l IH]; simpl; [reflexivity|].
  intros H. rewrite (H x) by (left; reflexivity).
  apply IH. intros y Hy. apply H. right. exact Hy.
Qed.

Lemma lastUserMessage_found (rq : requestBody) (m : chatMessage) :
  last_user_message rq m -> LLMService.lastUserMessage rq = content m.
Proof.
  intros (before & after & Hm & Hrole & Hafter).
  unfold LLMService.lastUserMessage. rewrite Hm, filter_app. simpl.
  rewrite Hrole. simpl.
  rewrite (filter_none (fun msg => role msg =? "user")%string after).
  - rewrite rev_app_distr. reflexivity.
  - intros x Hx. apply String.eqb_neq, Hafter, Hx.
Qed.

Lemma responseContent_returns (data : option completion) (w : World) :
  loggable data = true ->
  exists v, LLMService.responseContent data w = (Returned v, w).
Proof.
  unfold loggable, LLMService.responseContent.
  destruct data as [[[[|first rest]|]]|]; simpl; try discriminate;
    try (intros _; eexists; reflexivity).
  destruct (message first); [|discriminate].
  intros _. eexists. reflexivity.
Qed.

Lemma storeRequest_logs (rq : requestBody) (data : option completion) (s : string)
    (w : World) (d : document (record logEntry)) :
  requestsJson w = Some d ->
  loggable data = true ->
  LLMService.lastUserMessage rq = JS.Str s ->
  exists entry w',
    LLMService.storeRequest env rq data w = (Returned tt, w') /\
    requestsJson w' = Some (Json (view d ++ [entry])) /\
    stored entry = {| title := LLMService.makeTitle s; request := rq; response := data |} /\
    id entry = (FileMessageStorage.maxId (view d) + 1)%Z /\
    messagesJson w' = messagesJson w /\
    posted w' = posted w.
Proof.
  intros Hd Hl Hs.
  destruct (responseContent_returns data w Hl) as [v Hv].
  unfold LLMService.storeRequest. rewrite with_requests, Hs.
  do 2 eexists. split.
  - apply try_returned.
    erewrite bind_returned by exact Hv.
    erewrite bind_returned by reflexivity.
    erewrite bind_returned by reflexivity.
    erewrite bind_returned
      by (apply requests_add; [apply disk_ok | apply disk_ok | exact Hd]).
    reflexivity.
  - simpl. repeat split; reflexivity.
Qed.

Lemma sendMessage_logs (context : list chatMessage) (data : option completion)
    (m : chatMessage) (s : string) (w : World) :
  requestsJson w <> None ->
  let rq := {| messages := context; model := llmModel env |} in
  upstream env rq = inr data ->
  loggable data = true ->
  last_user_message rq m ->
  content m = JS.Str s ->
  exists entry w',
    LLMService.sendMessage env context w = (Returned data, w') /\
    logged w' = logged w ++ [entry] /\
    stored entry = {| title := LLMService.makeTitle s; request := rq; response := data |}.
Proof.
  intros Hw rq Hu Hl Hm Hs.
  destruct (requestsJson w) as [d|] eqn:Hd; [clear Hw|congruence].
  assert (Hlast : LLMService.lastUserMessage rq = JS.Str s)
    by (rewrite (lastUserMessage_found Hm); exact Hs).
  unfold LLMService.sendMessage. fold rq.
  set (w0 := {| messagesJson := messagesJson w; requestsJson := requestsJson w;
                fsCalls := fsCalls w; dateCalls := dateCalls w;
                posted := posted w ++ [rq] |}).
  assert (Hpost : LLMService.axios_post env rq w = (Returned data, w0))
    by (unfold LLMService.axios_post; rewrite Hu; reflexivity).
  assert (Hd0 : requestsJson w0 = Some d) by exact Hd.
  destruct (@storeRequest_logs rq data s w0 d Hd0 Hl Hlast)
    as (entry & w' & E & R & St & _).
  exists entry, w'. split.
  - apply try_returned.
    erewrite bind_returned by exact Hpost.
    erewrite bind_returned by exact E.
    reflexivity.
  - unfold logged. rewrite R, Hd. split; [reflexivity|exact St].
Qed.

End Logging.

(** C10 as the specification states it fails: with two spaces between the
    first two words, the title that is logged keeps an empty piece and four
    words, where the first 5 whitespace-separated words would give five. *)
Lemma C10_title_counts_every_space :
  let hello := {| role := "assistant"; content := JS.Str "hello" |} in
  let env := {| diskFault := fun _ => false; prompts := fun _ => inr "be brief";
                upstream := fun _ => inr (Some {| choices := Some [{| message := Some hello |}] |});
                isoDate := fun n => Z.of_nat n; llmModel := "m"; requestStorage := true |} in
  let w := {| messagesJson := Some (Json []); requestsJson := Some (Json []);
              fsCalls := 0; dateCalls := 0; posted := [] |} in
  let text := "hello  world how are you doing" in
  let w' := snd (LLMService.sendMessage env [{| role := "user"; content := JS.Str text |}] w) in
  map (fun entry => title (stored entry)) (logged w') = ["hello  world how are..."] /\
  title_of_first_words text = "hello world how are you..." /\
  map (fun entry => title (stored entry)) (logged w') <> [title_of_first_words text].
Proof.
  intros hello env w text w'.
  assert (Hcode : map (fun entry => title (stored entry)) (logged w')
                  = ["hello  world how are..."]) by reflexivity.
  assert (Hspec : title_of_first_words text = "hello world how are you...") by reflexivity.
  split; [exact Hcode | split; [exact Hspec|]].
  rewrite Hcode, Hspec. discriminate.
Qed.

(** C10, amended.  For a successful LLM call whose request holds a user
    message, and whose completion the log can read, the entry appended to
    the Request Store has as title the first 5 pieces of the last user
    message split at every single space character, joined by single spaces.
    These kept words are a prefix of the message; the title is the message
    itself when nothing was cut off and the kept words followed by [...]
    otherwise.  On a message whose words are separated by exactly one space
    each, with no other white space, this is the first 5
    whitespace-separated words with [...] when the message is longer. *)
Theorem C10_title_of_logged_request (env : Env) (context : list chatMessage)
    (data : option completion) (m : chatMessage) (s : string) (w : World) :
  healthy env ->
  requestStorage env = true ->
  requestsJson w <> None ->
  let rq := {| messages := context; model := llmModel env |} in
  upstream env rq = inr data ->
  loggable data = true ->
  last_user_message rq m ->
  content m = JS.Str s ->
  let kept := JS.join " " (firstn 5 (JS.split " " s)) in
  exists entry w',
    LLMService.sendMessage env context w = (Returned data, w') /\
    logged w' = logged w ++ [entry] /\
    (exists rest, s = (kept ++ rest)%string) /\
    ((kept = s /\ title (stored entry) = s) \/
     (kept <> s /\ title (stored entry) = (kept ++ "...")%string)) /\
    (single_spaced s = true -> title (stored entry) = title_of_first_words s).
Proof.
  intros Hh Hr Hw rq Hu Hl Hm Hs kept.
  destruct (@sendMessage_logs env Hh Hr context data m s w Hw Hu Hl Hm Hs)
    as (entry & w' & E & L & St).
  exists entry, w'. rewrite St. simpl title.
  repeat split; auto.
  - apply titleWords_prefix.
  - apply makeTitle_cases.
  - apply makeTitle_first_words.
Qed.

(** Witness for C10: a single-spaced message of seven words. *)
Lemma C10_title_of_logged_request_witness :
  let hello := {| role := "assistant"; content := JS.Str "hello" |} in
  let reply := Some {| choices := Some [{| message := Some hello |}] |} in
  let env := {| diskFault := fun _ => false; prompts := fun _ => inr "be brief";
                upstream := fun _ => inr reply;
                isoDate := fun n => Z.of_nat n; llmModel := "m"; requestStorage := true |} in
  let w := {| messagesJson := Some (Json []); requestsJson := Some (Json []);
              fsCalls := 0; dateCalls := 0; posted := [] |} in
  let text := "please tell me a very long story" in
  let ask := {| role := "user"; content := JS.Str text |} in
  let rq := {| messages := [systemMessage "be brief"; ask]; model := "m" |} in
  healthy env /\ requestStorage env = true /\ requestsJson w <> None /\
  upstream env rq = inr reply /\ loggable reply = true /\
  last_user_message rq ask /\ content ask = JS.Str text /\
  exists entry w',
    LLMService.sendMessage env [systemMessage "be brief"; ask] w = (Returned reply, w') /\
    logged w' = [entry] /\
    title (stored entry) = "please tell me a very...".
Proof.
  intros hello reply env w text ask rq.
  assert (Hh : healthy env) by (intros n; reflexivity).
  assert (Hw : requestsJson w <> None) by discriminate.
  assert (Hm : last_user_message rq ask).
  { exists [systemMessage "be brief"], []. repeat split. intros x []. }
  repeat split; try assumption.
  destruct (@C10_title_of_logged_request env [systemMessage "be brief"; ask] reply ask text w
              Hh eq_refl Hw eq_refl eq_refl Hm eq_refl)
    as (entry & w' & E & L & _ & _ & Hsingle).
  exists entry, w'. split; [exact E|]. split; [exact L|].
  rewrite (Hsingle eq_refl). reflexivity.
Defined.

(* ===================================================================== *)
(** * Failures of the storage                                             *)
(* ===================================================================== *)

Section Failures.
Variable env : Env.

Lemma unreadable_read_throws (w : World) :
  unreadable env w ->
  exists msg, FileMessageStorage.readMessages env messageStorage w = (Threw msg, Fs.tick w).
Proof.
  intros Hu. unfold FileMessageStorage.readMessages, Fs.readFile.
  destruct (diskFault env (fsCalls w)) eqn:Hf.
  - eexists. apply bind_threw. rewrite Hf. reflexivity.
  - destruct Hu as [Hu|Hu]; [congruence|].
    eexists. apply bind_threw. rewrite Hf. simpl. rewrite Hu. reflexivity.
Qed.

Lemma unreadable_get_fails (w : World) quantity reverseOrder :
  unreadable env w ->
  fails (FileMessageStorage.getMessages env messageStorage quantity reverseOrder) w.
Proof.
  intros Hu. destruct (unreadable_read_throws Hu) as [msg E].
  exists msg. unfold FileMessageStorage.getMessages.
  erewrite bind_threw by exact E. reflexivity.
Qed.

Lemma unreadable_add_fails (w : World) (message : payload chatMessage) :
  unreadable env w ->
  fails (FileMessageStorage.addMessage env messageStorage message) w /\
  messagesJson (snd (FileMessageStorage.addMessage env messageStorage message w))
    = messagesJson w.
Proof.
  intros Hu. destruct (unreadable_read_throws Hu) as [msg E].
  unfold fails, FileMessageStorage.addMessage.
  erewrite bind_threw by exact E. split; [exists msg|]; reflexivity.
Qed.

Lemma slice_from_nil (A : Type) (start : Z) : JS.slice_from start (@nil A) = [].
Proof. unfold JS.slice_from. apply skipn_nil. Qed.

Lemma unparsable_get_empty (w : World) quantity reverseOrder :
  diskFault env (fsCalls w) = false ->
  unparsable w ->
  FileMessageStorage.getMessages env messageStorage quantity reverseOrder w
    = (Returned [], Fs.tick w).
Proof.
  intros Hf Hg. unfold FileMessageStorage.getMessages.
  erewrite bind_returned by (apply messages_read; [exact Hf | exact Hg]).
  simpl view.
  destruct (JS.truthy quantity && JS.is_number quantity);
    [destruct quantity|]; try rewrite slice_from_nil; destruct reverseOrder; reflexivity.
Qed.

Lemma unparsable_add_overwrites (w : World) (message : payload chatMessage) :
  diskFault env (fsCalls w) = false ->
  diskFault env (S (fsCalls w)) = false ->
  unparsable w ->
  exists r w',
    FileMessageStorage.addMessage env messageStorage message w = (Returned r, w') /\
    id r = 1%Z /\ stored r = fields message /\
    messagesJson w' = Some (Json [r]).
Proof.
  intros Hf Hf' Hg. do 2 eexists. split.
  - apply messages_add; [exact Hf | exact Hf' | exact Hg].
  - simpl. repeat split; reflexivity.
Qed.

(** Once the two clears have succeeded, the reset answers what its final
    read of the store answers: no failure to load or to write the welcome
    message is raised. *)
Lemma reset_welcome_best_effort (w : World) :
  requestStorage env = true ->
  diskFault env (fsCalls w) = false ->
  diskFault env (S (fsCalls w)) = false ->
  exists w1 l,
    ChatService.clearAllMessages env w = ChatService.getAllMessages env JS.Null w1 /\
    messagesJson w1 = Some (Json l) /\
    length l <= 1 /\
    requestsJson w1 = Some (Json []) /\
    (diskFault env (fsCalls w1) = false ->
     fst (ChatService.clearAllMessages env w) = Returned l).
Proof.
  intros Hr Hf Hf'.
  unfold ChatService.clearAllMessages. rewrite Hr.
  erewrite bind_returned.
  2:{ unfold Promise_all2.
      rewrite (@messages_clear env w Hf).
      rewrite requests_clear by exact Hf'. reflexivity. }
  set (w0 := {| messagesJson := Some (Json []); requestsJson := Some (Json []);
                fsCalls := S (S (fsCalls w)); dateCalls := dateCalls w;
                posted := posted w |}).
  assert (Hread : forall w1 l, messagesJson w1 = Some (Json l) ->
            diskFault env (fsCalls w1) = false ->
            fst (ChatService.getAllMessages env JS.Null w1) = Returned l).
  { intros w1 l Hm Hok. unfold ChatService.getAllMessages.
    rewrite (@messages_get_all env w1 (Json l) Hok Hm). reflexivity. }
  unfold loadPrompt.
  destruct (prompts env "initial-message.html") as [cause|welcome].
  { exists w0, [].
    match goal with
    | |- ?run = _ /\ _ =>
        assert (E0 : run = ChatService.getAllMessages env JS.Null w0)
    end.
    { erewrite bind_returned; [reflexivity|].
      erewrite try_threw; [reflexivity|]. apply bind_threw. reflexivity. }
    split; [exact E0|]. repeat split; auto.
    intros Hok. rewrite E0. apply Hread; [reflexivity|exact Hok]. }
  set (now := isoDate env (dateCalls w)).
  set (hello := {| fields := {| role := "assistant"; content := JS.Str welcome |};
                   timestamp := Some now |}).
  set (w0' := {| messagesJson := Some (Json []); requestsJson := Some (Json []);
                 fsCalls := S (S (fsCalls w)); dateCalls := S (dateCalls w);
                 posted := posted w |}).
  destruct (FileMessageStorage.addMessage env messageStorage hello w0') as [added w1] eqn:Eadd.
  assert (Hshape : exists l, messagesJson w1 = Some (Json l) /\ length l <= 1 /\
                             requestsJson w1 = Some (Json [])).
  { revert Eadd.
    unfold FileMessageStorage.addMessage, FileMessageStorage.readMessages, Fs.readFile,
      FileMessageStorage.writeMessages, Fs.writeFile, FileMessageStorage.timestamp_or_now,
      bind, try_catch, JSON_parse, ret.
    simpl.
    destruct (diskFault env (S (S (fsCalls w)))); simpl.
    - intros E. inversion E. exists []. simpl. auto.
    - destruct (diskFault env (S (S (S (fsCalls w))))); simpl;
        intros E; inversion E; eexists; simpl; split; try reflexivity; simpl; auto. }
  destruct Hshape as (l & Hm & Hlen & Hreq).
  assert (Htry : forall k : M (list (record chatMessage)),
            try_catch
              (initialMessage <- ret welcome ;;
               now0 <- Date_now env ;;
               _ <- FileMessageStorage.addMessage env messageStorage
                      {| fields := {| role := "assistant"; content := JS.Str initialMessage |};
                         timestamp := Some now0 |} ;;
               ret k)
              (fun _ => ret k) w0 = (Returned k, w1)).
  { intros k. unfold try_catch.
    erewrite bind_returned by reflexivity.
    erewrite bind_returned by reflexivity.
    unfold bind.
    match goal with
    | |- context [FileMessageStorage.addMessage env messageStorage ?p ?ww] =>
        change (FileMessageStorage.addMessage env messageStorage p ww)
          with (FileMessageStorage.addMessage env messageStorage hello w0')
    end.
    rewrite Eadd. destruct added; reflexivity. }
  exists w1, l.
  match goal with
  | |- ?run = _ /\ _ =>
      assert (E1 : run = ChatService.getAllMessages env JS.Null w1)
  end.
  { erewrite bind_returned by apply Htry. reflexivity. }
  split; [exact E1|]. repeat split; auto.
  intros Hok. rewrite E1. apply Hread; assumption.
Qed.

End Failures.

(** C9 as the specification states it fails: on a store whose file cannot
    be parsed, the read does not fail; it answers with no record. *)
Lemma C9_parse_failure_is_swallowed :
  let env := {| diskFault := fun _ => false; prompts := fun _ => inr "be brief";
                upstream := fun _ => inl "ECONNREFUSED";
                isoDate := fun n => Z.of_nat n; llmModel := "m"; requestStorage := true |} in
  let w := {| messagesJson := Some Garbled; requestsJson := Some (Json []);
              fsCalls := 0; dateCalls := 0; posted := [] |} in
  unparsable w /\
  fst (FileMessageStorage.getMessages env messageStorage JS.Null false w) = Returned [] /\
  ~ fails (FileMessageStorage.getMessages env messageStorage JS.Null false) w.
Proof.
  intros env w. split; [reflexivity|]. split; [reflexivity|].
  intros [msg E]. discriminate E.
Qed.

(** C9, amended.  A failure to read the file of the Message Store fails the
    store operation in progress: [getMessages] and [addMessage] throw, and
    the file is left as it was.  Stored data that cannot be parsed is not an
    error: it reads as no record, so [getMessages] returns the empty list
    and [addMessage] replaces the file by the new record alone, with id 1.
    The write of the request log never fails its caller, and once the reset
    has cleared the stores, a failure to load or write the welcome message
    is not raised: the reset answers what its final read answers. *)
Theorem C9_read_failures_surface_parse_failures_do_not (env : Env) (w : World) :
  (unreadable env w ->
   (forall quantity reverseOrder,
      fails (FileMessageStorage.getMessages env messageStorage quantity reverseOrder) w) /\
   (forall message,
      fails (FileMessageStorage.addMessage env messageStorage message) w /\
      messagesJson (snd (FileMessageStorage.addMessage env messageStorage message w))
        = messagesJson w)) /\
  (diskFault env (fsCalls w) = false -> unparsable w ->
   (forall quantity reverseOrder,
      fst (FileMessageStorage.getMessages env messageStorage quantity reverseOrder w)
        = Returned []) /\
   (diskFault env (S (fsCalls w)) = false ->
    forall message, exists r w',
      FileMessageStorage.addMessage env messageStorage message w = (Returned r, w') /\
      id r = 1%Z /\ messagesJson w' = Some (Json [r]))) /\
  (forall rq data, exists w',
     LLMService.storeRequest env rq data w = (Returned tt, w') /\
     messagesJson w' = messagesJson w) /\
  (requestStorage env = true ->
   diskFault env (fsCalls w) = false -> diskFault env (S (fsCalls w)) = false ->
   exists w1 l,
     ChatService.clearAllMessages env w = ChatService.getAllMessages env JS.Null w1 /\
     messagesJson w1 = Some (Json l) /\ length l <= 1 /\
     (diskFault env (fsCalls w1) = false ->
      fst (ChatService.clearAllMessages env w) = Returned l)).
Proof.
  split; [|split; [|split]].
  - intros Hu. split.
    + intros quantity reverseOrder. apply unreadable_get_fails, Hu.
    + intros message. apply unreadable_add_fails, Hu.
  - intros Hf Hg. split.
    + intros quantity reverseOrder.
      rewrite (@unparsable_get_empty env w quantity reverseOrder Hf Hg). reflexivity.
    + intros Hf' message.
      destruct (@unparsable_add_overwrites env w message Hf Hf' Hg)
        as (r & w' & E & I & _ & M).
      exists r, w'. auto.
  - intros rq data.
    destruct (storeRequest_swallows env rq data w) as (w' & E & M & _).
    exists w'. auto.
  - intros Hr Hf Hf'.
    destruct (@reset_welcome_best_effort env w Hr Hf Hf') as (w1 & l & E & M & Hl & _ & R).
    exists w1, l. auto.
Qed.

(** Witness for C9: a missing file makes the read fail; a garbled file reads
    as empty, and the next append overwrites it with id 1. *)
Lemma C9_read_failures_surface_parse_failures_do_not_witness :
  let env := {| diskFault := fun _ => false; prompts := fun _ => inr "be brief";
                upstream := fun _ => inl "ECONNREFUSED";
                isoDate := fun n => Z.of_nat n; llmModel := "m"; requestStorage := true |} in
  let missing := {| messagesJson := None; requestsJson := None;
                    fsCalls := 0; dateCalls := 0; posted := [] |} in
  let garbled := {| messagesJson := Some Garbled; requestsJson := None;
                    fsCalls := 0; dateCalls := 0; posted := [] |} in
  let hi := {| fields := {| role := "user"; content := JS.Str "hi" |}; timestamp := None |} in
  unreadable env missing /\
  fails (FileMessageStorage.getMessages env messageStorage JS.Null false) missing /\
  diskFault env (fsCalls garbled) = false /\ unparsable garbled /\
  diskFault env (S (fsCalls garbled)) = false /\
  exists r w',
    FileMessageStorage.addMessage env messageStorage hi garbled = (Returned r, w') /\
    id r = 1%Z /\ messagesJson w' = Some (Json [r]).
Proof.
  intros env missing garbled hi.
  assert (Hu : unreadable env missing) by (right; reflexivity).
  assert (Hg : unparsable garbled) by reflexivity.
  split; [exact Hu|].
  destruct (@C9_read_failures_surface_parse_failures_do_not env missing) as [Hread _].
  destruct (Hread Hu) as [Hget _].
  split; [apply Hget|].
  destruct (@C9_read_failures_surface_parse_failures_do_not env garbled)
    as (_ & Hparse & _).
  destruct (Hparse eq_refl Hg) as [_ Hadd].
  repeat split; auto.
Defined.


(* ===================================================================== *)
(** * More on the file storage                                            *)
(* ===================================================================== *)

Section StorageLaws.
Variable env : Env.
Hypothesis disk_ok : healthy env.

Lemma turns_of w d : messagesJson w = Some d -> turns w = view d.
Proof. intros E. unfold turns. rewrite E. reflexivity. Qed.

Lemma get_after w l quantity reverseOrder :
  messagesJson w = Some (Json l) ->
  FileMessageStorage.getMessages env messageStorage quantity reverseOrder w =
    (fst (FileMessageStorage.getMessages env messageStorage quantity reverseOrder w),
     Fs.tick w).
Proof.
  intros Hl. unfold FileMessageStorage.getMessages.
  erewrite bind_returned by (apply messages_read; [apply disk_ok | exact Hl]).
  destruct (JS.truthy quantity && JS.is_number quantity); [destruct quantity|];
    reflexivity.
Qed.

Lemma last_n_one_snoc (A : Type) (l : list A) (x : A) : last_n 1 (l ++ [x]) = [x].
Proof.
  unfold last_n. rewrite rev_app_distr. reflexivity.
Qed.

(** Appending the messages of a run, one after the other. *)
Lemma issue_appends run :
  forall w,
    messagesJson w <> None ->
    exists added,
      turns (issue env (map Append run) w) = turns w ++ added /\
      map (@stored chatMessage) added = map (@fields chatMessage) run /\
      map (@id chatMessage) added =
        map (fun k => (FileMessageStorage.maxId (turns w) + 1 + Z.of_nat k)%Z)
            (seq 0 (length run)) /\
      messagesJson (issue env (map Append run) w) <> None /\
      requestsJson (issue env (map Append run) w) = requestsJson w /\
      posted (issue env (map Append run) w) = posted w.
Proof.
  induction run as [|message rest IH]; intros w Hw.
  - exists []. simpl. rewrite app_nil_r. repeat split; auto.
  - destruct (messagesJson w) as [d|] eqn:Hd; [|congruence].
    destruct (@add_returns env disk_ok w d message Hd)
      as (turn & w' & R & I & St & T & J & Rq & P).
    assert (Hw' : messagesJson w' <> None) by (rewrite J; discriminate).
    destruct (IH w' Hw') as (added & Ta & Sa & Ia & Ma & Ra & Pa).
    exists (turn :: added).
    cbn [map issue]. rewrite R. cbn [snd].
    rewrite Ta, T, <- app_assoc. cbn [app length seq map].
    repeat split; auto.
    + rewrite St, Sa. reflexivity.
    + f_equal; [rewrite I; lia|].
      rewrite Ia, T, (maxId_snoc (turns w) turn I), I.
      rewrite <- seq_shift, map_map. apply map_ext. intros k. lia.
    + rewrite Ra. exact Rq.
    + rewrite Pa. exact P.
Qed.

End StorageLaws.

(** X1. A record that has been appended is read back: the unlimited read
    returns the former records followed by it, the reversed read returns it
    first, and a read limited to 1 returns it alone, in either order. *)
Theorem X1_append_then_read (env : Env) (w : World) (message : payload chatMessage) :
  healthy env ->
  messagesJson w <> None ->
  exists turn w',
    FileMessageStorage.addMessage env messageStorage message w = (Returned turn, w') /\
    stored turn = fields message /\
    fst (FileMessageStorage.getMessages env messageStorage JS.Null false w')
      = Returned (turns w ++ [turn]) /\
    fst (FileMessageStorage.getMessages env messageStorage JS.Null true w')
      = Returned (turn :: rev (turns w)) /\
    forall reverseOrder,
      fst (FileMessageStorage.getMessages env messageStorage (JS.Num 1) reverseOrder w')
        = Returned [turn].
Proof.
  intros Hh Hw.
  destruct (messagesJson w) as [d|] eqn:Hd; [clear Hw|congruence].
  destruct (@add_returns env Hh w d message Hd) as (turn & w' & R & _ & St & _ & J & _).
  exists turn, w'. split; [exact R|]. split; [exact St|].
  split; [|split].
  - apply (@read_unlimited env w' _ Hh J JS.Null false). reflexivity.
  - rewrite (@read_unlimited env w' _ Hh J JS.Null true) by reflexivity.
    rewrite rev_app_distr. reflexivity.
  - intros reverseOrder.
    rewrite (@read_limited env w' _ Hh J 1%Z reverseOrder) by lia.
    change (Z.to_nat 1) with 1. rewrite last_n_one_snoc.
    destruct reverseOrder; reflexivity.
Qed.

(** Witness for X1: appending to a store of one turn. *)
Lemma X1_append_then_read_witness :
  let env := {| diskFault := fun _ => false; prompts := fun _ => inl "ENOENT";
                upstream := fun _ => inl "ECONNREFUSED"; isoDate := fun n => Z.of_nat n;
                llmModel := "m"; requestStorage := true |} in
  let first := {| id := 1; stored := {| role := "user"; content := JS.Str "hi" |};
                  at_time := 0%Z |} in
  let w := {| messagesJson := Some (Json [first]); requestsJson := None; fsCalls := 0;
              dateCalls := 0; posted := [] |} in
  let hello := {| fields := {| role := "assistant"; content := JS.Str "hello" |};
                  timestamp := None |} in
  healthy env /\ messagesJson w <> None /\
  exists turn w',
    FileMessageStorage.addMessage env messageStorage hello w = (Returned turn, w') /\
    fst (FileMessageStorage.getMessages env messageStorage JS.Null false w')
      = Returned [first; turn].
Proof.
  intros env first w hello.
  assert (Hh : healthy env) by (intros n; reflexivity).
  assert (Hw : messagesJson w <> None) by discriminate.
  split; [exact Hh|]. split; [exact Hw|].
  destruct (@X1_append_then_read env w hello Hh Hw) as (turn & w' & R & _ & G & _).
  exists turn, w'. split; [exact R|exact G].
Defined.

Lemma slice_from_drop (A : Type) (k : Z) (arr : list A) :
  (0 < k)%Z -> JS.slice_from k arr = skipn (Z.to_nat k) arr.
Proof.
  intros Hk. unfold JS.slice_from.
  destruct (Z.ltb_spec k 0); [lia|].
  destruct (Z.le_gt_cases k (Z.of_nat (length arr))) as [Hle|Hgt].
  - rewrite Z.min_l by exact Hle. reflexivity.
  - rewrite Z.min_r by lia. rewrite Nat2Z.id, skipn_all.
    symmetry. apply skipn_all2. lia.
Qed.

(** X2. A negative limit does not read from the end: [getMessages(-k)]
    drops the [k] oldest records and returns the rest (reversed on demand),
    which is nothing when the store holds [k] records or fewer. *)
Theorem X2_negative_limit_drops_oldest (env : Env) (w : World)
    (l : list (record chatMessage)) (k : Z) :
  healthy env ->
  messagesJson w = Some (Json l) ->
  (0 < k)%Z ->
  fst (FileMessageStorage.getMessages env messageStorage (JS.Num (- k)) false w)
    = Returned (skipn (Z.to_nat k) l) /\
  fst (FileMessageStorage.getMessages env messageStorage (JS.Num (- k)) true w)
    = Returned (rev (skipn (Z.to_nat k) l)) /\
  ((Z.of_nat (length l) <= k)%Z ->
   forall reverseOrder,
     fst (FileMessageStorage.getMessages env messageStorage (JS.Num (- k)) reverseOrder w)
       = Returned []).
Proof.
  intros Hh Hl Hk.
  assert (Hget : forall reverseOrder,
            fst (FileMessageStorage.getMessages env messageStorage (JS.Num (- k))
                   reverseOrder w)
            = Returned (if reverseOrder then rev (skipn (Z.to_nat k) l)
                        else skipn (Z.to_nat k) l)).
  { intros reverseOrder. unfold FileMessageStorage.getMessages.
    erewrite bind_returned by (apply messages_read; [apply Hh | exact Hl]).
    assert (Hnz : (- k =? 0)%Z = false) by lia.
    cbn [JS.truthy JS.is_number view]. rewrite Hnz. cbn [negb andb].
    rewrite Z.opp_involutive, slice_from_drop by exact Hk. reflexivity. }
  split; [apply (Hget false)|]. split; [apply (Hget true)|].
  intros Hall reverseOrder. rewrite Hget.
  rewrite skipn_all2 by lia. destruct reverseOrder; reflexivity.
Qed.

(** Witness for X2: three records read with limit -1. *)
Lemma X2_negative_limit_drops_oldest_witness :
  let env := {| diskFault := fun _ => false; prompts := fun _ => inl "ENOENT";
                upstream := fun _ => inl "ECONNREFUSED"; isoDate := fun n => Z.of_nat n;
                llmModel := "m"; requestStorage := true |} in
  let turn i t := {| id := i; stored := {| role := "user"; content := JS.Str t |};
                     at_time := i |} in
  let l := [turn 1%Z "a"; turn 2%Z "b"; turn 3%Z "c"] in
  let w := {| messagesJson := Some (Json l); requestsJson := None; fsCalls := 0;
              dateCalls := 0; posted := [] |} in
  healthy env /\ messagesJson w = Some (Json l) /\ (0 < 1)%Z /\
  fst (FileMessageStorage.getMessages env messageStorage (JS.Num (-1)) false w)
    = Returned [turn 2%Z "b"; turn 3%Z "c"].
Proof.
  intros env turn l w.
  assert (Hh : healthy env) by (intros n; reflexivity).
  split; [exact Hh|]. split; [reflexivity|]. split; [lia|].
  destruct (@X2_negative_limit_drops_oldest env w l 1%Z Hh eq_refl ltac:(lia))
    as [Hget _].
  exact Hget.
Defined.

Section Distinct.
Variable env : Env.
Hypothesis disk_ok : healthy env.

Lemma maxId_bounds (A : Type) (records : list (record A)) (r : record A) :
  In r records -> (id r <= FileMessageStorage.maxId records)%Z.
Proof.
  intros Hin. destruct (maxId_maximum records) as [[Hnil _]|[_ Hle]].
  - rewrite Hnil in Hin. contradiction.
  - apply Hle, Hin.
Qed.

Lemma fresh_id (A : Type) (records : list (record A)) :
  ~ In (FileMessageStorage.maxId records + 1)%Z (map (@id A) records).
Proof.
  intros Hin. apply in_map_iff in Hin. destruct Hin as (r & E & Hr).
  pose proof (maxId_bounds records r Hr). lia.
Qed.

Lemma distinct_snoc (A : Type) (records : list (record A)) (r : record A) :
  NoDup (map (@id A) records) ->
  id r = (FileMessageStorage.maxId records + 1)%Z ->
  NoDup (map (@id A) (records ++ [r])).
Proof.
  intros Hd Hr. rewrite map_app. apply NoDup_app.
  - exact Hd.
  - simpl. constructor; [intros []|constructor].
  - intros a Ha [<-|[]]. rewrite Hr in Ha. exact (fresh_id records Ha).
Qed.

Lemma issue_keeps_distinct calls :
  forall w,
    messagesJson w <> None ->
    NoDup (map (@id chatMessage) (turns w)) ->
    NoDup (map (@id chatMessage) (turns (issue env calls w))).
Proof.
  induction calls as [|[message|] rest IH]; intros w Hw Hd; simpl; auto.
  - destruct (messagesJson w) as [d|] eqn:E; [|congruence].
    destruct (@add_returns env disk_ok w d message E) as (turn & w' & R & I & _ & T & J & _).
    rewrite R. simpl. apply IH.
    + rewrite J. discriminate.
    + rewrite T. apply distinct_snoc; assumption.
  - rewrite (@messages_clear env w (disk_ok _)). simpl. apply IH.
    + discriminate.
    + constructor.
Qed.

End Distinct.

(** X3. On a store whose ids are safe integers, an append never returns an
    id that a stored record already has; and a store whose ids are pairwise
    distinct keeps them so, and keeps them safe, through any sequence of
    appends and clears that the safe range has room for.  (Past 2^53 the sum
    the code forms is rounded and can repeat the largest id.) *)
Theorem X3_ids_stay_distinct (env : Env) (w : World) :
  healthy env ->
  messagesJson w <> None ->
  (safe_ids (turns w) ->
   forall message, exists turn w',
     FileMessageStorage.addMessage env messageStorage message w = (Returned turn, w') /\
     ~ In (id turn) (map (@id chatMessage) (turns w))) /\
  (NoDup (map (@id chatMessage) (turns w)) ->
   forall calls,
     room_for (appends calls) (turns w) ->
     NoDup (map (@id chatMessage) (turns (issue env calls w))) /\
     safe_ids (turns (issue env calls w))).
Proof.
  intros Hh Hw. split.
  - intros _ message.
    destruct (messagesJson w) as [d|] eqn:Hd; [|congruence].
    destruct (@add_returns env Hh w d message Hd) as (turn & w' & R & I & _).
    exists turn, w'. split; [exact R|]. rewrite I. apply fresh_id.
  - intros Hd calls Hroom. split; [apply issue_keeps_distinct; assumption|].
    rewrite <- (Nat.add_0_r (appends calls)) in Hroom.
    destruct (@issue_room env Hh calls w 0 Hw Hroom) as [Hs _]. exact Hs.
Qed.

(** Witness for X3: a store whose ids have a gap. *)
Lemma X3_ids_stay_distinct_witness :
  let env := {| diskFault := fun _ => false; prompts := fun _ => inl "ENOENT";
                upstream := fun _ => inl "ECONNREFUSED"; isoDate := fun n => Z.of_nat n;
                llmModel := "m"; requestStorage := true |} in
  let turn i := {| id := i; stored := {| role := "user"; content := JS.Str "a" |};
                   at_time := i |} in
  let w := {| messagesJson := Some (Json [turn 7%Z; turn 2%Z]); requestsJson := None;
              fsCalls := 0; dateCalls := 0; posted := [] |} in
  let hi := {| fields := {| role := "user"; content := JS.Str "hi" |}; timestamp := None |} in
  healthy env /\ messagesJson w <> None /\
  NoDup (map (@id chatMessage) (turns w)) /\
  room_for (appends [Append hi; Append hi]) (turns w) /\
  NoDup (map (@id chatMessage) (turns (issue env [Append hi; Append hi] w))).
Proof.
  intros env turn w hi.
  assert (Hh : healthy env) by (intros n; reflexivity).
  assert (Hw : messagesJson w <> None) by discriminate.
  assert (Hd : NoDup (map (@id chatMessage) (turns w))).
  { simpl. constructor; [intros [E|[]]; discriminate|].
    constructor; [intros []|constructor]. }
  assert (Hr : room_for (appends [Append hi; Append hi]) (turns w)).
  { split; [|simpl; lia].
    repeat constructor; unfold safe_integer; simpl; lia. }
  split; [exact Hh|]. split; [exact Hw|]. split; [exact Hd|]. split; [exact Hr|].
  destruct (@X3_ids_stay_distinct env w Hh Hw) as [_ Hkeep].
  destruct (Hkeep Hd [Append hi; Append hi] Hr) as [Hdistinct _]. exact Hdistinct.
Defined.

(** X4. Whatever the store held, after a clear followed by [n] appends it
    holds exactly the [n] appended messages, in the order of the appends,
    with the ids 1 to [n]. *)
Theorem X4_clear_then_appends (env : Env) (w : World) (run : list (payload chatMessage)) :
  healthy env ->
  let w' := issue env (Clear :: map Append run) w in
  map (@stored chatMessage) (turns w') = map (@fields chatMessage) run /\
  map (@id chatMessage) (turns w') = map Z.of_nat (seq 1 (length run)).
Proof.
  intros Hh w'. subst w'. cbn [issue].
  rewrite (@messages_clear env w (Hh _)). cbn [snd].
  match goal with
  | |- context [issue env (map Append run) ?w0] =>
      destruct (@issue_appends env Hh run w0) as (added & T & St & I & _);
        [discriminate|]
  end.
  rewrite T. cbn [turns messagesJson view app]. split; [exact St|].
  rewrite I. cbn [turns messagesJson view FileMessageStorage.maxId map].
  rewrite <- seq_shift, map_map. apply map_ext. intros k. lia.
Qed.

(** Witness for X4: a garbled file, cleared, then two appends. *)
Lemma X4_clear_then_appends_witness :
  let env := {| diskFault := fun _ => false; prompts := fun _ => inl "ENOENT";
                upstream := fun _ => inl "ECONNREFUSED"; isoDate := fun n => Z.of_nat n;
                llmModel := "m"; requestStorage := true |} in
  let w := {| messagesJson := Some Garbled; requestsJson := None;
              fsCalls := 0; dateCalls := 0; posted := [] |} in
  let say t := {| fields := {| role := "user"; content := JS.Str t |}; timestamp := None |} in
  healthy env /\
  map (@id chatMessage) (turns (issue env [Clear; Append (say "a"); Append (say "b")] w))
    = [1%Z; 2%Z].
Proof.
  intros env w say.
  assert (Hh : healthy env) by (intros n; reflexivity).
  split; [exact Hh|].
  destruct (@X4_clear_then_appends env w [say "a"; say "b"] Hh) as [_ Hids].
  exact Hids.
Defined.

(** X5. Constructing the storage keeps the content of a file that exists,
    parsable or not, creates an empty store when the file is missing, never
    touches the other store, and doing it again changes nothing. *)
Theorem X5_ensureFileExists_keeps_content (env : Env) (w : World) :
  healthy env ->
  (forall d, messagesJson w = Some d -> messagesJson (opened env w) = Some d) /\
  (messagesJson w = None -> messagesJson (opened env w) = Some (Json [])) /\
  messagesJson (opened env (opened env w)) = messagesJson (opened env w) /\
  requestsJson (opened env w) = requestsJson w.
Proof.
  intros Hh.
  assert (Hkeep : forall w0 d, messagesJson w0 = Some d ->
                    messagesJson (opened env w0) = Some d).
  { intros w0 d Hd.
    unfold opened, FileMessageStorage.ensureFileExists, try_catch, Fs.access.
    rewrite Hh. simpl. rewrite Hd. simpl. exact Hd. }
  assert (Hnew : forall w0, messagesJson w0 = None ->
                   messagesJson (opened env w0) = Some (Json [])).
  { intros w0 Hd.
    unfold opened, FileMessageStorage.ensureFileExists, try_catch, Fs.access, Fs.writeFile.
    rewrite Hh. simpl. rewrite Hd. rewrite Hh. reflexivity. }
  split; [apply Hkeep|]. split; [apply Hnew|]. split.
  - destruct (messagesJson (opened env w)) as [d|] eqn:E.
    + apply Hkeep, E.
    + exfalso. apply (@opened_present env Hh w). exact E.
  - unfold opened, FileMessageStorage.ensureFileExists, try_catch, Fs.access, Fs.writeFile.
    rewrite Hh. simpl. destruct (messagesJson w); simpl; [reflexivity|].
    rewrite Hh. reflexivity.
Qed.

(** Witness for X5: a store of one turn is still there after construction. *)
Lemma X5_ensureFileExists_keeps_content_witness :
  let env := {| diskFault := fun _ => false; prompts := fun _ => inl "ENOENT";
                upstream := fun _ => inl "ECONNREFUSED"; isoDate := fun n => Z.of_nat n;
                llmModel := "m"; requestStorage := true |} in
  let kept := Json [{| id := 1; stored := {| role := "user"; content := JS.Str "hi" |};
                       at_time := 0%Z |}] in
  let w := {| messagesJson := Some kept; requestsJson := None;
              fsCalls := 0; dateCalls := 0; posted := [] |} in
  healthy env /\ messagesJson (opened env w) = Some kept.
Proof.
  intros env kept w.
  assert (Hh : healthy env) by (intros n; reflexivity).
  split; [exact Hh|].
  destruct (@X5_ensureFileExists_keeps_content env w Hh) as [Hkeep _].
  apply Hkeep. reflexivity.
Defined.

(** X6. Reading never writes: whatever the state of the disk, the limit and
    the order, [getMessages] leaves both storage files as they were, on the
    Message Store and on the Request Store alike.  A missing file is not
    created and an unparsable one is not repaired. *)
Theorem X6_getMessages_reads_only (env : Env) (w : World) (quantity : JS.value)
    (reverseOrder : bool) :
  same_files w (snd (FileMessageStorage.getMessages env messageStorage quantity
                       reverseOrder w)) /\
  same_files w (snd (FileMessageStorage.getMessages env requestStore quantity
                       reverseOrder w)).
Proof.
  unfold same_files, FileMessageStorage.getMessages, FileMessageStorage.readMessages,
    Fs.readFile, bind, try_catch, JSON_parse.
  simpl readPath.
  destruct (diskFault env (fsCalls w)); [repeat split|].
  split.
  - destruct (messagesJson w) as [[|l]|] eqn:E; simpl;
      destruct (JS.truthy quantity && JS.is_number quantity);
      try destruct quantity; simpl; rewrite ?E; repeat split.
  - destruct (requestsJson w) as [[|l]|] eqn:E; simpl;
      destruct (JS.truthy quantity && JS.is_number quantity);
      try destruct quantity; simpl; rewrite ?E; repeat split.
Qed.

(** X7. The reset is not atomic.  Both clears are started before either is
    awaited, so when the write that clears one store fails, the other store
    is cleared all the same; the reset then throws the write error and adds
    no welcome message. *)
Theorem X7_reset_is_not_atomic (env : Env) (w : World) :
  requestStorage env = true ->
  (diskFault env (fsCalls w) = true -> diskFault env (S (fsCalls w)) = false ->
   exists w',
     ChatService.clearAllMessages env w = (Threw "EIO: i/o error, write", w') /\
     messagesJson w' = messagesJson w /\
     requestsJson w' = Some (Json [])) /\
  (diskFault env (fsCalls w) = false -> diskFault env (S (fsCalls w)) = true ->
   exists w',
     ChatService.clearAllMessages env w = (Threw "EIO: i/o error, write", w') /\
     messagesJson w' = Some (Json []) /\
     requestsJson w' = requestsJson w).
Proof.
  intros Hr. split; intros Hf Hf'.
  - eexists. split.
    + unfold ChatService.clearAllMessages. rewrite Hr. apply bind_threw.
      unfold Promise_all2, FileMessageStorage.clearMessages,
        FileMessageStorage.writeMessages, Fs.writeFile.
      rewrite Hf. simpl. rewrite Hf'. reflexivity.
    + split; reflexivity.
  - eexists. split.
    + unfold ChatService.clearAllMessages. rewrite Hr. apply bind_threw.
      unfold Promise_all2, FileMessageStorage.clearMessages,
        FileMessageStorage.writeMessages, Fs.writeFile.
      rewrite Hf. simpl. rewrite Hf'. reflexivity.
    + split; reflexivity.
Qed.

(** Witness for X7: the first write fails, the second succeeds. *)
Lemma X7_reset_is_not_atomic_witness :
  let env := {| diskFault := fun n => Nat.eqb n 0; prompts := fun _ => inr "Welcome!";
                upstream := fun _ => inl "ECONNREFUSED"; isoDate := fun n => Z.of_nat n;
                llmModel := "m"; requestStorage := true |} in
  let hi := {| id := 1; stored := {| role := "user"; content := JS.Str "hi" |};
               at_time := 0%Z |} in
  let entry := {| id := 1;
                  stored := {| title := "hi";
                               request := {| messages := []; model := "m" |};
                               response := None |};
                  at_time := 0%Z |} in
  let w := {| messagesJson := Some (Json [hi]); requestsJson := Some (Json [entry]);
              fsCalls := 0; dateCalls := 0; posted := [] |} in
  requestStorage env = true /\
  diskFault env (fsCalls w) = true /\ diskFault env (S (fsCalls w)) = false /\
  exists w',
    ChatService.clearAllMessages env w = (Threw "EIO: i/o error, write", w') /\
    turns w' = [hi] /\ logged w' = [].
Proof.
  intros env hi entry w.
  split; [reflexivity|]. split; [reflexivity|]. split; [reflexivity|].
  destruct (@X7_reset_is_not_atomic env w eq_refl) as [Hfirst _].
  destruct (Hfirst eq_refl eq_refl) as (w' & E & M & R).
  exists w'. split; [exact E|].
  unfold turns, logged. rewrite M, R. split; reflexivity.
Defined.

(* ===================================================================== *)
(** * More on the request log                                             *)
(* ===================================================================== *)

Section RequestLog.
Variable env : Env.




(** When [storeRequest] cannot read a response content or a title, the
    error is swallowed before anything is written or any clock read. *)
Lemma storeRequest_skips (rq : requestBody) (data : option completion) (w : World) :
  loggable data = false \/ (forall s, LLMService.lastUserMessage rq <> JS.Str s) ->
  LLMService.storeRequest env rq data w = (Returned tt, w).
Proof.
  intros Hskip. unfold LLMService.storeRequest.
  destruct (requestStorage env); [|reflexivity].
  unfold try_catch, bind.
  destruct (LLMService.responseContent data w) as [[v|msg] w1] eqn:E.
  - assert (w1 = w /\ loggable data = true) as [-> Hl].
    { revert E. unfold LLMService.responseContent, loggable.
      destruct data as [[[[|first rest]|]]|]; simpl;
        try (intros E; inversion E; split; reflexivity).
      destruct (message first); intros E; inversion E; split; reflexivity. }
    destruct Hskip as [Hno|Hno]; [congruence|].
    destruct (LLMService.lastUserMessage rq) as [| |b|n| |s] eqn:L;
      try reflexivity.
    exfalso. apply (Hno s). reflexivity.
  - assert (w1 = w) as ->.
    { revert E. unfold LLMService.responseContent.
      destruct data as [[[[|first rest]|]]|]; simpl;
        try (intros E; inversion E; reflexivity).
      destruct (message first); intros E; inversion E; reflexivity. }
    reflexivity.
Qed.

End RequestLog.



(** X9. What the request log leaves out.  A call that the endpoint rejects
    is posted once and throws, wrapped, without any file being touched; a
    call that succeeds with a completion the log cannot read (the body
    [null], or a first choice without a message), or whose last user message
    is not a string, returns its completion all the same and leaves every
    file as it was. *)
Theorem X9_calls_that_are_not_logged (env : Env) (context : list chatMessage) (w : World) :
  let rq := {| messages := context; model := llmModel env |} in
  let w' := {| messagesJson := messagesJson w; requestsJson := requestsJson w;
               fsCalls := fsCalls w; dateCalls := dateCalls w;
               posted := posted w ++ [rq] |} in
  (forall cause, upstream env rq = inl cause ->
     LLMService.sendMessage env context w
       = (Threw ("Failed to get LLM response: " ++ cause), w')) /\
  (forall data, upstream env rq = inr data ->
     loggable data = false \/ (forall s, LLMService.lastUserMessage rq <> JS.Str s) ->
     LLMService.sendMessage env context w = (Returned data, w')).
Proof.
  intros rq w'. split.
  - intros cause Hu. unfold LLMService.sendMessage. fold rq.
    erewrite try_threw; [reflexivity|].
    apply bind_threw. unfold LLMService.axios_post. rewrite Hu. reflexivity.
  - intros data Hu Hskip. unfold LLMService.sendMessage. fold rq.
    apply try_returned.
    erewrite bind_returned
      by (unfold LLMService.axios_post; rewrite Hu; reflexivity).
    erewrite bind_returned by (apply storeRequest_skips; exact Hskip).
    reflexivity.
Qed.

(** Witness for X9: a completion whose first choice has no message. *)
Lemma X9_calls_that_are_not_logged_witness :
  let reply := Some {| choices := Some [{| message := None |}] |} in
  let env := {| diskFault := fun _ => false; prompts := fun _ => inr "be brief";
                upstream := fun _ => inr reply;
                isoDate := fun n => Z.of_nat n; llmModel := "m"; requestStorage := true |} in
  let ask := {| role := "user"; content := JS.Str "hi" |} in
  let w := {| messagesJson := Some (Json []); requestsJson := Some (Json []);
              fsCalls := 0; dateCalls := 0; posted := [] |} in
  upstream env {| messages := [ask]; model := llmModel env |} = inr reply /\
  loggable reply = false /\
  fst (LLMService.sendMessage env [ask] w) = Returned reply /\
  logged (snd (LLMService.sendMessage env [ask] w)) = [].
Proof.
  intros reply env ask w.
  split; [reflexivity|]. split; [reflexivity|].
  destruct (@X9_calls_that_are_not_logged env [ask] w) as [_ Hskip].
  rewrite (Hskip reply eq_refl (or_introl eq_refl)).
  split; reflexivity.
Defined.

Section Pieces.
Variable sep : ascii.

Lemma split_length (s : string) : length (JS.split sep s) = S (count_char sep s).
Proof.
  induction s as [|c rest IH]; simpl; [reflexivity|].
  destruct (Ascii.eqb c sep); simpl.
  - rewrite IH. reflexivity.
  - destruct (JS.split sep rest) as [|piece pieces]; simpl in *; [discriminate|exact IH].
Qed.

Lemma split_whole (s : string) : count_char sep s = 0 -> JS.split sep s = [s].
Proof.
  induction s as [|c rest IH]; simpl; [reflexivity|].
  destruct (Ascii.eqb c sep); simpl; [discriminate|].
  intros H. rewrite (IH H). reflexivity.
Qed.

Lemma split_at_first (piece rest : string) :
  count_char sep piece = 0 ->
  JS.split sep (piece ++ String sep rest) = piece :: JS.split sep rest.
Proof.
  induction piece as [|c piece IH]; simpl.
  - intros _. rewrite Ascii.eqb_refl. reflexivity.
  - destruct (Ascii.eqb c sep); simpl; [discriminate|].
    intros H. rewrite (IH H). reflexivity.
Qed.

Lemma split_pieces_free (s : string) :
  Forall (fun piece => count_char sep piece = 0) (JS.split sep s).
Proof.
  induction s as [|c rest IH]; simpl.
  - constructor; [reflexivity|constructor].
  - destruct (Ascii.eqb c sep) eqn:E.
    + constructor; [reflexivity|exact IH].
    + destruct (JS.split sep rest) as [|piece pieces].
      * constructor; [simpl; rewrite E; reflexivity|constructor].
      * inversion IH as [|? ? Hp Hps]; subst.
        constructor; [simpl; rewrite E; exact Hp|exact Hps].
Qed.

(** Splitting what was joined gives the pieces back, when no piece holds
    the separator. *)
Lemma split_join (pieces : list string) :
  pieces <> [] ->
  Forall (fun piece => count_char sep piece = 0) pieces ->
  JS.split sep (JS.join (String sep EmptyString) pieces) = pieces.
Proof.
  unfold JS.join.
  induction pieces as [|piece others IH]; intros Hne Hfree; [contradiction|].
  inversion Hfree as [|? ? Hp Hps]; subst.
  destruct others as [|next others'].
  - simpl. apply split_whole, Hp.
  - change (String.concat (String sep EmptyString) (piece :: next :: others'))
      with (piece ++ String sep (String.concat (String sep EmptyString) (next :: others')))%string.
    rewrite split_at_first by exact Hp.
    rewrite IH; [reflexivity|discriminate|exact Hps].
Qed.

End Pieces.

Lemma Forall_firstn (A : Type) (P : A -> Prop) (n : nat) (l : list A) :
  Forall P l -> Forall P (firstn n l).
Proof.
  intros H. revert n. induction H as [|x l Hx Hl IH]; intros [|n]; simpl;
    constructor; auto.
Qed.

(** X10. The title of a log entry ends in [...] exactly when the user
    message holds five spaces or more.  With at most four spaces the title
    is the message itself; otherwise it is a strictly shorter prefix with
    exactly four spaces, followed by [...]. *)
Theorem X10_title_cut_at_fifth_space (s : string) :
  (count_char " " s <= 4 -> LLMService.makeTitle s = s) /\
  (5 <= count_char " " s ->
   LLMService.makeTitle s = (LLMService.titleWords s ++ "...")%string /\
   count_char " " (LLMService.titleWords s) = 4 /\
   String.length (LLMService.titleWords s) < String.length s /\
   exists rest, s = (LLMService.titleWords s ++ rest)%string).
Proof.
  pose proof (split_length " " s) as Hlen.
  split.
  - intros Hfew.
    assert (Hkept : LLMService.titleWords s = s).
    { unfold LLMService.titleWords, JS.slice_to.
      rewrite firstn_all2 by lia. apply (join_split " "%char). }
    destruct (makeTitle_cases s) as [[_ E]|[Hne _]]; [exact E|contradiction].
  - intros Hmany.
    assert (Hsplit : JS.split " " (LLMService.titleWords s)
                     = firstn 5 (JS.split " " s)).
    { unfold LLMService.titleWords, JS.slice_to. apply split_join.
      - destruct (JS.split " " s) as [|piece pieces]; [simpl in Hlen; lia|discriminate].
      - apply Forall_firstn, split_pieces_free. }
    assert (Hfour : count_char " " (LLMService.titleWords s) = 4).
    { pose proof (split_length " " (LLMService.titleWords s)) as Hl.
      rewrite Hsplit, length_firstn in Hl. lia. }
    assert (Hne : LLMService.titleWords s <> s)
      by (intros E; rewrite E in Hfour; lia).
    destruct (makeTitle_cases s) as [[E _]|[_ E]]; [contradiction|].
    destruct (titleWords_prefix s) as [rest Hrest].
    split; [exact E|]. split; [exact Hfour|]. split; [|exists rest; exact Hrest].
    assert (Hl : String.length s
                 = String.length (LLMService.titleWords s) + String.length rest)
      by (rewrite Hrest at 1; apply length_append).
    destruct rest as [|c rest]; [|simpl in Hl; lia].
    rewrite append_empty_r in Hrest. symmetry in Hrest. contradiction.
Qed.

(** Witness for X10: five spaces in the message. *)
Lemma X10_title_cut_at_fifth_space_witness :
  5 <= count_char " " "one two three four five six" /\
  LLMService.makeTitle "one two three four five six" = "one two three four five...".
Proof.
  assert (H : 5 <= count_char " " "one two three four five six") by (simpl; lia).
  split; [exact H|].
  destruct (X10_title_cut_at_fifth_space "one two three four five six") as [_ Hcut].
  destruct (Hcut H) as [E _]. rewrite E. reflexivity.
Defined.

(* ===================================================================== *)
(** * The other entry points of the LLM service                           *)
(* ===================================================================== *)

Section Entries.
Variable env : Env.

(** What a call with options posts, and what it answers. *)
Lemma api_sendMessage_posts context options w :
  let rq := LLMServiceAPI.buildRequestBody env context options in
  exists w',
    LLMServiceAPI.sendMessage env context options w =
      (match upstream env rq with
       | inl cause => Threw ("Failed to get LLM response: " ++ cause)
       | inr data => Returned data
       end, w') /\
    messagesJson w' = messagesJson w /\ posted w' = posted w ++ [rq].
Proof.
  intros rq. unfold LLMServiceAPI.sendMessage, try_catch, bind at 1.
  fold rq. unfold LLMService.axios_post at 1.
  destruct (upstream env rq) as [cause|data].
  - eexists. split; [reflexivity|]. split; reflexivity.
  - match goal with
    | |- context [bind (LLMService.storeRequest env rq data) _ ?w0] =>
        destruct (storeRequest_swallows env rq data w0) as (w' & E & Hm & Hp)
    end.
    exists w'. unfold bind. rewrite E. simpl in *. repeat split; assumption.
Qed.

Lemma buildRequestBody_model context options :
  LLMServiceAPI.buildRequestBody env context options =
    {| messages := context;
       model := match option_model options with
                | Some m => m
                | None => llmModel env
                end |}.
Proof.
  unfold LLMServiceAPI.buildRequestBody. destruct (option_model options); reflexivity.
Qed.

End Entries.

(** X11. Which model a call with the additional model uses.  When no
    additional model is configured (absent or empty) the call is the plain
    [sendMessage] with the caller's options: no error, and the request
    carries the model of the options or else the default model.  When one
    is configured, the request posted carries the additional model,
    whatever model the options name, and the call answers what the endpoint
    answers to that request. *)
Theorem X11_additional_model_or_fallback (env : Env) (additional : option string)
    (context : list chatMessage) (options : callOptions) (w : World) :
  (configured additional = false ->
   LLMServiceAPI.sendMessageWithAdditionalModel env additional context options w
     = LLMServiceAPI.sendMessage env context options w /\
   posted (snd (LLMServiceAPI.sendMessageWithAdditionalModel env additional context
                  options w))
     = posted w ++ [{| messages := context;
                       model := match option_model options with
                                | Some m => m
                                | None => llmModel env
                                end |}]) /\
  (forall m, additional = Some m -> m <> EmptyString ->
   let rq := {| messages := context; model := m |} in
   exists w',
     LLMServiceAPI.sendMessageWithAdditionalModel env additional context options w =
       (match upstream env rq with
        | inl cause => Threw ("Failed to get LLM response: " ++ cause)
        | inr data => Returned data
        end, w') /\
     posted w' = posted w ++ [rq]).
Proof.
  split.
  - intros Hnone. unfold LLMServiceAPI.sendMessageWithAdditionalModel.
    rewrite Hnone. cbn [negb]. split; [reflexivity|].
    destruct (api_sendMessage_posts env context options w) as (w' & E & _ & P).
    rewrite E. cbn [snd]. rewrite P, buildRequestBody_model. reflexivity.
  - intros m -> Hm rq. unfold LLMServiceAPI.sendMessageWithAdditionalModel.
    assert (Hc : configured (Some m) = true).
    { simpl. destruct (String.eqb_spec m EmptyString); [contradiction|reflexivity]. }
    rewrite Hc. cbn [negb].
    destruct (api_sendMessage_posts env context
                (LLMServiceAPI.additionalOptions (Some m) options) w)
      as (w' & E & _ & P).
    rewrite buildRequestBody_model in E, P. cbn in E, P.
    exists w'. split; [exact E|exact P].
Qed.

(** Witness for X11: the options name a model, the additional one is used. *)
Lemma X11_additional_model_or_fallback_witness :
  let env := {| diskFault := fun _ => false; prompts := fun _ => inr "be brief";
                upstream := fun _ => inl "ECONNREFUSED";
                isoDate := fun n => Z.of_nat n; llmModel := "small"; requestStorage := true |} in
  let w := {| messagesJson := Some (Json []); requestsJson := Some (Json []);
              fsCalls := 0; dateCalls := 0; posted := [] |} in
  let ask := {| role := "user"; content := JS.Str "hi" |} in
  "large" <> EmptyString /\
  posted (snd (LLMServiceAPI.sendMessageWithAdditionalModel env (Some "large") [ask]
                 {| option_model := Some "other" |} w))
    = [{| messages := [ask]; model := "large" |}].
Proof.
  intros env w ask.
  assert (Hm : "large" <> EmptyString) by discriminate.
  split; [exact Hm|].
  destruct (@X11_additional_model_or_fallback env (Some "large") [ask]
              {| option_model := Some "other" |} w) as [_ Hsome].
  destruct (Hsome "large" eq_refl Hm) as (w' & E & P).
  rewrite E. exact P.
Defined.

(** X12. [ask] posts one request holding the question as its only message
    and answers with the content of the first choice.  It leaves the
    Message Store alone.  A rejected call throws the wrapped transport
    error; a completion without choices, which is also how an empty reply
    reads, throws [No response content from LLM]; the body [null], or a
    first choice without a message, throws a TypeError that nothing wraps. *)
Theorem X12_ask_outcomes (env : Env) (question : JS.value) (options : callOptions)
    (w : World) :
  let rq := LLMServiceAPI.buildRequestBody env [{| role := "user"; content := question |}]
              options in
  exists r w',
    LLMServiceAPI.ask env question options w = (r, w') /\
    posted w' = posted w ++ [rq] /\
    messagesJson w' = messagesJson w /\
    r = match upstream env rq with
        | inl cause => Threw ("Failed to get LLM response: " ++ cause)
        | inr None => Threw "TypeError: Cannot read properties of null (reading 'choices')"
        | inr (Some {| choices := Some (first :: _) |}) =>
            match message first with
            | Some answer => Returned (content answer)
            | None =>
                Threw "TypeError: Cannot read properties of undefined (reading 'content')"
            end
        | inr (Some _) => Threw "No response content from LLM"
        end.
Proof.
  intros rq.
  destruct (api_sendMessage_posts env [{| role := "user"; content := question |}] options w)
    as (w' & E & M & P).
  fold rq in E, P. unfold LLMServiceAPI.ask, bind. rewrite E.
  destruct (upstream env rq) as [cause|data].
  { do 2 eexists. split; [reflexivity|]. auto. }
  unfold LLMServiceAPI.firstContent.
  destruct data as [[[[|first rest]|]]|]; simpl;
    try (do 2 eexists; split; [reflexivity|]; auto).
  destruct (message first); do 2 eexists; (split; [reflexivity|]); auto.
Qed.

(** X13. [continueConversation] sends the conversation followed by the new
    user message, and returns that same sequence, the given conversation
    being kept as its prefix, followed by the message of the first choice
    when the completion has a choice.  A first choice without a message
    adds an undefined element; a completion without choices adds none. *)
Theorem X13_continueConversation_extends (env : Env) (history : list chatMessage)
    (newMessage : JS.value) (options : callOptions) (w : World) :
  let sent := history ++ [{| role := "user"; content := newMessage |}] in
  let rq := LLMServiceAPI.buildRequestBody env sent options in
  exists r w',
    LLMServiceAPI.continueConversation env history newMessage options w = (r, w') /\
    posted w' = posted w ++ [rq] /\
    messages rq = sent /\
    (forall first rest,
       upstream env rq = inr (Some {| choices := Some (first :: rest) |}) ->
       r = Returned {| conversation := map Some sent ++ [message first];
                       continued_response := Some {| choices := Some (first :: rest) |} |}) /\
    (forall data,
       upstream env rq = inr (Some data) ->
       choices data = None \/ choices data = Some [] ->
       r = Returned {| conversation := map Some sent; continued_response := Some data |}) /\
    (forall c, r = Returned c ->
       exists added, conversation c = map Some history ++ added /\
                     1 <= length added <= 2).
Proof.
  intros sent rq.
  destruct (api_sendMessage_posts env sent options w) as (w' & E & M & P).
  fold rq in E, P.
  assert (Hsent : messages rq = sent)
    by (unfold rq; rewrite buildRequestBody_model; reflexivity).
  unfold LLMServiceAPI.continueConversation, bind. fold sent. rewrite E.
  destruct (upstream env rq) as [cause|data].
  { do 2 eexists. split; [reflexivity|]. split; [exact P|]. split; [exact Hsent|].
    split; [discriminate|]. split; [discriminate|]. discriminate. }
  destruct data as [[[[|first rest]|]]|]; simpl.
  - do 2 eexists. split; [reflexivity|]. split; [exact P|]. split; [exact Hsent|].
    split; [discriminate|]. split.
    + intros data E1 _. inversion E1. reflexivity.
    + intros c Hc. inversion Hc. simpl. unfold sent. rewrite map_app.
      eexists. split; [reflexivity|]. simpl. lia.
  - do 2 eexists. split; [reflexivity|]. split; [exact P|]. split; [exact Hsent|].
    split.
    + intros f r0 E1. inversion E1. reflexivity.
    + split.
      * intros data E1 [H|H]; inversion E1; subst; simpl in H; discriminate.
      * intros c Hc. inversion Hc. simpl. unfold sent.
        rewrite map_app, <- app_assoc.
        eexists. split; [reflexivity|]. simpl. lia.
  - do 2 eexists. split; [reflexivity|]. split; [exact P|]. split; [exact Hsent|].
    split; [discriminate|]. split.
    + intros data E1 _. inversion E1. reflexivity.
    + intros c Hc. inversion Hc. simpl. unfold sent. rewrite map_app.
      eexists. split; [reflexivity|]. simpl. lia.
  - do 2 eexists. split; [reflexivity|]. split; [exact P|]. split; [exact Hsent|].
    split; [discriminate|]. split; [discriminate|]. discriminate.
Qed.

(** Witness for X13: a conversation of two messages continued. *)
Lemma X13_continueConversation_extends_witness :
  let answer := {| role := "assistant"; content := JS.Str "fine" |} in
  let reply := {| choices := Some [{| message := Some answer |}] |} in
  let env := {| diskFault := fun _ => false; prompts := fun _ => inr "be brief";
                upstream := fun _ => inr (Some reply);
                isoDate := fun n => Z.of_nat n; llmModel := "m"; requestStorage := false |} in
  let w := {| messagesJson := None; requestsJson := None;
              fsCalls := 0; dateCalls := 0; posted := [] |} in
  let hi := {| role := "user"; content := JS.Str "hi" |} in
  let hello := {| role := "assistant"; content := JS.Str "hello" |} in
  let next := {| role := "user"; content := JS.Str "how are you" |} in
  upstream env (LLMServiceAPI.buildRequestBody env ([hi; hello] ++ [next]) noOptions)
    = inr (Some reply) /\
  fst (LLMServiceAPI.continueConversation env [hi; hello] (JS.Str "how are you")
         noOptions w)
    = Returned {| conversation := [Some hi; Some hello; Some next; Some answer];
                  continued_response := Some reply |}.
Proof.
  intros answer reply env w hi hello next.
  split; [reflexivity|].
  destruct (@X13_continueConversation_extends env [hi; hello] (JS.Str "how are you")
              noOptions w) as (r & w' & E & _ & _ & Hchoice & _).
  rewrite E. cbn [fst].
  rewrite (Hchoice {| message := Some answer |} [] eq_refl). reflexivity.
Defined.

(** X14. Constructing the services.  The LLM service is created exactly
    when the key, the URL and the model are all configured and not empty;
    the additional model is optional.  Through the factory the only
    configuration error is the one naming the three environment variables:
    the messages of the constructor's own checks never surface.  The chat
    service reports a missing message storage before looking at the
    configuration, and otherwise wraps the configuration error. *)
Theorem X14_services_need_key_url_model (config : openaiConfig)
    (messageStorage requestStorage : bool) :
  let ready := configured (apiKey config) && configured (apiUrl config)
               && configured (configModel config) in
  let missing := "Missing required environment variables (LLM_KEY, LLM_API_URL, LLM_MODEL)." in
  (ready = true ->
   LLMServiceAPI.createLLMService config requestStorage =
     Returned {| service_apiKey := apiKey config; service_apiUrl := apiUrl config;
                 service_model := configModel config;
                 service_additionalModel := additionalModel config;
                 service_requestStorage := requestStorage |}) /\
  (ready = false -> LLMServiceAPI.createLLMService config requestStorage = Threw missing) /\
  (messageStorage = false ->
   ChatServiceSetup.createChatService config messageStorage requestStorage
     = Threw "Message storage is required for ChatService") /\
  (messageStorage = true -> ready = false ->
   ChatServiceSetup.createChatService config messageStorage requestStorage
     = Threw ("Failed to initialize ChatService: " ++ missing)) /\
  (messageStorage = true -> ready = true ->
   exists service,
     LLMServiceAPI.createLLMService config requestStorage = Returned service /\
     ChatServiceSetup.createChatService config messageStorage requestStorage
       = Returned {| chat_requestStorage := requestStorage; chat_llmService := service |}).
Proof.
  intros ready missing. subst ready.
  unfold ChatServiceSetup.createChatService, ChatServiceSetup.construct,
    ChatServiceSetup.initializeLLMService, LLMServiceAPI.createLLMService,
    LLMServiceAPI.construct.
  destruct (configured (apiKey config)), (configured (apiUrl config)),
    (configured (configModel config)), messageStorage; simpl;
    repeat split; intros; try discriminate; try reflexivity;
    eexists; split; reflexivity.
Qed.

(** Witness for X14: the model is configured as an empty string. *)
Lemma X14_services_need_key_url_model_witness :
  let config := {| apiKey := Some "k"; apiUrl := Some "https://llm.example/v1";
                   configModel := Some EmptyString; additionalModel := None |} in
  configured (apiKey config) && configured (apiUrl config)
    && configured (configModel config) = false /\
  ChatServiceSetup.createChatService config true true
    = Threw ("Failed to initialize ChatService: "
             ++ "Missing required environment variables (LLM_KEY, LLM_API_URL, LLM_MODEL).").
Proof.
  intros config.
  split; [reflexivity|].
  destruct (@X14_services_need_key_url_model config true true)
    as (_ & _ & _ & Hwrap & _).
  apply Hwrap; reflexivity.
Defined.

(* ===================================================================== *)
(** * More on the chat service                                            *)
(* ===================================================================== *)



(** X16. [ChatService.addMessage] stores a turn without calling the LLM.
    An empty content is refused before anything changes.  Any other
    content, string or not, is appended as one turn with the role given, or
    [user] when the role is absent or empty, and the timestamp given or the
    current time; nothing is posted and the request log is untouched.  On a
    store whose ids are safe integers the turn gets the next id. *)
Theorem X16_addMessage_bypasses_the_llm (env : Env) (data : messageData) (w : World) :
  (JS.truthy (data_content data) = false ->
   ChatService.addMessage env data w = (Threw "Message content is required", w)) /\
  (JS.truthy (data_content data) = true ->
   healthy env ->
   messagesJson w <> None ->
   exists turn w',
     ChatService.addMessage env data w = (Returned turn, w') /\
     content (stored turn) = data_content data /\
     role (stored turn) = match data_role data with
                          | Some r => if (r =? EmptyString)%string then "user" else r
                          | None => "user"
                          end /\
     at_time turn = match data_timestamp data with
                    | Some t => t
                    | None => isoDate env (dateCalls w)
                    end /\
     (safe_ids (turns w) -> id turn = (FileMessageStorage.maxId (turns w) + 1)%Z) /\
     turns w' = turns w ++ [turn] /\
     posted w' = posted w /\
     requestsJson w' = requestsJson w).
Proof.
  split.
  - intros Hf. unfold ChatService.addMessage. apply bind_threw.
    unfold ChatService.validateMessageContent. rewrite Hf. reflexivity.
  - intros Ht Hh Hw.
    destruct (messagesJson w) as [d|] eqn:Hd; [clear Hw|congruence].
    unfold ChatService.addMessage.
    erewrite bind_returned
      by (unfold ChatService.validateMessageContent; rewrite Ht; reflexivity).
    unfold ChatService.formatMessage.
    destruct (data_timestamp data) as [t|].
    + erewrite bind_returned by (erewrite bind_returned by reflexivity; reflexivity).
      erewrite messages_add; [|apply Hh|apply Hh|exact Hd].
      do 2 eexists. split; [reflexivity|].
      unfold turns. rewrite Hd. simpl. repeat split; intros; reflexivity.
    + erewrite bind_returned by (erewrite bind_returned by reflexivity; reflexivity).
      erewrite messages_add; [|apply Hh|apply Hh|exact Hd].
      do 2 eexists. split; [reflexivity|].
      unfold turns. rewrite Hd. simpl. repeat split; intros; reflexivity.
Qed.

(** Witness for X16: a number as content, no role, no timestamp. *)
Lemma X16_addMessage_bypasses_the_llm_witness :
  let env := {| diskFault := fun _ => false; prompts := fun _ => inr "be brief";
                upstream := fun _ => inl "ECONNREFUSED";
                isoDate := fun n => Z.of_nat n; llmModel := "m"; requestStorage := true |} in
  let w := {| messagesJson := Some (Json []); requestsJson := Some (Json []);
              fsCalls := 0; dateCalls := 0; posted := [] |} in
  let data := {| data_content := JS.Num 5; data_role := None; data_timestamp := None |} in
  JS.truthy (data_content data) = true /\ healthy env /\ messagesJson w <> None /\
  safe_ids (turns w) /\
  exists turn w',
    ChatService.addMessage env data w = (Returned turn, w') /\
    stored turn = {| role := "user"; content := JS.Num 5 |} /\
    id turn = 1%Z.
Proof.
  intros env w data.
  assert (Hh : healthy env) by (intros n; reflexivity).
  assert (Hw : messagesJson w <> None) by discriminate.
  assert (Hs : safe_ids (turns w)) by constructor.
  split; [reflexivity|]. split; [exact Hh|]. split; [exact Hw|]. split; [exact Hs|].
  destruct (@X16_addMessage_bypasses_the_llm env data w) as [_ Hadd].
  destruct (Hadd eq_refl Hh Hw) as (turn & w' & E & C & R & _ & I & _).
  exists turn, w'. split; [exact E|]. split; [|exact (I Hs)].
  destruct (stored turn) as [r c]. simpl in *. subst. reflexivity.
Defined.

Section TurnDetails.
Variable env : Env.
Hypothesis disk_ok : healthy env.
Variable s : string.
Variable userRole : string.
Hypothesis non_empty : s <> EmptyString.

(** The steps of [processUserMessage] that follow the building of the
    context. *)
Let afterContext (context : list chatMessage) : M (payload chatMessage) :=
  llmResponse <- ChatService.getLLMResponse env context ;;
  responseContent <- ChatService.extractAssistantContent llmResponse ;;
  assistantMessage <- ChatService.storeAssistantMessage env responseContent ;;
  ret assistantMessage.

Lemma turn_reaches_llm w :
  messagesJson w <> None ->
  exists user w2,
    ChatService.processUserMessage env (JS.Str s) userRole w
      = afterContext (contextFor env w userRole s) w2 /\
    stored user = {| role := userRole; content := JS.Str s |} /\
    id user = (FileMessageStorage.maxId (turns w) + 1)%Z /\
    messagesJson w2 = Some (Json (turns w ++ [user])) /\
    requestsJson w2 = requestsJson w /\
    posted w2 = posted w.
Proof.
  intros Hw. destruct (messagesJson w) as [d|] eqn:Hd; [clear Hw|congruence].
  assert (Ht : turns w = view d) by (unfold turns; rewrite Hd; reflexivity).
  destruct (@storeUserMessage_appends env disk_ok s userRole w d Hd)
    as (user & w1 & E1 & S1 & I1 & M1 & R1 & P1).
  destruct (@prepareConversationHistory_builds env disk_ok s userRole w1 _ M1)
    as (w2 & E2 & M2 & R2 & P2).
  exists user, w2.
  assert (Hctx : match prompts env "system.prompt.xml" with
                 | inl _ => map ChatService.strip (view d ++ [user])
                            ++ [{| role := userRole; content := JS.Str s |}]
                 | inr systemPrompt =>
                     systemMessage systemPrompt :: map ChatService.strip (view d ++ [user])
                 end = contextFor env w userRole s).
  { unfold contextFor. rewrite Ht, map_app. simpl map. rewrite strip_stored, S1.
    destruct (prompts env "system.prompt.xml"); [|reflexivity].
    rewrite <- app_assoc. reflexivity. }
  rewrite Hctx in E2.
  split.
  - unfold ChatService.processUserMessage.
    erewrite bind_returned by (apply validateUserMessage_accepts; exact non_empty).
    erewrite bind_returned by exact E1.
    erewrite bind_returned by exact E2.
    reflexivity.
  - rewrite Ht, <- I1. split; [exact S1|]. split; [reflexivity|].
    split; [rewrite M2; exact M1|]. split; [rewrite R2; exact R1|].
    rewrite P2. exact P1.
Qed.

(** The request a call posts is [requestFor], whatever the call answers. *)
Lemma turn_posts w :
  messagesJson w <> None ->
  posted (snd (ChatService.processUserMessage env (JS.Str s) userRole w))
    = posted w ++ [requestFor env w userRole s].
Proof.
  intros Hw.
  destruct (@processUserMessage_runs env disk_ok s userRole non_empty w Hw)
    as (user & rq & r & w' & E & Su & _ & P & Hmodel & Hctx & _).
  rewrite E. cbn [snd]. rewrite P. f_equal. f_equal.
  destruct rq as [ms md]. cbn in Hmodel, Hctx. subst md.
  unfold requestFor. f_equal. rewrite Hctx.
  unfold contextFor. rewrite map_app. simpl map. rewrite strip_stored, Su.
  destruct (prompts env "system.prompt.xml"); [|reflexivity].
  rewrite <- app_assoc. reflexivity.
Qed.

(** A first choice without a message: the call passes the validation of the
    response, logs nothing, and fails when the content is extracted. *)
Lemma turn_with_hollow_choice w rest :
  messagesJson w <> None ->
  upstream env (requestFor env w userRole s)
    = inr (Some {| choices := Some ({| message := None |} :: rest) |}) ->
  exists user w',
    ChatService.processUserMessage env (JS.Str s) userRole w
      = (Threw "TypeError: Cannot read properties of undefined (reading 'content')", w') /\
    stored user = {| role := userRole; content := JS.Str s |} /\
    turns w' = turns w ++ [user] /\
    requestsJson w' = requestsJson w.
Proof.
  intros Hw Hu.
  destruct (turn_reaches_llm w Hw) as (user & w2 & E & Su & _ & M2 & R2 & _).
  exists user. eexists. split.
  - rewrite E. unfold afterContext.
    erewrite bind_returned.
    2:{ unfold ChatService.getLLMResponse. apply try_returned.
        erewrite bind_returned.
        2:{ unfold LLMService.sendMessage. apply try_returned.
            erewrite bind_returned
              by (unfold LLMService.axios_post; fold (requestFor env w userRole s);
                  rewrite Hu; reflexivity).
            erewrite bind_returned
              by (apply storeRequest_skips; left; reflexivity).
            reflexivity. }
        erewrite bind_returned by reflexivity.
        reflexivity. }
    apply bind_threw. reflexivity.
  - split; [exact Su|]. cbn. unfold turns. cbn. rewrite M2. split; [reflexivity|exact R2].
Qed.

(** A completion with a reply, on a call made in the role [user] with a
    request log that works: the exchange is stored and logged. *)
Lemma turn_is_logged w data reply :
  messagesJson w <> None ->
  requestsJson w <> None ->
  requestStorage env = true ->
  userRole = "user" ->
  upstream env (requestFor env w userRole s) = inr data ->
  firstMessage data = Some reply ->
  exists user assistant entry w',
    snd (ChatService.processUserMessage env (JS.Str s) userRole w) = w' /\
    turns w' = turns w ++ [user; assistant] /\
    stored user = {| role := userRole; content := JS.Str s |} /\
    stored assistant = {| role := "assistant"; content := content reply |} /\
    logged w' = logged w ++ [entry] /\
    stored entry = {| title := LLMService.makeTitle s;
                      request := requestFor env w userRole s;
                      response := data |}.
Proof.
  intros Hw Hrw Hrs Hrole Hu Hf.
  destruct (turn_reaches_llm w Hw) as (user & w2 & E & Su & _ & M2 & R2 & P2).
  destruct (requestsJson w) as [d|] eqn:Hd; [clear Hrw|congruence].
  assert (Hlog : loggable data = true).
  { destruct data as [[[[|first rest]|]]|]; simpl in Hf; try discriminate.
    simpl. rewrite Hf. reflexivity. }
  assert (Hvalid : ChatService.validateLLMResponse data = ret tt).
  { destruct data as [[[[|first rest]|]]|]; simpl in Hf; try discriminate. reflexivity. }
  assert (Hextract : ChatService.extractAssistantContent data = ret (content reply)).
  { destruct data as [[[[|first rest]|]]|]; simpl in Hf; try discriminate.
    simpl. rewrite Hf. reflexivity. }
  assert (Hlast : LLMService.lastUserMessage (requestFor env w userRole s) = JS.Str s).
  { assert (Hm : last_user_message (requestFor env w userRole s)
                   {| role := userRole; content := JS.Str s |}).
    { unfold last_user_message, requestFor, contextFor. cbn [messages].
      destruct (prompts env "system.prompt.xml") as [cause|systemPrompt].
      - exists (map ChatService.strip (turns w)
                ++ [{| role := userRole; content := JS.Str s |}]), [].
        rewrite <- app_assoc. split; [reflexivity|]. split; [exact Hrole|intros x []].
      - exists (systemMessage systemPrompt :: map ChatService.strip (turns w)), [].
        split; [reflexivity|]. split; [exact Hrole|intros x []]. }
    rewrite (lastUserMessage_found Hm). reflexivity. }
  set (rq := requestFor env w userRole s) in *.
  set (w20 := {| messagesJson := messagesJson w2; requestsJson := requestsJson w2;
                 fsCalls := fsCalls w2; dateCalls := dateCalls w2;
                 posted := posted w2 ++ [rq] |}).
  assert (Hd0 : requestsJson w20 = Some d) by (cbn; rewrite R2; reflexivity).
  destruct (@storeRequest_logs env disk_ok Hrs rq data s w20 d Hd0 Hlog Hlast)
    as (entry & w3 & E3 & R3 & St & _ & M3 & _).
  assert (M3' : messagesJson w3 = Some (Json (turns w ++ [user])))
    by (rewrite M3; exact M2).
  destruct (@storeAssistantMessage_appends env disk_ok w3 _ (content reply) M3')
    as (assistant & w4 & E4 & Sa & _ & M4 & _).
  assert (R4 : requestsJson w4 = requestsJson w3).
  { revert E4. unfold ChatService.storeAssistantMessage.
    unfold bind at 1. unfold Date_now at 1.
    erewrite bind_returned
      by (apply messages_add; [apply disk_ok | apply disk_ok | exact M3']).
    unfold ret. intros E4. inversion E4. reflexivity. }
  exists user, assistant, entry, w4. split.
  - rewrite E. unfold afterContext.
    erewrite bind_returned.
    2:{ unfold ChatService.getLLMResponse. apply try_returned.
        erewrite bind_returned.
        2:{ unfold LLMService.sendMessage. apply try_returned.
            erewrite bind_returned
              by (unfold LLMService.axios_post;
                  change (upstream env {| messages := contextFor env w userRole s;
                                          model := llmModel env |})
                    with (upstream env rq);
                  rewrite Hu; reflexivity).
            erewrite bind_returned by exact E3.
            reflexivity. }
        rewrite Hvalid. erewrite bind_returned by reflexivity.
        reflexivity. }
    rewrite Hextract. erewrite bind_returned by reflexivity.
    erewrite bind_returned by exact E4.
    reflexivity.
  - split.
    { unfold turns. rewrite M4. cbn [view]. rewrite <- app_assoc. reflexivity. }
    split; [exact Su|]. split; [exact Sa|]. split; [|exact St].
    unfold logged. rewrite R4, R3, Hd. reflexivity.
Qed.

End TurnDetails.

(** X17. A completion whose first choice has no message passes the
    validation of the chat service.  The call then fails while extracting
    the reply, with a TypeError that is not wrapped as an LLM failure; the
    user's turn stays in the store and nothing is written to the request
    log. *)
Theorem X17_choice_without_message (env : Env) (s userRole : string) (w : World)
    (rest : list choice) :
  healthy env ->
  s <> EmptyString ->
  messagesJson w <> None ->
  upstream env (requestFor env w userRole s)
    = inr (Some {| choices := Some ({| message := None |} :: rest) |}) ->
  exists user w',
    ChatService.processUserMessage env (JS.Str s) userRole w
      = (Threw "TypeError: Cannot read properties of undefined (reading 'content')", w') /\
    stored user = {| role := userRole; content := JS.Str s |} /\
    turns w' = turns w ++ [user] /\
    posted w' = posted w ++ [requestFor env w userRole s] /\
    requestsJson w' = requestsJson w.
Proof.
  intros Hh Hs Hw Hu.
  destruct (@turn_with_hollow_choice env Hh s userRole Hs w rest Hw Hu)
    as (user & w' & E & Su & T & R).
  pose proof (@turn_posts env Hh s userRole Hs w Hw) as P.
  rewrite E in P. cbn [snd] in P.
  exists user, w'. auto.
Qed.

(** Witness for X17: an endpoint answering a choice without message. *)
Lemma X17_choice_without_message_witness :
  let hollow := Some {| choices := Some [{| message := None |}] |} in
  let env := {| diskFault := fun _ => false; prompts := fun _ => inr "be brief";
                upstream := fun _ => inr hollow;
                isoDate := fun n => Z.of_nat n; llmModel := "m"; requestStorage := true |} in
  let w := {| messagesJson := Some (Json []); requestsJson := Some (Json []);
              fsCalls := 0; dateCalls := 0; posted := [] |} in
  healthy env /\ "hi" <> EmptyString /\ messagesJson w <> None /\
  upstream env (requestFor env w "user" "hi") = inr hollow /\
  exists user w',
    ChatService.processUserMessage env (JS.Str "hi") "user" w
      = (Threw "TypeError: Cannot read properties of undefined (reading 'content')", w') /\
    turns w' = [user] /\ logged w' = [].
Proof.
  intros hollow env w.
  assert (Hh : healthy env) by (intros n; reflexivity).
  assert (Hs : "hi" <> EmptyString) by discriminate.
  assert (Hw : messagesJson w <> None) by discriminate.
  split; [exact Hh|]. split; [exact Hs|]. split; [exact Hw|]. split; [reflexivity|].
  destruct (@X17_choice_without_message env "hi" "user" w [] Hh Hs Hw eq_refl)
    as (user & w' & E & _ & T & _ & R).
  exists user, w'. split; [exact E|]. split; [exact T|].
  unfold logged. rewrite R. reflexivity.
Defined.

(** X18. A successful turn in the role [user] leaves one trace in each
    store: the user's turn and the assistant's reply in the Message Store,
    and one entry in the Request Store holding the request as posted, the
    completion as received, and a title made from the new content. *)
Theorem X18_exchange_is_stored_and_logged (env : Env) (s : string) (w : World)
    (data : option completion) (reply : chatMessage) :
  healthy env ->
  s <> EmptyString ->
  messagesJson w <> None ->
  requestsJson w <> None ->
  requestStorage env = true ->
  upstream env (requestFor env w "user" s) = inr data ->
  firstMessage data = Some reply ->
  let w' := snd (ChatService.processUserMessage env (JS.Str s) "user" w) in
  exists user assistant entry,
    turns w' = turns w ++ [user; assistant] /\
    stored user = {| role := "user"; content := JS.Str s |} /\
    stored assistant = {| role := "assistant"; content := content reply |} /\
    posted w' = posted w ++ [requestFor env w "user" s] /\
    logged w' = logged w ++ [entry] /\
    stored entry = {| title := LLMService.makeTitle s;
                      request := requestFor env w "user" s;
                      response := data |}.
Proof.
  intros Hh Hs Hw Hrw Hrs Hu Hf w'.
  destruct (@turn_is_logged env Hh s "user" Hs w data reply Hw Hrw Hrs eq_refl Hu Hf)
    as (user & assistant & entry & w1 & E & T & Su & Sa & L & St).
  pose proof (@turn_posts env Hh s "user" Hs w Hw) as P.
  subst w'. rewrite E in *.
  exists user, assistant, entry. auto 10.
Qed.

(** Witness for X18: a first exchange on empty stores. *)
Lemma X18_exchange_is_stored_and_logged_witness :
  let hello := {| role := "assistant"; content := JS.Str "hello" |} in
  let reply := Some {| choices := Some [{| message := Some hello |}] |} in
  let env := {| diskFault := fun _ => false; prompts := fun _ => inr "be brief";
                upstream := fun _ => inr reply;
                isoDate := fun n => Z.of_nat n; llmModel := "m"; requestStorage := true |} in
  let w := {| messagesJson := Some (Json []); requestsJson := Some (Json []);
              fsCalls := 0; dateCalls := 0; posted := [] |} in
  let w' := snd (ChatService.processUserMessage env (JS.Str "hi") "user" w) in
  healthy env /\ "hi" <> EmptyString /\ messagesJson w <> None /\
  requestsJson w <> None /\ requestStorage env = true /\
  upstream env (requestFor env w "user" "hi") = inr reply /\
  firstMessage reply = Some hello /\
  exists entry, logged w' = [entry] /\ title (stored entry) = "hi".
Proof.
  intros hello reply env w w'.
  assert (Hh : healthy env) by (intros n; reflexivity).
  assert (Hs : "hi" <> EmptyString) by discriminate.
  assert (Hw : messagesJson w <> None) by discriminate.
  assert (Hrw : requestsJson w <> None) by discriminate.
  repeat split; try assumption.
  destruct (@X18_exchange_is_stored_and_logged env "hi" w reply hello
              Hh Hs Hw Hrw eq_refl eq_refl eq_refl)
    as (user & assistant & entry & _ & _ & _ & _ & L & St).
  exists entry. split; [exact L|]. rewrite St. reflexivity.
Defined.

(** X19. The conversation is remembered from one turn to the next.  When
    the system prompt loads and a turn succeeds, the context posted by the
    next turn is the context of that turn followed by the reply it received
    and by the new user turn. *)
Theorem X19_next_turn_extends_the_context (env : Env) (s1 s2 userRole : string)
    (w : World) (data : option completion) (reply : chatMessage) (systemPrompt : string) :
  healthy env ->
  s1 <> EmptyString ->
  s2 <> EmptyString ->
  messagesJson w <> None ->
  prompts env "system.prompt.xml" = inr systemPrompt ->
  upstream env (requestFor env w userRole s1) = inr data ->
  firstMessage data = Some reply ->
  let w1 := snd (ChatService.processUserMessage env (JS.Str s1) userRole w) in
  let w2 := snd (ChatService.processUserMessage env (JS.Str s2) userRole w1) in
  messages (requestFor env w1 userRole s2)
    = messages (requestFor env w userRole s1)
      ++ [{| role := "assistant"; content := content reply |};
          {| role := userRole; content := JS.Str s2 |}] /\
  posted w2 = posted w ++ [requestFor env w userRole s1; requestFor env w1 userRole s2].
Proof.
  intros Hh Hs1 Hs2 Hw Hp Hu Hf w1 w2.
  destruct (@processUserMessage_runs env Hh s1 userRole Hs1 w Hw)
    as (user & rq & r & w1' & E & Su & _ & P & Hmodel & Hctx & Hcases).
  pose proof (@turn_posts env Hh s1 userRole Hs1 w Hw) as P1.
  assert (Hrq : rq = requestFor env w userRole s1).
  { rewrite E in P1. cbn [snd] in P1. rewrite P in P1.
    apply app_inv_head in P1. inversion P1. reflexivity. }
  subst rq. rewrite Hu in Hcases.
  destruct data as [[[[|first rest]|]]|]; simpl in Hf; try discriminate.
  rewrite Hf in Hcases. destruct Hcases as (assistant & _ & Sa & _ & T).
  assert (Ew1 : w1 = w1') by (subst w1; rewrite E; reflexivity).
  assert (Hw1 : messagesJson w1 <> None).
  { rewrite Ew1. intros Hnone. unfold turns in T at 1. rewrite Hnone in T.
    destruct (turns w); discriminate. }
  split.
  - unfold requestFor, contextFor. cbn [messages]. rewrite Hp.
    rewrite Ew1, T, map_app. cbn [map]. rewrite !strip_stored, Su, Sa.
    cbn [app]. rewrite <- !app_assoc. reflexivity.
  - subst w2. rewrite (@turn_posts env Hh s2 userRole Hs2 w1 Hw1).
    subst w1. rewrite P1, <- app_assoc. reflexivity.
Qed.

(** Witness for X19: two turns on an empty store. *)
Lemma X19_next_turn_extends_the_context_witness :
  let hello := {| role := "assistant"; content := JS.Str "hello" |} in
  let reply := Some {| choices := Some [{| message := Some hello |}] |} in
  let env := {| diskFault := fun _ => false; prompts := fun _ => inr "be brief";
                upstream := fun _ => inr reply;
                isoDate := fun n => Z.of_nat n; llmModel := "m"; requestStorage := true |} in
  let w := {| messagesJson := Some (Json []); requestsJson := Some (Json []);
              fsCalls := 0; dateCalls := 0; posted := [] |} in
  let w1 := snd (ChatService.processUserMessage env (JS.Str "hi") "user" w) in
  healthy env /\ "hi" <> EmptyString /\ "more" <> EmptyString /\
  messagesJson w <> None /\
  prompts env "system.prompt.xml" = inr "be brief" /\
  upstream env (requestFor env w "user" "hi") = inr reply /\
  firstMessage reply = Some hello /\
  messages (requestFor env w1 "user" "more")
    = [systemMessage "be brief"; {| role := "user"; content := JS.Str "hi" |}; hello;
       {| role := "user"; content := JS.Str "more" |}].
Proof.
  intros hello reply env w w1.
  assert (Hh : healthy env) by (intros n; reflexivity).
  assert (Hs1 : "hi" <> EmptyString) by discriminate.
  assert (Hs2 : "more" <> EmptyString) by discriminate.
  assert (Hw : messagesJson w <> None) by discriminate.
  split; [exact Hh|]. split; [exact Hs1|]. split; [exact Hs2|]. split; [exact Hw|].
  split; [reflexivity|]. split; [reflexivity|]. split; [reflexivity|].
  destruct (@X19_next_turn_extends_the_context env "hi" "more" "user" w reply hello
              "be brief" Hh Hs1 Hs2 Hw eq_refl eq_refl eq_refl) as [Hctx _].
  exact Hctx.
Defined.

(* ===================================================================== *)
(** * The text enhancement service                                        *)
(* ===================================================================== *)

Section Trimming.

Lemma isWhiteSpace_space (c : ascii) : is_space c = true -> JSString.isWhiteSpace c = true.
Proof. intros H. unfold JSString.isWhiteSpace. rewrite H. reflexivity. Qed.

(** Within the ASCII range the white space is the one of [is_space]. *)
Lemma isWhiteSpace_ascii (c : ascii) :
  ascii7 c = true -> JSString.isWhiteSpace c = is_space c.
Proof.
  destruct c as [b0 b1 b2 b3 b4 b5 b6 b7]. simpl. intros H.
  destruct b7; [discriminate|].
  destruct b0, b1, b2, b3, b4, b5, b6; reflexivity.
Qed.

Lemma trimStart_blank (s : string) : blank s = true -> JSString.trimStart s = EmptyString.
Proof.
  induction s as [|c rest IH]; simpl; [reflexivity|].
  destruct (is_space c) eqn:E; simpl; [|discriminate].
  rewrite (isWhiteSpace_space c E). exact IH.
Qed.

Lemma trimStart_shape (s : string) :
  JSString.trimStart s = EmptyString \/
  exists c rest, JSString.trimStart s = String c rest /\ JSString.isWhiteSpace c = false.
Proof.
  induction s as [|c rest IH]; simpl; [left; reflexivity|].
  destruct (JSString.isWhiteSpace c) eqn:E; [exact IH|].
  right. exists c, rest. split; [reflexivity|exact E].
Qed.

Lemma trimStart_empty (s : string) :
  ascii_text s = true -> JSString.trimStart s = EmptyString -> blank s = true.
Proof.
  induction s as [|c rest IH]; simpl; [reflexivity|].
  intros Ha. apply andb_true_iff in Ha. destruct Ha as [Hc Hrest].
  rewrite (isWhiteSpace_ascii c Hc).
  destruct (is_space c); simpl; [apply IH, Hrest|discriminate].
Qed.

Lemma trimEnd_kept (c : ascii) (rest : string) :
  JSString.isWhiteSpace c = false -> JSString.trimEnd (String c rest) <> EmptyString.
Proof.
  intros Hc. simpl. destruct (JSString.trimEnd rest); [rewrite Hc|]; discriminate.
Qed.

(** Trimming a blank text leaves nothing. *)
Lemma trim_blank (s : string) : blank s = true -> JSString.trim s = EmptyString.
Proof.
  intros H. unfold JSString.trim. rewrite (trimStart_blank s H). reflexivity.
Qed.

(** Trimming an ASCII text that is not blank leaves something. *)
Lemma trim_not_blank (s : string) :
  ascii_text s = true -> blank s = false -> JSString.trim s <> EmptyString.
Proof.
  intros Ha Hb. unfold JSString.trim.
  destruct (trimStart_shape s) as [E|(c & rest & E & Hc)].
  - rewrite (trimStart_empty s Ha E) in Hb. discriminate.
  - rewrite E. apply trimEnd_kept, Hc.
Qed.

Lemma length_zero_iff (s : string) : (String.length s =? 0)%nat = true <-> s = EmptyString.
Proof.
  destruct s; simpl; split; intros H; try reflexivity; discriminate.
Qed.

End Trimming.

Section Enhancing.
Variable env : Env.

Lemma validateTextInput_rejects (originalText : JS.value) (w : World) :
  (forall s, originalText = JS.Str s -> blank s = true) ->
  TextEnhancementService.validateTextInput originalText w
    = (Threw "Valid text content is required for enhancement", w).
Proof.
  intros Hblank. unfold TextEnhancementService.validateTextInput.
  destruct originalText as [| |b|n| |s]; try reflexivity.
  assert (Ht : JSString.trim s = EmptyString)
    by (apply trim_blank, Hblank; reflexivity).
  rewrite Ht. simpl. rewrite orb_true_r. reflexivity.
Qed.

Lemma validateTextInput_accepts (s : string) (w : World) :
  ascii_text s = true ->
  blank s = false ->
  TextEnhancementService.validateTextInput (JS.Str s) w = (Returned s, w).
Proof.
  intros Ha Hs. unfold TextEnhancementService.validateTextInput.
  assert (Hne : (s =? EmptyString)%string = false).
  { apply String.eqb_neq. intros ->. discriminate. }
  assert (Ht : (String.length (JSString.trim s) =? 0)%nat = false).
  { destruct (String.length (JSString.trim s) =? 0)%nat eqn:E; [|reflexivity].
    apply length_zero_iff in E. exfalso. exact (trim_not_blank s Ha Hs E). }
  rewrite Hne, Ht. reflexivity.
Qed.

(** The steps of [enhanceText] inside its [try]. *)
Let attempt (originalText : JS.value) : M enhancement :=
  text <- TextEnhancementService.validateTextInput originalText ;;
  systemPrompt <- TextEnhancementService.getEnhancementPrompt env ;;
  let messages := TextEnhancementService.buildLLMMessages systemPrompt text in
  llmResponse <- TextEnhancementService.sendToLLM env messages ;;
  TextEnhancementService.validateLLMResponse llmResponse ;;
  enhancedContent <- TextEnhancementService.extractEnhancedContent llmResponse ;;
  TextEnhancementService.buildSuccessResponse env text enhancedContent.

Lemma attempt_keeps_messages (originalText : JS.value) (w : World) :
  messagesJson (snd (attempt originalText w)) = messagesJson w.
Proof.
  unfold attempt, bind.
  destruct (TextEnhancementService.validateTextInput originalText w) as [[text|msg] w1] eqn:E1.
  2:{ revert E1. unfold TextEnhancementService.validateTextInput.
      destruct originalText as [| |b|n| |s]; try (intros E; inversion E; reflexivity).
      destruct ((s =? EmptyString)%string || (String.length (JSString.trim s) =? 0)%nat);
        intros E; inversion E; reflexivity. }
  assert (Hw1 : w1 = w).
  { revert E1. unfold TextEnhancementService.validateTextInput.
    destruct originalText as [| |b|n| |s]; try (intros E; inversion E; reflexivity).
    destruct ((s =? EmptyString)%string || (String.length (JSString.trim s) =? 0)%nat);
      intros E; inversion E; reflexivity. }
  subst w1.
  unfold TextEnhancementService.getEnhancementPrompt, loadPrompt.
  destruct (prompts env "text-enhancement.prompt.xml") as [cause|systemPrompt];
    [reflexivity|].
  cbn [ret].
  unfold TextEnhancementService.sendToLLM.
  destruct (sendMessage_posts env
              (TextEnhancementService.buildLLMMessages systemPrompt text) w)
    as (w2 & E2 & M2 & _).
  rewrite E2.
  destruct (upstream env _) as [cause|data]; [exact M2|].
  unfold TextEnhancementService.validateLLMResponse,
    TextEnhancementService.extractEnhancedContent.
  destruct (firstMessage data) as [msg|]; [|exact M2].
  cbn [ret throw].
  unfold TextEnhancementService.buildSuccessResponse.
  destruct (content msg); cbn; exact M2.
Qed.

End Enhancing.

(** X20. Failures of [enhanceText].  A text that is not a string, or that
    is empty or holds white space only, is refused before anything is
    posted or written: the world is as before.  Whatever goes wrong, the
    error thrown starts with [Text enhancement failed: ]; and whatever
    happens, the Message Store is left as it was. *)
Theorem X20_enhanceText_failures (env : Env) (originalText : JS.value) (w : World) :
  ((forall s, originalText = JS.Str s -> blank s = true) ->
   TextEnhancementService.enhanceText env originalText w
     = (Threw "Text enhancement failed: Valid text content is required for enhancement",
        w)) /\
  (forall msg, fst (TextEnhancementService.enhanceText env originalText w) = Threw msg ->
     exists cause, msg = ("Text enhancement failed: " ++ cause)%string) /\
  messagesJson (snd (TextEnhancementService.enhanceText env originalText w))
    = messagesJson w.
Proof.
  split; [|split].
  - intros Hblank. unfold TextEnhancementService.enhanceText.
    erewrite try_threw; [reflexivity|].
    apply bind_threw, validateTextInput_rejects, Hblank.
  - intros msg. unfold TextEnhancementService.enhanceText, try_catch.
    match goal with
    | |- context [match ?run with _ => _ end] => destruct run as [[done|cause] w1]
    end; cbn; intros E; [discriminate|].
    inversion E. exists cause. reflexivity.
  - pose proof (attempt_keeps_messages env originalText w) as Hkeep.
    unfold TextEnhancementService.enhanceText, try_catch.
    cbv zeta in Hkeep.
    match goal with
    | |- context [match ?run with _ => _ end] =>
        change (messagesJson (snd run) = messagesJson w) in Hkeep;
          destruct run as [[done|cause] w1]
    end; cbn in *; exact Hkeep.
Qed.

(** Witness for X20: a text of two spaces and a tab. *)
Lemma X20_enhanceText_failures_witness :
  let env := {| diskFault := fun _ => false; prompts := fun _ => inr "improve";
                upstream := fun _ => inl "ECONNREFUSED";
                isoDate := fun n => Z.of_nat n; llmModel := "m"; requestStorage := true |} in
  let w := {| messagesJson := Some (Json []); requestsJson := Some (Json []);
              fsCalls := 0; dateCalls := 0; posted := [] |} in
  let text := String " " (String " " (String "009" EmptyString)) in
  (forall s, JS.Str text = JS.Str s -> blank s = true) /\
  TextEnhancementService.enhanceText env (JS.Str text) w
    = (Threw "Text enhancement failed: Valid text content is required for enhancement",
       w).
Proof.
  intros env w text.
  assert (Hb : forall s, JS.Str text = JS.Str s -> blank s = true).
  { intros s E. inversion E. reflexivity. }
  split; [exact Hb|].
  destruct (@X20_enhanceText_failures env (JS.Str text) w) as [Hreject _].
  apply Hreject, Hb.
Defined.

(** X21. A successful enhancement.  For a text of ASCII characters that is
    not blank, with the enhancement prompt loaded and a completion whose
    first choice holds a string of ASCII characters, [enhanceText] posts one
    request made of the prompt as system message and the trimmed text as
    user message, and returns the trimmed text together with the trimmed
    content of that choice.  The chat history is not involved: the Message
    Store is left as it was.  (Outside the ASCII range [trim] strips further
    characters, the no-break space among them, and a text made of those is
    refused.) *)
Theorem X21_enhanceText_success (env : Env) (s systemPrompt t : string) (w : World)
    (data : option completion) (answer : chatMessage) :
  ascii_text s = true ->
  blank s = false ->
  prompts env "text-enhancement.prompt.xml" = inr systemPrompt ->
  let rq := {| messages := [systemMessage systemPrompt;
                            {| role := "user"; content := JS.Str (JSString.trim s) |}];
               model := llmModel env |} in
  upstream env rq = inr data ->
  firstMessage data = Some answer ->
  content answer = JS.Str t ->
  ascii_text t = true ->
  exists stamp w',
    TextEnhancementService.enhanceText env (JS.Str s) w
      = (Returned {| originalText := JSString.trim s;
                     enhancedText := JSString.trim t;
                     enhanced_at := stamp |}, w') /\
    posted w' = posted w ++ [rq] /\
    messagesJson w' = messagesJson w /\
    JSString.trim s <> EmptyString.
Proof.
  intros Ha Hs Hp rq Hu Hf Hc Hat.
  destruct (sendMessage_posts env
              (TextEnhancementService.buildLLMMessages systemPrompt s) w)
    as (w2 & E2 & M2 & P2).
  change {| messages := TextEnhancementService.buildLLMMessages systemPrompt s;
            model := llmModel env |} with rq in E2, P2.
  rewrite Hu in E2.
  do 2 eexists. split.
  - unfold TextEnhancementService.enhanceText. apply try_returned.
    erewrite bind_returned by (apply validateTextInput_accepts; assumption).
    erewrite bind_returned
      by (unfold TextEnhancementService.getEnhancementPrompt, loadPrompt;
          rewrite Hp; reflexivity).
    erewrite bind_returned by exact E2.
    erewrite bind_returned
      by (unfold TextEnhancementService.validateLLMResponse; rewrite Hf; reflexivity).
    erewrite bind_returned
      by (unfold TextEnhancementService.extractEnhancedContent; rewrite Hf; reflexivity).
    rewrite Hc. unfold TextEnhancementService.buildSuccessResponse.
    erewrite bind_returned by reflexivity.
    reflexivity.
  - cbn. split; [exact P2|]. split; [exact M2|]. apply trim_not_blank; assumption.
Qed.

(** Witness for X21: a padded text and a padded answer. *)
Lemma X21_enhanceText_success_witness :
  let answer := {| role := "assistant"; content := JS.Str " Better text. " |} in
  let reply := Some {| choices := Some [{| message := Some answer |}] |} in
  let env := {| diskFault := fun _ => false; prompts := fun _ => inr "improve";
                upstream := fun _ => inr reply;
                isoDate := fun n => Z.of_nat n; llmModel := "m"; requestStorage := false |} in
  let w := {| messagesJson := Some (Json []); requestsJson := Some (Json []);
              fsCalls := 0; dateCalls := 0; posted := [] |} in
  let rq := {| messages := [systemMessage "improve";
                            {| role := "user"; content := JS.Str "some text" |}];
               model := "m" |} in
  ascii_text "  some text " = true /\ blank "  some text " = false /\
  prompts env "text-enhancement.prompt.xml" = inr "improve" /\
  upstream env rq = inr reply /\ firstMessage reply = Some answer /\
  content answer = JS.Str " Better text. " /\ ascii_text " Better text. " = true /\
  exists stamp w',
    TextEnhancementService.enhanceText env (JS.Str "  some text ") w
      = (Returned {| originalText := "some text"; enhancedText := "Better text.";
                     enhanced_at := stamp |}, w') /\
    posted w' = [rq].
Proof.
  intros answer reply env w rq.
  split; [reflexivity|]. split; [reflexivity|]. split; [reflexivity|].
  split; [reflexivity|]. split; [reflexivity|]. split; [reflexivity|].
  split; [reflexivity|].
  destruct (@X21_enhanceText_success env "  some text " "improve" " Better text. " w
              reply answer eq_refl eq_refl eq_refl eq_refl eq_refl eq_refl eq_refl)
    as (stamp & w' & E & P & _).
  exists stamp, w'. split; [exact E|exact P].
Defined.

(* ===================================================================== *)
(** * The review filters                                                  *)
(* ===================================================================== *)

Section Reviews.

Lemma invalidReview_false (r : review) :
  ReviewSummaryService.invalidReview r = false <-> valid_review r.
Proof.
  unfold ReviewSummaryService.invalidReview, valid_review. split.
  - intros H. apply orb_false_iff in H. destruct H as [Ht Hr].
    apply negb_false_iff in Ht. split.
    + destruct (text r) as [| |b|n| |s]; try discriminate.
      exists s. split; [reflexivity|].
      apply negb_true_iff, String.eqb_neq in Ht. exact Ht.
    + destruct (rating r) as [n|]; [|discriminate].
      exists n. split; [reflexivity|].
      apply orb_false_iff in Hr. destruct Hr as [H1 H5]. lia.
  - intros [(s & Ht & Hs) (n & Hr & Hn)]. rewrite Ht, Hr.
    apply String.eqb_neq in Hs. rewrite Hs. simpl.
    apply orb_false_iff. split; lia.
Qed.

Lemma find_none_forall (reviews : list review) :
  find ReviewSummaryService.invalidReview reviews = None <-> Forall valid_review reviews.
Proof.
  induction reviews as [|r rest IH]; simpl.
  - split; [constructor|reflexivity].
  - destruct (ReviewSummaryService.invalidReview r) eqn:E.
    + split; [discriminate|]. intros H. inversion H as [|? ? Hr _]; subst.
      apply invalidReview_false in Hr. congruence.
    + rewrite IH. split.
      * intros H. constructor; [apply invalidReview_false, E|exact H].
      * intros H. inversion H; assumption.
Qed.

(** What [validateReviews] accepts. *)
Lemma validateReviews_accepts (reviews : list review) :
  ReviewSummaryService.validateReviews reviews = Returned tt <->
  reviews <> [] /\ Forall valid_review reviews.
Proof.
  unfold ReviewSummaryService.validateReviews.
  destruct reviews as [|r rest].
  - split; [discriminate|]. intros [H _]. contradiction.
  - destruct (find ReviewSummaryService.invalidReview (r :: rest)) eqn:E.
    + split; [discriminate|]. intros [_ H].
      apply find_none_forall in H. congruence.
    + split; [|reflexivity]. intros _. split; [discriminate|].
      apply find_none_forall, E.
Qed.

Lemma Forall_filter (A : Type) (P : A -> Prop) (p : A -> bool) (l : list A) :
  Forall P l -> Forall P (filter p l).
Proof.
  induction 1 as [|x l Hx Hl IH]; simpl; [constructor|].
  destruct (p x); [constructor; assumption|assumption].
Qed.

Lemma filter_filter (A : Type) (p q : A -> bool) (l : list A) :
  filter q (filter p l) = filter (fun x => p x && q x) l.
Proof.
  induction l as [|x l IH]; simpl; [reflexivity|].
  destruct (p x); simpl; [destruct (q x); rewrite IH; reflexivity|exact IH].
Qed.

Lemma atLeast_both (a b : Z) (r : review) :
  ReviewSummaryService.atLeast a r && ReviewSummaryService.atLeast b r
    = ReviewSummaryService.atLeast (Z.max a b) r.
Proof.
  unfold ReviewSummaryService.atLeast. destruct (rating r) as [n|]; [|reflexivity].
  destruct (Z.leb_spec a n), (Z.leb_spec b n), (Z.leb_spec (Z.max a b) n);
    simpl; try reflexivity; lia.
Qed.

Lemma filterByRating_returns (reviews : list review) (m : Z) :
  reviews <> [] -> Forall valid_review reviews -> (1 <= m <= 5)%Z ->
  ReviewSummaryService.filterReviewsByRating reviews (Whole m)
    = Returned (filter (ReviewSummaryService.atLeast m) reviews).
Proof.
  intros Hne Hv Hm. unfold ReviewSummaryService.filterReviewsByRating.
  rewrite (proj2 (validateReviews_accepts reviews) (conj Hne Hv)).
  assert (Hin : (m <? 1)%Z || (5 <? m)%Z = false) by (apply orb_false_iff; split; lia).
  rewrite Hin. reflexivity.
Qed.

Lemma filterByRating_inv (reviews kept : list review) (minRating : ratingValue) :
  ReviewSummaryService.filterReviewsByRating reviews minRating = Returned kept ->
  reviews <> [] /\ Forall valid_review reviews /\
  exists m, minRating = Whole m /\ (1 <= m <= 5)%Z /\
            kept = filter (ReviewSummaryService.atLeast m) reviews.
Proof.
  unfold ReviewSummaryService.filterReviewsByRating.
  destruct (ReviewSummaryService.validateReviews reviews) as [[]|msg] eqn:E; [|discriminate].
  apply validateReviews_accepts in E. destruct E as [Hne Hv].
  destruct minRating as [m|]; [|discriminate].
  destruct ((m <? 1)%Z || (5 <? m)%Z) eqn:Hin; [discriminate|].
  intros H. inversion H. apply orb_false_iff in Hin.
  split; [exact Hne|]. split; [exact Hv|].
  exists m. split; [reflexivity|]. split; [lia|reflexivity].
Qed.

End Reviews.

(** X22. Filtering reviews by rating.  What the filter returns are valid
    reviews of the given ones, each with a rating of at least the
    threshold.  With threshold 1 the reviews come back unchanged.  Filtering
    the result again is filtering once with the larger threshold, as long as
    the first result is not empty; on an empty result the second filter
    throws [At least one review is required]. *)
Theorem X22_rating_filters_compose (reviews kept : list review) (minRating : ratingValue) :
  ReviewSummaryService.filterReviewsByRating reviews minRating = Returned kept ->
  exists a, minRating = Whole a /\
    Forall valid_review kept /\
    (forall r, In r kept <-> In r reviews /\ exists n, rating r = Whole n /\ (a <= n)%Z) /\
    (a = 1%Z -> kept = reviews) /\
    (forall b, (1 <= b <= 5)%Z -> kept <> [] ->
       ReviewSummaryService.filterReviewsByRating kept (Whole b)
         = ReviewSummaryService.filterReviewsByRating reviews (Whole (Z.max a b))) /\
    (forall again, kept = [] ->
       ReviewSummaryService.filterReviewsByRating kept again
         = Threw "At least one review is required").
Proof.
  intros H. apply filterByRating_inv in H.
  destruct H as (Hne & Hv & a & -> & Ha & ->).
  exists a. split; [reflexivity|].
  assert (Hkept : Forall valid_review (filter (ReviewSummaryService.atLeast a) reviews))
    by (apply Forall_filter, Hv).
  split; [exact Hkept|]. split; [|split; [|split]].
  - intros r. rewrite filter_In. unfold ReviewSummaryService.atLeast. split.
    + intros [Hin Hr]. split; [exact Hin|].
      destruct (rating r) as [n|]; [|discriminate].
      exists n. split; [reflexivity|lia].
    + intros [Hin (n & Hr & Hn)]. split; [exact Hin|]. rewrite Hr. lia.
  - intros ->. apply filter_all. apply forallb_forall. intros r Hin.
    rewrite Forall_forall in Hv. destruct (Hv r Hin) as [_ (n & Hr & Hn)].
    unfold ReviewSummaryService.atLeast. rewrite Hr. lia.
  - intros b Hb Hsome.
    rewrite (filterByRating_returns Hsome Hkept Hb).
    rewrite (filterByRating_returns Hne Hv) by lia.
    rewrite filter_filter. f_equal. apply filter_ext. intros r. apply atLeast_both.
  - intros again ->. reflexivity.
Qed.

(** Witness for X22: three reviews filtered at 4. *)
Lemma X22_rating_filters_compose_witness :
  let rated n := {| text := JS.Str "fine"; rating := Whole n; sentiment := JS.Undefined |} in
  let reviews := [rated 5%Z; rated 2%Z; rated 4%Z] in
  ReviewSummaryService.filterReviewsByRating reviews (Whole 4)
    = Returned [rated 5%Z; rated 4%Z] /\
  ReviewSummaryService.filterReviewsByRating [rated 5%Z; rated 4%Z] (Whole 5)
    = ReviewSummaryService.filterReviewsByRating reviews (Whole 5).
Proof.
  intros rated reviews.
  assert (H : ReviewSummaryService.filterReviewsByRating reviews (Whole 4)
              = Returned [rated 5%Z; rated 4%Z]) by reflexivity.
  split; [exact H|].
  destruct (@X22_rating_filters_compose reviews [rated 5%Z; rated 4%Z] (Whole 4) H)
    as (a & Ea & _ & _ & _ & Hcompose & _).
  inversion Ea; subst a.
  apply (Hcompose 5%Z); [lia|discriminate].
Defined.

(** X23. Both review filters check the reviews before their own argument:
    an empty or invalid array is reported even when the threshold or the
    sentiment type is bad as well.  On valid reviews a threshold outside 1
    to 5 and a sentiment type other than the three known ones are refused,
    the latter with the list of the known types. *)
Theorem X23_filters_validate_reviews_first (reviews : list review)
    (minRating : ratingValue) (sentimentType : JS.value) :
  (forall msg, ReviewSummaryService.validateReviews reviews = Threw msg ->
     ReviewSummaryService.filterReviewsByRating reviews minRating = Threw msg /\
     ReviewSummaryService.filterReviewsBySentiment reviews sentimentType = Threw msg) /\
  (ReviewSummaryService.validateReviews reviews = Returned tt ->
   ((forall m, minRating = Whole m -> (1 <= m <= 5)%Z -> False) ->
    ReviewSummaryService.filterReviewsByRating reviews minRating
      = Threw "Minimum rating must be an integer between 1 and 5") /\
   ((forall known, In known ReviewSummaryService.validSentiments ->
                   sentimentType <> JS.Str known) ->
    ReviewSummaryService.filterReviewsBySentiment reviews sentimentType
      = Threw "Sentiment type must be one of: positive, negative, mixed")).
Proof.
  split.
  - intros msg Hbad.
    unfold ReviewSummaryService.filterReviewsByRating,
      ReviewSummaryService.filterReviewsBySentiment.
    rewrite Hbad. split; reflexivity.
  - intros Hok. split.
    + intros Hout. unfold ReviewSummaryService.filterReviewsByRating. rewrite Hok.
      destruct minRating as [m|]; [|reflexivity].
      destruct ((m <? 1)%Z || (5 <? m)%Z) eqn:Hin; [reflexivity|].
      exfalso. apply orb_false_iff in Hin. apply (Hout m eq_refl). lia.
    + intros Hunknown. unfold ReviewSummaryService.filterReviewsBySentiment. rewrite Hok.
      destruct sentimentType as [| |b|n| |wanted]; try reflexivity.
      destruct (existsb (String.eqb wanted) ReviewSummaryService.validSentiments) eqn:Hex;
        [|reflexivity].
      exfalso. apply existsb_exists in Hex. destruct Hex as (known & Hin & Heq).
      apply String.eqb_eq in Heq. subst known.
      exact (Hunknown wanted Hin eq_refl).
Qed.

(** Witness for X23: an empty array with a threshold of 9. *)
Lemma X23_filters_validate_reviews_first_witness :
  ReviewSummaryService.validateReviews [] = Threw "At least one review is required" /\
  ReviewSummaryService.filterReviewsByRating [] (Whole 9)
    = Threw "At least one review is required".
Proof.
  split; [reflexivity|].
  destruct (@X23_filters_validate_reviews_first [] (Whole 9) (JS.Str "angry"))
    as [Hfirst _].
  destruct (Hfirst "At least one review is required" eq_refl) as [Hr _].
  exact Hr.
Defined.

(* ===================================================================== *)
(** * The debug storage                                                   *)
(* ===================================================================== *)

(** X24. The debug storage keeps the latest entry only.  On a working disk,
    what is read after two stores is the second entry, stamped with the time
    of its store; after a clear nothing is read.  A store whose write fails
    leaves the previous entry in place, and a read that fails, or finds no
    file or an unparsable one, answers [null]. *)
Theorem X24_debug_storage_keeps_latest (env : Env) (A : Type) (disk : DebugDisk A)
    (first second : A) :
  (healthy env ->
   fst (DebugStorage.getDebugInfo env
          (DebugStorage.storeDebugInfo env second
             (DebugStorage.storeDebugInfo env first disk)))
     = Some {| stamped_at := isoDate env (S (debugDateCalls disk)); info := second |} /\
   fst (DebugStorage.getDebugInfo env
          (DebugStorage.clearDebugInfo env (DebugStorage.storeDebugInfo env first disk)))
     = None) /\
  (diskFault env (debugFsCalls disk) = true ->
   debugFile (DebugStorage.storeDebugInfo env first disk) = debugFile disk /\
   debugFile (DebugStorage.clearDebugInfo env disk) = debugFile disk /\
   fst (DebugStorage.getDebugInfo env disk) = None) /\
  (debugFile disk = None \/ debugFile disk = Some DebugGarbled ->
   fst (DebugStorage.getDebugInfo env disk) = None).
Proof.
  split; [|split].
  - intros Hh.
    unfold DebugStorage.getDebugInfo, DebugStorage.storeDebugInfo,
      DebugStorage.clearDebugInfo.
    cbn. rewrite ?Hh. cbn. rewrite ?Hh. cbn. rewrite ?Hh. split; reflexivity.
  - intros Hf.
    unfold DebugStorage.getDebugInfo, DebugStorage.storeDebugInfo,
      DebugStorage.clearDebugInfo.
    rewrite Hf. repeat split.
  - intros Hfile. unfold DebugStorage.getDebugInfo.
    destruct (diskFault env (debugFsCalls disk)); [reflexivity|].
    destruct Hfile as [-> | ->]; reflexivity.
Qed.

(** Witness for X24: two stores on an empty disk. *)
Lemma X24_debug_storage_keeps_latest_witness :
  let env := {| diskFault := fun _ => false; prompts := fun _ => inr "be brief";
                upstream := fun _ => inl "ECONNREFUSED";
                isoDate := fun n => Z.of_nat n; llmModel := "m"; requestStorage := true |} in
  let disk := {| debugFile := @None (debugText string); debugFsCalls := 0;
                 debugDateCalls := 0 |} in
  healthy env /\
  fst (DebugStorage.getDebugInfo env
         (DebugStorage.storeDebugInfo env "second"
            (DebugStorage.storeDebugInfo env "first" disk)))
    = Some {| stamped_at := 1%Z; info := "second" |}.
Proof.
  intros env disk.
  assert (Hh : healthy env) by (intros n; reflexivity).
  split; [exact Hh|].
  destruct (@X24_debug_storage_keeps_latest env string disk "first" "second") as [Hok _].
  destruct (Hok Hh) as [Hread _]. exact Hread.
Defined.

(* ===================================================================== *)
(** * The routes                                                          *)
(* ===================================================================== *)

Section Thrown.
Variable env : Env.
Variable P : string -> Prop.

Lemma throws_only_ret (A : Type) (a : A) : throws_only P (ret a).
Proof. intros w msg w' E. inversion E. Qed.

Lemma throws_only_throw (A : Type) (msg : string) : P msg -> throws_only P (@throw A msg).
Proof. intros H w m w' E. inversion E. subst. exact H. Qed.

Lemma throws_only_bind (A B : Type) (c : M A) (k : A -> M B) :
  throws_only P c -> (forall a, throws_only P (k a)) -> throws_only P (bind c k).
Proof.
  intros Hc Hk w msg w'. unfold bind.
  destruct (c w) as [[a|m] w1] eqn:E.
  - apply Hk.
  - intros E'. inversion E'. subst. apply (Hc w msg w' E).
Qed.

Lemma throws_only_try (A : Type) (c : M A) (h : string -> M A) :
  (forall m, throws_only P (h m)) -> throws_only P (try_catch c h).
Proof.
  intros Hh w msg w'. unfold try_catch.
  destruct (c w) as [[a|m] w1].
  - intros E. inversion E.
  - apply Hh.
Qed.

Lemma throws_only_Date_now : throws_only P (Date_now env).
Proof. intros w msg w' E. inversion E. Qed.

Hypothesis read_error : P "EIO: i/o error, read".
Hypothesis open_error : P "ENOENT: no such file or directory, open".
Hypothesis write_error : P "EIO: i/o error, write".

Lemma throws_only_readMessages :
  throws_only P (FileMessageStorage.readMessages env messageStorage).
Proof.
  apply throws_only_bind.
  - intros w msg w'. unfold Fs.readFile.
    destruct (diskFault env (fsCalls w)).
    + intros E. inversion E. exact read_error.
    + destruct (readPath messageStorage w); intros E; inversion E. exact open_error.
  - intros d. apply throws_only_try. intros _. apply throws_only_ret.
Qed.

Lemma throws_only_writeMessages records :
  throws_only P (FileMessageStorage.writeMessages env messageStorage records).
Proof.
  intros w msg w'. unfold FileMessageStorage.writeMessages, Fs.writeFile.
  destruct (diskFault env (fsCalls w)); intros E; inversion E. exact write_error.
Qed.

Lemma throws_only_addMessage message :
  throws_only P (FileMessageStorage.addMessage env messageStorage message).
Proof.
  apply throws_only_bind; [apply throws_only_readMessages|]. intros messages.
  apply throws_only_bind.
  - unfold FileMessageStorage.timestamp_or_now.
    destruct (timestamp message); [apply throws_only_ret|apply throws_only_Date_now].
  - intros t. apply throws_only_bind; [apply throws_only_writeMessages|].
    intros _. apply throws_only_ret.
Qed.

Lemma throws_only_getMessages quantity reverseOrder :
  throws_only P (FileMessageStorage.getMessages env messageStorage quantity reverseOrder).
Proof.
  apply throws_only_bind; [apply throws_only_readMessages|]. intros messages.
  destruct (JS.truthy quantity && JS.is_number quantity); [destruct quantity|];
    apply throws_only_ret.
Qed.

End Thrown.

Section ChatRoute.
Variable env : Env.

Lemma beyond_validation_prefixed (c : ascii) (rest : string) :
  c <> "M"%char -> c <> "T"%char -> beyond_validation (String c rest).
Proof.
  intros Hc Ht. split.
  - unfold Routes.messageOf.
    change (String.prefix "TypeError: " (String c rest))
      with (match ascii_dec "T" c with
            | left _ => String.prefix "ypeError: " rest
            | right _ => false
            end).
    destruct (ascii_dec "T" c) as [E|_]; [congruence|discriminate].
  - intros E. inversion E. contradiction.
Qed.

Ltac beyond :=
  first [ apply beyond_validation_prefixed; discriminate
        | split; [vm_compute; discriminate | discriminate] ].

(** Once the content has passed the validation, no error of the turn reads
    like the validation's. *)
Lemma turn_errors_beyond_validation (userContent : JS.value) (userRole : string) :
  JS.truthy userContent = true ->
  throws_only beyond_validation (ChatService.processUserMessage env userContent userRole).
Proof.
  intros Ht.
  assert (Hr : beyond_validation "EIO: i/o error, read")
    by beyond.
  assert (Ho : beyond_validation "ENOENT: no such file or directory, open")
    by beyond.
  assert (Hw : beyond_validation "EIO: i/o error, write")
    by beyond.
  unfold ChatService.processUserMessage.
  apply throws_only_bind.
  { unfold ChatService.validateUserMessage. rewrite Ht. apply throws_only_ret. }
  intros _. apply throws_only_bind.
  { unfold ChatService.storeUserMessage.
    apply throws_only_bind; [apply throws_only_Date_now|]. intros now.
    apply throws_only_bind; [apply throws_only_addMessage; assumption|]. intros message.
    destruct userContent; try apply throws_only_ret;
      apply throws_only_throw; beyond. }
  intros _. apply throws_only_bind.
  { unfold ChatService.prepareConversationHistory. apply throws_only_try. intros _.
    apply throws_only_bind; [apply throws_only_getMessages; assumption|].
    intros previous. apply throws_only_ret. }
  intros context. apply throws_only_bind.
  { unfold ChatService.getLLMResponse. apply throws_only_try. intros m.
    apply throws_only_throw. simpl. beyond. }
  intros llmResponse. apply throws_only_bind.
  { unfold ChatService.extractAssistantContent.
    destruct llmResponse as [[[[|first rest]|]]|]; simpl;
      try (apply throws_only_throw; beyond).
    destruct (message first); [apply throws_only_ret|].
    apply throws_only_throw; beyond. }
  intros responseContent. apply throws_only_bind.
  { unfold ChatService.storeAssistantMessage.
    apply throws_only_bind; [apply throws_only_Date_now|]. intros now.
    apply throws_only_bind; [apply throws_only_addMessage; assumption|]. intros message.
    apply throws_only_ret. }
  intros assistantMessage. apply throws_only_ret.
Qed.

Lemma js_or_truthy (a b : JS.value) :
  negb (JS.truthy a) && negb (JS.truthy b) = false -> JS.truthy (js_or a b) = true.
Proof.
  unfold js_or. destruct (JS.truthy a) eqn:Ha; simpl; [intros _; exact Ha|].
  intros Hb. apply negb_false_iff in Hb. exact Hb.
Qed.

End ChatRoute.

(** X25. The chat route.  Without a content and without a message it
    answers 400 and nothing changes.  Otherwise it hands the first of the
    two that is given to the chat service, with the role given or [user],
    and answers 200 with the reply the service returns, or 500 with
    [Error communicating with LLM service: ] followed by the message of the
    error the service throws, which is never empty and never the service's
    own [Message content is required].  The route itself never throws. *)
Theorem X25_chat_route (env : Env) (body : requestJson) (w : World) :
  let given := js_or (body_content body) (body_message body) in
  (JS.truthy (body_content body) = false -> JS.truthy (body_message body) = false ->
   Routes.postChat env body w
     = (Returned {| status := 400; json := ErrorJson "Please provide message content" |},
        w)) /\
  (JS.truthy given = true ->
   exists answer w',
     Routes.postChat env body w = (Returned answer, w') /\
     ((status answer = 200 /\
       exists reply,
         ChatService.processUserMessage env given (Routes.roleOrUser body) w
           = (Returned reply, w') /\
         json answer = ChatJson reply) \/
      (status answer = 500 /\
       exists cause,
         ChatService.processUserMessage env given (Routes.roleOrUser body) w
           = (Threw cause, w') /\
         json answer
           = ErrorJson ("Error communicating with LLM service: "
                        ++ Routes.messageOf cause)%string /\
         cause <> "Message content is required"))).
Proof.
  intros given. split.
  - intros Hc Hm. unfold Routes.postChat. rewrite Hc, Hm. reflexivity.
  - intros Hg.
    assert (Hgate : negb (JS.truthy (body_content body))
                    && negb (JS.truthy (body_message body)) = false).
    { unfold given, js_or in Hg.
      destruct (JS.truthy (body_content body)); [reflexivity|].
      rewrite Hg. reflexivity. }
    unfold Routes.postChat. rewrite Hgate. fold given.
    unfold try_catch, bind.
    destruct (ChatService.processUserMessage env given (Routes.roleOrUser body) w)
      as [[reply|cause] w'] eqn:E.
    + do 2 eexists. split; [reflexivity|]. left. split; [reflexivity|].
      exists reply. split; reflexivity.
    + destruct (@turn_errors_beyond_validation env given (Routes.roleOrUser body) Hg
                  w cause w' E) as [Hne Hnot].
      apply String.eqb_neq in Hne. rewrite Hne.
      do 2 eexists. split; [reflexivity|]. right. split; [reflexivity|].
      exists cause. split; [reflexivity|]. split; [reflexivity|exact Hnot].
Qed.

(** Witness for X25: only [message] is given and the endpoint is down. *)
Lemma X25_chat_route_witness :
  let env := {| diskFault := fun _ => false; prompts := fun _ => inr "be brief";
                upstream := fun _ => inl "ECONNREFUSED";
                isoDate := fun n => Z.of_nat n; llmModel := "m"; requestStorage := true |} in
  let w := {| messagesJson := Some (Json []); requestsJson := Some (Json []);
              fsCalls := 0; dateCalls := 0; posted := [] |} in
  let body := {| body_content := JS.Undefined; body_text := JS.Undefined;
                 body_message := JS.Str "hi"; body_role := None |} in
  JS.truthy (js_or (body_content body) (body_message body)) = true /\
  fst (Routes.postChat env body w)
    = Returned {| status := 500;
                  json := ErrorJson ("Error communicating with LLM service: "
                                     ++ "LLM API call failed: Failed to get LLM response: "
                                     ++ "ECONNREFUSED") |}.
Proof.
  intros env w body.
  split; [reflexivity|].
  destruct (@X25_chat_route env body w) as [_ Hgiven].
  destruct (Hgiven eq_refl) as (answer & w' & E & _).
  rewrite E. cbn [fst]. f_equal.
  assert (E' : fst (Routes.postChat env body w) = Returned answer)
    by (rewrite E; reflexivity).
  vm_compute in E'. inversion E'. reflexivity.
Defined.

Section MessagesRoute.
Variable env : Env.

Lemma js_or_falsy (a b : JS.value) :
  JS.truthy (js_or a b) = false -> JS.truthy a = false /\ JS.truthy b = false.
Proof.
  unfold js_or. destruct (JS.truthy a) eqn:Ha; intros H; [congruence|].
  split; [reflexivity|exact H].
Qed.

Lemma roleOrUser_given (body : requestJson) :
  (if (Routes.roleOrUser body =? EmptyString)%string then "user"
   else Routes.roleOrUser body) = Routes.roleOrUser body.
Proof.
  unfold Routes.roleOrUser. destruct (body_role body) as [r|]; [|reflexivity].
  destruct (r =? EmptyString)%string eqn:E; [reflexivity|]. rewrite E. reflexivity.
Qed.

End MessagesRoute.

(** X26. The messages route.  When none of [content], [text] and [message]
    is given it answers 400 and nothing changes.  Otherwise it never throws:
    it answers 201, or 500 with the fixed text
    [Server error while saving message] whatever went wrong.  On working
    storage with a message file in place the answer is 201 with the turn
    that was appended: its content is the first given of [content], [text],
    [message], its role the one given or [user] and its timestamp the time
    of the request; on a store whose ids are safe integers its id is the
    next one. *)
Theorem X26_messages_route (env : Env) (body : requestJson) (w : World) :
  let given := js_or (js_or (body_content body) (body_text body)) (body_message body) in
  (JS.truthy given = false ->
   Routes.postMessages env body w
     = (Returned {| status := 400; json := ErrorJson "Please provide message content" |},
        w)) /\
  (JS.truthy given = true ->
   exists answer w',
     Routes.postMessages env body w = (Returned answer, w') /\
     (status answer = 201 \/
      answer = {| status := 500; json := ErrorJson "Server error while saving message" |})) /\
  (JS.truthy given = true ->
   healthy env ->
   messagesJson w <> None ->
   exists turn w',
     Routes.postMessages env body w
       = (Returned {| status := 201;
                      json := SavedJson "Message received successfully" turn |}, w') /\
     stored turn = {| role := Routes.roleOrUser body; content := given |} /\
     at_time turn = isoDate env (dateCalls w) /\
     (safe_ids (turns w) -> id turn = (FileMessageStorage.maxId (turns w) + 1)%Z) /\
     turns w' = turns w ++ [turn]).
Proof.
  intros given.
  assert (Hgate : JS.truthy given = true ->
                  negb (JS.truthy (body_content body)) && negb (JS.truthy (body_text body))
                  && negb (JS.truthy (body_message body)) = false).
  { unfold given, js_or.
    destruct (JS.truthy (body_content body)) eqn:Hc; [reflexivity|]. cbv iota.
    destruct (JS.truthy (body_text body)) eqn:Hx; [reflexivity|]. cbv iota.
    intros ->. reflexivity. }
  split; [|split].
  - intros Hf. apply js_or_falsy in Hf. destruct Hf as [Hf Hm].
    apply js_or_falsy in Hf. destruct Hf as [Hc Hx].
    unfold Routes.postMessages. rewrite Hc, Hx, Hm. reflexivity.
  - intros Hg. unfold Routes.postMessages. rewrite (Hgate Hg).
    unfold try_catch.
    match goal with |- context [bind ?c ?k w] => destruct (bind c k w) as [[a|m] w'] eqn:E end.
    + do 2 eexists. split; [reflexivity|]. left.
      unfold bind in E.
      destruct (Date_now env w) as [[now|m1] w1]; [|discriminate].
      match type of E with
      | (let (_, _) := ?run in _) = _ => destruct run as [[saved|m2] w2]
      end; inversion E; reflexivity.
    + do 2 eexists. split; [reflexivity|]. right. reflexivity.
  - intros Hg Hh Hw.
    destruct (messagesJson w) as [d|] eqn:Hd; [clear Hw|congruence].
    unfold Routes.postMessages. rewrite (Hgate Hg). fold given.
    do 2 eexists. split.
    + apply try_returned.
      unfold bind at 1. unfold Date_now at 1.
      erewrite bind_returned.
      2:{ unfold ChatService.addMessage.
          erewrite bind_returned
            by (unfold ChatService.validateMessageContent; simpl; rewrite Hg; reflexivity).
          erewrite bind_returned by (unfold ChatService.formatMessage; reflexivity).
          apply messages_add; [apply Hh|apply Hh|exact Hd]. }
      reflexivity.
    + unfold turns. rewrite Hd. simpl. rewrite roleOrUser_given.
      repeat split; intros; reflexivity.
Qed.

(** Witness for X26: only [text] is given, with the role [assistant]. *)
Lemma X26_messages_route_witness :
  let env := {| diskFault := fun _ => false; prompts := fun _ => inr "be brief";
                upstream := fun _ => inl "ECONNREFUSED";
                isoDate := fun n => Z.of_nat n; llmModel := "m"; requestStorage := true |} in
  let w := {| messagesJson := Some (Json []); requestsJson := Some (Json []);
              fsCalls := 0; dateCalls := 0; posted := [] |} in
  let body := {| body_content := JS.Undefined; body_text := JS.Str "note";
                 body_message := JS.Str "other"; body_role := Some "assistant" |} in
  JS.truthy (js_or (js_or (body_content body) (body_text body)) (body_message body)) = true /\
  healthy env /\ messagesJson w <> None /\ safe_ids (turns w) /\
  exists turn w',
    Routes.postMessages env body w
      = (Returned {| status := 201;
                     json := SavedJson "Message received successfully" turn |}, w') /\
    stored turn = {| role := "assistant"; content := JS.Str "note" |} /\
    id turn = 1%Z.
Proof.
  intros env w body.
  assert (Hh : healthy env) by (intros n; reflexivity).
  assert (Hw : messagesJson w <> None) by discriminate.
  assert (Hs : safe_ids (turns w)) by constructor.
  split; [reflexivity|]. split; [exact Hh|]. split; [exact Hw|]. split; [exact Hs|].
  destruct (@X26_messages_route env body w) as (_ & _ & Hsaved).
  destruct (Hsaved eq_refl Hh Hw) as (turn & w' & E & S & _ & I & _).
  exists turn, w'. split; [exact E|]. split; [exact S|exact (I Hs)].
Defined.

(* ===================================================================== *)
(** * Asking the additional model                                         *)
(* ===================================================================== *)

(** X27. [askWithAdditionalModel] repeats the body of [ask]; the two agree:
    asking the additional model is [ask] with the model of the options
    replaced by the additional model when one is configured, and [ask] with
    the caller's options when none is.  With an additional model configured
    the one request posted names that model, whatever the options say. *)
Theorem X27_askWithAdditionalModel_is_ask (env : Env) (additional : option string)
    (question : JS.value) (options : callOptions) (w : World) :
  LLMServiceAPI.askWithAdditionalModel env additional question options w
    = LLMServiceAPI.ask env question
        (if configured additional then {| option_model := additional |} else options) w /\
  (forall m, additional = Some m -> m <> EmptyString ->
     posted (snd (LLMServiceAPI.askWithAdditionalModel env additional question options w))
       = posted w ++ [{| messages := [{| role := "user"; content := question |}];
                         model := m |}]).
Proof.
  assert (Hsame : LLMServiceAPI.askWithAdditionalModel env additional question options w
                  = LLMServiceAPI.ask env question
                      (if configured additional then {| option_model := additional |}
                       else options) w).
  { unfold LLMServiceAPI.askWithAdditionalModel.
    destruct (configured additional); reflexivity. }
  split; [exact Hsame|].
  intros m -> Hm. rewrite Hsame.
  assert (Hc : configured (Some m) = true).
  { simpl. destruct (String.eqb_spec m EmptyString); [contradiction|reflexivity]. }
  rewrite Hc. unfold LLMServiceAPI.ask, bind.
  destruct (api_sendMessage_posts env [{| role := "user"; content := question |}]
              {| option_model := Some m |} w) as (w' & E & _ & P).
  rewrite E. rewrite buildRequestBody_model in P. cbn in P.
  destruct (upstream env _) as [cause|data]; [exact P|].
  destruct (LLMServiceAPI.firstContent data w') as [r w''] eqn:F.
  assert (Hw : w'' = w').
  { unfold LLMServiceAPI.firstContent in F.
    destruct data as [[[[|first rest]|]]|]; simpl in F; try (inversion F; reflexivity).
    destruct (message first); inversion F; reflexivity. }
  subst w''. exact P.
Qed.

(** Witness for X27: the options name another model than the additional
    one. *)
Lemma X27_askWithAdditionalModel_is_ask_witness :
  let env := {| diskFault := fun _ => false; prompts := fun _ => inr "be brief";
                upstream := fun _ => inl "ECONNREFUSED";
                isoDate := fun n => Z.of_nat n; llmModel := "m"; requestStorage := true |} in
  let w := {| messagesJson := Some (Json []); requestsJson := Some (Json []);
              fsCalls := 0; dateCalls := 0; posted := [] |} in
  Some "large" = Some "large" /\ "large" <> EmptyString /\
  posted (snd (LLMServiceAPI.askWithAdditionalModel env (Some "large") (JS.Str "why")
                 {| option_model := Some "other" |} w))
    = [{| messages := [{| role := "user"; content := JS.Str "why" |}]; model := "large" |}].
Proof.
  intros env w.
  assert (Hm : "large" <> EmptyString) by discriminate.
  split; [reflexivity|]. split; [exact Hm|].
  destruct (@X27_askWithAdditionalModel_is_ask env (Some "large") (JS.Str "why")
              {| option_model := Some "other" |} w) as [_ Hposted].
  exact (Hposted "large" eq_refl Hm).
Defined.
